(** * Resource-governed signal pipeline: admission control, tiered cache,
      indicator scoring and signal fusion.

    A shallow embedding of the Python backend
    ([api/rate_limiter.py], [data/cache_manager.py],
    [indicators/technical.py], [ai_agent/signal_generator.py],
    [data/models.py]) together with the properties its specification
    states about it.

    Conventions of the embedding.
    - Python [int] is [Z]; [str] is [string]; a [dict] used as a map is
      a [gmap].
    - In the admission controller a Python [float] is a binary64 number
      ([PrimFloat.float]) and every operation on it rounds as Python's
      does; a number that is an [int] at one time and a [float] at
      another is a [PyFloat.number].
    - In the indicator and fusion engines a [float] that holds a market
      quantity (a price, an indicator value) is the rational [Q] it
      denotes; the comparisons with the thresholds of the code are then
      the comparisons the code makes.  Where these engines compute with
      integer scores in floating point (the overall score, the sentiment
      score, the position size) the arithmetic is done in binary64.
    - [Optional[T]] is [option T]; the truthiness test [if x:] on an
      optional number is [truthy], false for [None] and for zero.
    - A method that reads the clock, sleeps or may raise is a function in
      the state-and-exception monad [Py]; [try/except Exception] is
      [try_except].
    - [logger.*] calls have no effect on any modelled state and are left
      out. *)

From Stdlib Require Import ZArith QArith Qminmax Qround Qabs Lqa Lia List.
From Stdlib Require Import Floats Uint63.
From stdpp Require Import gmap strings.
Import ListNotations.

Set Warnings "-register-all".
Set Warnings "-inexact-float".

(** ** Numbers *)

Module PyNum.
Local Open Scope Q_scope.

(** [a < b] on floats, as a boolean. *)
Definition Qlt_bool (a b : Q) : bool := negb (Qle_bool b a).

(** [if x:] for a number: zero is false. *)
Definition nonzero (x : Q) : bool := negb (Qeq_bool x 0).

(** [if x:] for an [Optional[float]]. *)
Definition truthy (x : option Q) : bool :=
  match x with
  | None => false
  | Some v => nonzero v
  end.

(** [max(0, min(100, score))] on integers. *)
Definition clamp_0_100 (score : Z) : Z := Z.max 0 (Z.min 100 score).
End PyNum.

(** ** Effects: state and exceptions *)

Module PyEff.

Inductive exn : Type :=
| ZeroDivisionError
| KeyError
| TypeError
| ValueError
| ValidationError
| OverflowError
| ConnectionError
| ResponseError.

Inductive outcome (A : Type) : Type :=
| Returned (a : A)
| Raised (e : exn).
Arguments Returned {A} a.
Arguments Raised {A} e.

(** A computation over a mutable state [S]: it returns or raises, and
    whatever it had written to the state by then stays written. *)
Definition Py (S A : Type) : Type := S -> outcome A * S.

Definition ret {S A} (a : A) : Py S A := fun s => (Returned a, s).

Definition raise {S A} (e : exn) : Py S A := fun s => (Raised e, s).

Definition bind {S A B} (m : Py S A) (k : A -> Py S B) : Py S B :=
  fun s =>
    match m s with
    | (Returned a, s') => k a s'
    | (Raised e, s') => (Raised e, s')
    end.

(** [try: body / except Exception: handler]. *)
Definition try_except {S A} (body : Py S A) (handler : exn -> Py S A)
  : Py S A :=
  fun s =>
    match body s with
    | (Returned a, s') => (Returned a, s')
    | (Raised e, s') => handler e s'
    end.

Definition get {S} : Py S S := fun s => (Returned s, s).
Definition put {S} (s : S) : Py S unit := fun _ => (Returned tt, s).

(** Sequencing for code that can raise and has no state. *)
Definition and_then {A B} (r : outcome A) (k : A -> outcome B) : outcome B :=
  match r with
  | Returned a => k a
  | Raised e => Raised e
  end.

End PyEff.

(** ** Binary64 arithmetic *)

Module PyFloat.
Import PyEff.
Local Open Scope Z_scope.

(** [float(z)], as in [z * 0.4] or [z / 100].  Exact for an integer
    below 2^53 in size, which every score is. *)
Definition of_int (z : Z) : float :=
  if z <? 0 then PrimFloat.opp (PrimFloat.of_uint63 (Uint63.of_Z (- z)))
  else PrimFloat.of_uint63 (Uint63.of_Z z).

(** [int(x)]: the integer part of [x]; an infinity or a NaN has none. *)
Definition to_int (x : float) : outcome Z :=
  match Prim2SF x with
  | S754_zero _ => Returned 0
  | S754_finite negative m e =>
      let magnitude :=
        if 0 <=? e then Z.shiftl (Zpos m) e else Z.shiftr (Zpos m) (- e) in
      Returned (if negative then - magnitude else magnitude)
  | S754_infinity _ => Raised OverflowError
  | S754_nan => Raised ValueError
  end.

(** The rational a finite float is; an infinity or a NaN is none. *)
Definition rational (x : float) : option Q :=
  match Prim2SF x with
  | S754_zero _ => Some 0%Q
  | S754_finite negative m e =>
      let magnitude :=
        if 0 <=? e then inject_Z (Z.shiftl (Zpos m) e)
        else Qmake (Zpos m) (Z.to_pos (Z.shiftl 1 (- e))) in
      Some (if negative then Qopp magnitude else magnitude)
  | S754_infinity _ => None
  | S754_nan => None
  end.

(** The float nearest to the fraction [n / d], a tie going to the even
    one: what reading the decimal text of [n / 10] gives. *)
Definition of_ratio (n : Z) (d : positive) : float :=
  match n with
  | Z0 => 0%float
  | Zpos p =>
      SF2Prim (SFdiv prec emax (S754_finite false p 0) (S754_finite false d 0))
  | Zneg p =>
      SF2Prim (SFdiv prec emax (S754_finite true p 0) (S754_finite false d 0))
  end.

(** A rational that is not negative, rounded to the nearest integer, a
    tie going to the even one. *)
Definition round_half_even (q : Q) : Z :=
  let below := Qfloor q in
  let rest := (q - inject_Z below)%Q in
  match (rest ?= 1 # 2)%Q with
  | Lt => below
  | Gt => below + 1
  | Eq => if Z.odd below then below + 1 else below
  end.

(** [round(x, 1)]: the float nearest to [x] rounded to one decimal; the
    decimal is the one nearest to the exact value of [x], a tie going to
    the even one.  A zero, an infinity and a NaN are returned as they
    are. *)
Definition py_round1 (x : float) : float :=
  match Prim2SF x, rational x with
  | S754_finite negative _ _, Some q =>
      let r := of_ratio (round_half_even (Qabs q * 10)) 10 in
      if negative then (- r)%float else r
  | _, _ => x
  end.

(** An [int] of this size or more has no [float]: it is 2^1024 - 2^970,
    half a step beyond the largest float. *)
Definition float_limit : Z := Eval cbv in 2 ^ 1024 - 2 ^ 970.

(** [float(n)] for an [int] of any size, as the arithmetic converts the
    [int] operand of a mixed operation: the nearest float, a tie going to
    the even one. *)
Definition of_long (n : Z) : outcome float :=
  if float_limit <=? Z.abs n then Raised OverflowError
  else Returned (SF2Prim (binary_normalize prec emax n 0 false)).

(** A Python number that is an [int] or a [float]. *)
Inductive number : Type :=
| Int (z : Z)
| Flt (x : float).

Definition to_float (a : number) : outcome float :=
  match a with
  | Int z => of_long z
  | Flt x => Returned x
  end.

(** [a + b]: exact on two [int]s, in binary64 otherwise. *)
Definition add (a b : number) : outcome number :=
  match a, b with
  | Int x, Int y => Returned (Int (x + y))
  | _, _ =>
      and_then (to_float a) (fun x =>
      and_then (to_float b) (fun y => Returned (Flt (x + y)%float)))
  end.

(** [a - b]. *)
Definition sub (a b : number) : outcome number :=
  match a, b with
  | Int x, Int y => Returned (Int (x - y))
  | _, _ =>
      and_then (to_float a) (fun x =>
      and_then (to_float b) (fun y => Returned (Flt (x - y)%float)))
  end.

(** [a / b] for a [float] divisor. *)
Definition div (a : number) (b : float) : outcome float :=
  and_then (to_float a) (fun x =>
    if (b =? 0)%float then Raised ZeroDivisionError
    else Returned (x / b)%float).

(** How a [float] compares with an [int]: by their exact values, the
    [int] is not rounded; a NaN does not compare. *)
Definition compare_int (x : float) (n : Z) : option comparison :=
  match rational x with
  | Some q => Some (q ?= inject_Z n)%Q
  | None =>
      match Prim2SF x with
      | S754_infinity negative => Some (if negative then Lt else Gt)
      | _ => None
      end
  end.

(** [x < n]. *)
Definition lt_int (x : float) (n : Z) : bool :=
  match compare_int x n with
  | Some Lt => true
  | _ => false
  end.

(** [a >= n]. *)
Definition ge_int (a : number) (n : Z) : bool :=
  match a with
  | Int z => n <=? z
  | Flt x =>
      match compare_int x n with
      | Some Gt | Some Eq => true
      | _ => false
      end
  end.

(** [a <= n]. *)
Definition le_int (a : number) (n : Z) : bool :=
  match a with
  | Int z => z <=? n
  | Flt x =>
      match compare_int x n with
      | Some Lt | Some Eq => true
      | _ => false
      end
  end.

End PyFloat.

Declare Scope py_scope.
Delimit Scope py_scope with py.
Notation "x <- m ;; k" := (PyEff.bind m (fun x => k))
  (at level 90, m at level 80, right associativity) : py_scope.
Notation "m ;;; k" := (PyEff.bind m (fun _ => k))
  (at level 90, right associativity) : py_scope.

(** ** The wall clock of the event loop *)

Module Clock.
Import PyEff.

(** [clock] is what [time.time()] last returned, in seconds.  [latency]
    lists, for each coming reading of the clock, how much time passes
    before that reading is taken: scheduling delay, and after a sleep, by
    how much the sleep overran; an exhausted list means no further delay.
    A negative entry is a clock that was set back.  [slept] lists the
    delays [asyncio.sleep] was called with, the latest first. *)
Record World : Type := mkWorld {
  clock : float;
  latency : list float;
  slept : list float
}.

(** A method runs against the world and the object it is called on. *)
Record Frame (T : Type) : Type := mkFrame { world : World; self : T }.
Arguments mkFrame {T} world self.
Arguments world {T} f.
Arguments self {T} f.

(** What a call of a coroutine comes to: what a plain call comes to, or
    it stays pending at an [await] that is never resumed. *)
Inductive progress (A : Type) : Type :=
| Done (o : outcome A)
| Pending.
Arguments Done {A} o.
Arguments Pending {A}.

(** A coroutine method: whatever it had written to the object by the
    time it returns, raises or is suspended stays written. *)
Definition Task (T A : Type) : Type := Frame T -> progress A * Frame T.

Definition ret {T A} (a : A) : Task T A := fun fr => (Done (Returned a), fr).

Definition raise {T A} (e : exn) : Task T A := fun fr => (Done (Raised e), fr).

(** The result of an expression that reads no state. *)
Definition lift {T A} (o : outcome A) : Task T A := fun fr => (Done o, fr).

Definition bind {T A B} (m : Task T A) (k : A -> Task T B) : Task T B :=
  fun fr =>
    match m fr with
    | (Done (Returned a), fr') => k a fr'
    | (Done (Raised e), fr') => (Done (Raised e), fr')
    | (Pending, fr') => (Pending, fr')
    end.

(** The exit of a [with] block: [cleanup] runs when the body returns and
    when it raises. *)
Definition finally {T A} (body : Task T A) (cleanup : Frame T -> Frame T)
  : Task T A :=
  fun fr =>
    match body fr with
    | (Done o, fr') => (Done o, cleanup fr')
    | (Pending, fr') => (Pending, fr')
    end.

(** The world after the next reading of the clock. *)
Definition read (w : World) : World :=
  mkWorld (clock w + hd 0 (latency w))%float (tl (latency w)) (slept w).

(** [time.time()]. *)
Definition time_time {T} : Task T float :=
  fun fr =>
    let w := read (world fr) in
    (Done (Returned (clock w)), mkFrame w (self fr)).

(** The world after [asyncio.sleep] was called with [delay]: a delay
    that is not positive takes no time. *)
Definition rest (delay : float) (w : World) : World :=
  mkWorld (if (delay <=? 0)%float then clock w else (clock w + delay)%float)
          (latency w) (delay :: slept w).

(** [await asyncio.sleep(delay)].  A delay that is not positive returns
    at once and a positive one when it has passed.  A sleep without end
    is never resumed; what a NaN does is left open, as it depends on the
    version of [asyncio]. *)
Definition asyncio_sleep {T} (delay : float) : Task T unit :=
  fun fr =>
    if (delay <=? 0)%float || is_finite delay
    then (Done (Returned tt), mkFrame (rest delay (world fr)) (self fr))
    else (Pending, mkFrame (rest delay (world fr)) (self fr)).

Definition get_self {T} : Task T T :=
  fun fr => (Done (Returned (self fr)), fr).

Definition set_self {T} (x : T) : Task T unit :=
  fun fr => (Done (Returned tt), mkFrame (world fr) x).

End Clock.

Declare Scope aio_scope.
Delimit Scope aio_scope with aio.
Notation "x <- m ;; k" := (Clock.bind m (fun x => k))
  (at level 90, m at level 80, right associativity) : aio_scope.
Notation "m ;;; k" := (Clock.bind m (fun _ => k))
  (at level 90, right associativity) : aio_scope.

(** ** Admission controller: [api/rate_limiter.py] *)

Module TokenBucket.
Import PyEff Clock PyFloat.
Local Open Scope aio_scope.

(** The fields of a [TokenBucket].  [capacity] is an [int]; [tokens]
    starts as that [int], and a refill leaves it a [float] or, when it
    caps the count, the [int] capacity again; [refill_rate] and
    [last_refill] are [float]s.  [locked] says whether the
    [asyncio.Lock] of the bucket is held. *)
Record t : Type := mk {
  capacity : Z;
  refill_rate : float;
  tokens : number;
  last_refill : float;
  locked : bool
}.

Definition with_tokens (x : number) (b : t) : t :=
  mk (capacity b) (refill_rate b) x (last_refill b) (locked b).

Definition with_last_refill (x : float) (b : t) : t :=
  mk (capacity b) (refill_rate b) (tokens b) x (locked b).

Definition with_locked (x : bool) (b : t) : t :=
  mk (capacity b) (refill_rate b) (tokens b) (last_refill b) x.

(** [TokenBucket.__init__]. *)
Definition init (capacity : Z) (refill_rate : float) : Task unit t :=
  now <- time_time ;;
  ret (mk capacity refill_rate (Int capacity) now false).

(** [min(self.capacity, total)]: the [int] capacity unless the total is
    below it. *)
Definition py_min (capacity : Z) (total : number) : number :=
  match total with
  | Int z => if (z <? capacity)%Z then total else Int capacity
  | Flt x => if lt_int x capacity then total else Int capacity
  end.

(** [TokenBucket._refill]. *)
Definition _refill : Task t unit :=
  now <- time_time ;;
  b <- get_self ;;
  let elapsed := (now - last_refill b)%float in
  let tokens_to_add := (elapsed * refill_rate b)%float in
  total <- lift (PyFloat.add (tokens b) (Flt tokens_to_add)) ;;
  set_self (with_last_refill now (with_tokens (py_min (capacity b) total) b)).

(** [self.tokens -= tokens]. *)
Definition debit (units : Z) : Task t unit :=
  b <- get_self ;;
  remaining <- lift (PyFloat.sub (tokens b) (Int units)) ;;
  set_self (with_tokens remaining b).

(** [async with self._lock:].  A call that finds the lock held waits for
    it; calls are made one after the other here, so nobody is left to
    release it and the wait does not end. *)
Definition with_lock {A} (body : Task t A) : Task t A :=
  b <- get_self ;;
  if locked b then fun fr => (Pending, fr)
  else
    set_self (with_locked true b) ;;;
    finally body (fun fr => mkFrame (world fr) (with_locked false (self fr))).

(** [TokenBucket.acquire]. *)
Definition acquire (units : Z) : Task t bool :=
  with_lock
    (_refill ;;;
     b <- get_self ;;
     if ge_int (tokens b) units then
       debit units ;;;
       ret true
     else
       deficit <- lift (PyFloat.sub (Int units) (tokens b)) ;;
       wait_time <- lift (PyFloat.div deficit (refill_rate b)) ;;
       asyncio_sleep wait_time ;;;
       _refill ;;;
       debit units ;;;
       ret true).

(** [TokenBucket.get_available_tokens]. *)
Definition get_available_tokens (b : t) : number := tokens b.

End TokenBucket.

Module RateLimiter.
Import PyEff Clock PyFloat.
Local Open Scope aio_scope.

(** One entry of [self.stats]; [total_wait_time] starts as the [int] 0
    and is a [float] once a wait has been added. *)
Record Stats : Type := mkStats {
  total_requests : Z;
  successful_requests : Z;
  failed_requests : Z;
  total_wait_time : number
}.

Definition zero_stats : Stats := mkStats 0 0 0 (Int 0).

(** A [PriorityQueue]: the four deques by priority name.  Nothing on
    the acquire path adds to or takes from them. *)
Definition PriorityQueue : Type := list (string * list string).

Definition new_queue : PriorityQueue :=
  [("critical"%string, []); ("high"%string, []);
   ("medium"%string, []); ("low"%string, [])].

Record t : Type := mk {
  limiters : gmap string TokenBucket.t;
  request_queues : gmap string PriorityQueue;
  stats : gmap string Stats
}.

Definition empty : t := mk ∅ ∅ ∅.

(** [self.limiters[name] = TokenBucket(capacity, refill_rate)]. *)
Definition new_limiter (name : string) (capacity : Z) (refill_rate : float)
  : Task t unit :=
  fun fr =>
    match TokenBucket.init capacity refill_rate (mkFrame (world fr) tt) with
    | (Done (Returned b), fr') =>
        let rl := self fr in
        (Done (Returned tt),
         mkFrame (world fr')
           (mk (<[name := b]> (limiters rl)) (request_queues rl) (stats rl)))
    | (Done (Raised e), fr') => (Done (Raised e), mkFrame (world fr') (self fr))
    | (Pending, fr') => (Pending, mkFrame (world fr') (self fr))
    end.

(** The loop of [_init_limiters] over [self.limiters.keys()]. *)
Definition init_queues_and_stats (rl : t) : t :=
  mk (limiters rl)
     ((fun _ => new_queue) <$> limiters rl)
     ((fun _ => zero_stats) <$> limiters rl).

(** [RateLimiter._init_limiters]. *)
Definition _init_limiters : Task t unit :=
  new_limiter "coingecko" 45 0.75 ;;;
  new_limiter "binance" 1100 18.33 ;;;
  new_limiter "glassnode" 100 0.00115 ;;;
  new_limiter "cryptoquant" 300 0.00347 ;;;
  rl <- get_self ;;
  set_self (init_queues_and_stats rl).

(** [RateLimiter.__init__], run on the world [w]. *)
Definition init (w : World) : progress unit * Frame t :=
  _init_limiters (mkFrame w empty).

(** [await self.limiters[source].acquire(tokens)]: the bucket method
    runs on the bucket object stored under [source], which it mutates
    in place. *)
Definition on_limiter {A} (source : string) (m : Task TokenBucket.t A)
  : Task t A :=
  fun fr =>
    let rl := self fr in
    match limiters rl !! source with
    | None => (Done (Raised KeyError), fr)
    | Some b =>
        let '(r, fr') := m (mkFrame (world fr) b) in
        (r, mkFrame (world fr')
              (mk (<[source := self fr']> (limiters rl))
                  (request_queues rl) (stats rl)))
    end.

(** The two counters [acquire] steps for a call. *)
Definition counted (success : bool) (st : Stats) : Stats :=
  let st1 :=
    mkStats (total_requests st + 1) (successful_requests st)
            (failed_requests st) (total_wait_time st) in
  if success then
    mkStats (total_requests st1) (successful_requests st1 + 1)
            (failed_requests st1) (total_wait_time st1)
  else
    mkStats (total_requests st1) (successful_requests st1)
            (failed_requests st1 + 1) (total_wait_time st1).

Definition with_wait (x : number) (st : Stats) : Stats :=
  mkStats (total_requests st) (successful_requests st) (failed_requests st) x.

Definition with_stats (st : gmap string Stats) (rl : t) : t :=
  mk (limiters rl) (request_queues rl) st.

(** The statistics update of [acquire]: the counters are stepped, then
    the wait is added. *)
Definition update_stats (source : string) (success : bool) (wait_time : float)
  : Task t unit :=
  rl <- get_self ;;
  match stats rl !! source with
  | None => raise KeyError
  | Some st =>
      let st2 := counted success st in
      set_self (with_stats (<[source := st2]> (stats rl)) rl) ;;;
      total <- lift (PyFloat.add (total_wait_time st2) (Flt wait_time)) ;;
      set_self (with_stats (<[source := with_wait total st2]> (stats rl)) rl)
  end.

(** [RateLimiter.acquire].  [priority] only reaches the log. *)
Definition acquire (source : string) (priority : string) (units : Z)
  : Task t bool :=
  rl <- get_self ;;
  match limiters rl !! source with
  | None => ret true
  | Some _ =>
      start_time <- time_time ;;
      success <- on_limiter source (TokenBucket.acquire units) ;;
      end_time <- time_time ;;
      let wait_time := (end_time - start_time)%float in
      update_stats source success wait_time ;;;
      ret success
  end.

End RateLimiter.

(** What the admission controller is observed through: the token count
    of a bucket, the callers' sequence of calls, and the time a wait
    takes. *)

Module Admission.
Import PyEff Clock PyFloat.

(** The count a bucket holds once it is refilled at the reading
    [now]. *)
Definition available_at (b : TokenBucket.t) (now : float) : outcome number :=
  let elapsed := (now - TokenBucket.last_refill b)%float in
  and_then
    (PyFloat.add (TokenBucket.tokens b)
       (Flt (elapsed * TokenBucket.refill_rate b)%float))
    (fun total => Returned (TokenBucket.py_min (TokenBucket.capacity b) total)).

(** The time a call for [units] waits when it finds [available] tokens:
    the deficit over the refill rate. *)
Definition deficit_time (b : TokenBucket.t) (available : number) (units : Z)
  : outcome float :=
  and_then (PyFloat.sub (Int units) available)
    (fun deficit => PyFloat.div deficit (TokenBucket.refill_rate b)).

(** The bucket once a refill at the reading [now] has left it with the
    count [r]. *)
Definition topped (b : TokenBucket.t) (r : number) (now : float) : TokenBucket.t :=
  TokenBucket.with_last_refill now (TokenBucket.with_tokens r b).

(** The debit that ends a call, in the world [w]. *)
Definition debited (units : Z) (w : World) (b : TokenBucket.t)
  : progress bool * Frame TokenBucket.t :=
  match sub (TokenBucket.tokens b) (Int units) with
  | Returned remaining =>
      (Done (Returned true), mkFrame w (TokenBucket.with_tokens remaining b))
  | Raised e => (Done (Raised e), mkFrame w b)
  end.

(** A call that has to wait: the sleep, the second refill and the
    debit. *)
Definition waited (units : Z) (wait_time : float) (w : World) (b : TokenBucket.t)
  : progress bool * Frame TokenBucket.t :=
  let w2 := rest wait_time w in
  if (wait_time <=? 0)%float || is_finite wait_time then
    let w3 := read w2 in
    match available_at b (clock w3) with
    | Returned r => debited units w3 (topped b r (clock w3))
    | Raised e => (Done (Raised e), mkFrame w3 b)
    end
  else (Pending, mkFrame w2 (TokenBucket.with_locked true b)).

(** A number the arithmetic can take as a [float]. *)
Definition convertible (a : number) : Prop :=
  match a with
  | Int z => (Z.abs z < float_limit)%Z
  | Flt _ => True
  end.

(** A bucket whose [int]s are of moderate size. *)
Definition modest (b : TokenBucket.t) : Prop :=
  (Z.abs (TokenBucket.capacity b) < 2 ^ 64)%Z
  /\ match TokenBucket.tokens b with
     | Int z => (Z.abs z < 2 ^ 65)%Z
     | Flt _ => True
     end.

(** Calls made one after the other, each for one token of the named
    source with the named priority.  Idle time between two calls is the
    latency of the first clock reading of the later call. *)
Definition run (fr : Frame RateLimiter.t) (calls : list (string * string))
  : Frame RateLimiter.t :=
  fold_left (fun fr c => snd (RateLimiter.acquire (fst c) (snd c) 1 fr)) calls fr.

(** What holds of the count of a bucket between calls for one token: it
    is at most the capacity, or it is what the debit of one token leaves
    of a count that was. *)
Definition capped (b : TokenBucket.t) : Prop :=
  le_int (TokenBucket.tokens b) (TokenBucket.capacity b) = true
  \/ exists refilled : number,
       le_int refilled (TokenBucket.capacity b) = true
       /\ PyFloat.sub refilled (Int 1) = Returned (TokenBucket.tokens b).

End Admission.

(** ** Tiered cache: [data/cache_manager.py] *)

Module Json.

(** The values handed to the cache.  [PyObject str] is an object the
    JSON encoder has no native form for (a [datetime]), given by what
    [str()] returns for it.  A member of [SignalType] or [Timeframe] is a
    [str] to the encoder and is written as its value: it is a [PyStr].
    Dictionary keys are strings, and a value is a finite tree, so
    [json.dumps] with [default=str], which [set] calls in both modes
    before it looks at the mode, cannot fail on it. *)
Inductive PyValue : Type :=
| PyNone
| PyBool (b : bool)
| PyInt (z : Z)
| PyFloat (q : Q)
| PyStr (s : string)
| PyList (items : list PyValue)
| PyDict (entries : list (string * PyValue))
| PyObject (str : string).

(** A JSON text, represented by the document it denotes. *)
Inductive doc : Type :=
| JNull
| JBool (b : bool)
| JInt (z : Z)
| JFloat (q : Q)
| JStr (s : string)
| JArr (items : list doc)
| JObj (entries : list (string * doc)).

(** [json.dumps(value, default=str)]. *)
Fixpoint dumps (v : PyValue) : doc :=
  match v with
  | PyNone => JNull
  | PyBool b => JBool b
  | PyInt z => JInt z
  | PyFloat q => JFloat q
  | PyStr s => JStr s
  | PyList items => JArr (map dumps items)
  | PyDict entries => JObj (map (fun kv => (fst kv, dumps (snd kv))) entries)
  | PyObject str => JStr str
  end.

(** [json.loads(text)]. *)
Fixpoint loads (d : doc) : PyValue :=
  match d with
  | JNull => PyNone
  | JBool b => PyBool b
  | JInt z => PyInt z
  | JFloat q => PyFloat q
  | JStr s => PyStr s
  | JArr items => PyList (map loads items)
  | JObj entries => PyDict (map (fun kv => (fst kv, loads (snd kv))) entries)
  end.

(** A value built from JSON's own types only. *)
Fixpoint native (v : PyValue) : bool :=
  match v with
  | PyObject _ => false
  | PyList items => forallb native items
  | PyDict entries => forallb (fun kv => native (snd kv)) entries
  | _ => true
  end.

End Json.

Module Redis.
Import PyEff.

(** Modelled from the spec: the primary tier, that is the Redis server
    and the client library the cache manager talks to it with; neither is
    part of the sources.  The specification has it as a shared store that
    keeps a serialized payload with an expiry instant at now + ttl and
    never returns an entry once its time to live has elapsed, and that
    may fail to answer.  What follows is that store as the client sees
    it: the stored payloads with their expiry instants (microseconds on
    the clock [utcnow]), whether the server answers, and how many
    commands the client has sent. *)
Record Env : Type := mkEnv {
  utcnow : Z;
  db : gmap string (Json.doc * Z);
  up : bool;
  commands : nat
}.

Record Frame (T : Type) : Type := mkFrame { env : Env; self : T }.
Arguments mkFrame {T} env self.
Arguments env {T} f.
Arguments self {T} f.

Definition get_self {T} : Py (Frame T) T :=
  fun fr => (Returned (self fr), fr).

Definition set_self {T} (x : T) : Py (Frame T) unit :=
  fun fr => (Returned tt, mkFrame (env fr) x).

(** Modelled from the spec: a command to the primary tier is one round
    trip; it fails when the server does not answer. *)
Definition command {T A} (reply : Env -> outcome A * gmap string (Json.doc * Z))
  : Py (Frame T) A :=
  fun fr =>
    let e := env fr in
    let e1 := mkEnv (utcnow e) (db e) (up e) (S (commands e)) in
    if up e then
      let '(r, db') := reply e in
      (r, mkFrame (mkEnv (utcnow e) db' (up e) (S (commands e))) (self fr))
    else (Raised ConnectionError, mkFrame e1 (self fr)).

Definition microseconds (seconds : Z) : Z := (seconds * 1000000)%Z.

(** Modelled from the spec: [PING], the connection test. *)
Definition ping {T} : Py (Frame T) unit :=
  command (fun e => (Returned tt, db e)).

(** Modelled from the spec: [GET key] of the primary tier.  The reply is
    the payload until the time to live of the entry has elapsed, and
    nothing from then on or when the key is absent. *)
Definition get {T} (key : string) : Py (Frame T) (option Json.doc) :=
  command (fun e =>
    match db e !! key with
    | Some (payload, expires_at) =>
        if (utcnow e <? expires_at)%Z then (Returned (Some payload), db e)
        else (Returned None, db e)
    | None => (Returned None, db e)
    end).

(** Modelled from the spec: [SETEX key seconds payload] of the primary
    tier stores the payload with an expiry at now + ttl.  It is refused
    unless the time to live is positive and the expiry instant fits a
    signed 64-bit count of milliseconds. *)
Definition setex {T} (key : string) (ttl : Z) (payload : Json.doc)
  : Py (Frame T) unit :=
  command (fun e =>
    if ((0 <? ttl) && (utcnow e / 1000 + ttl * 1000 <=? 9223372036854775807))%Z
    then (Returned tt, <[key := (payload, (utcnow e + microseconds ttl)%Z)]> (db e))
    else (Raised ResponseError, db e)).

(** Modelled from the spec: [DEL key] of the primary tier, the explicit
    invalidation of an entry. *)
Definition del {T} (key : string) : Py (Frame T) unit :=
  command (fun e => (Returned tt, delete key (db e))).

End Redis.

Module CacheManager.
Import PyEff Redis.
Local Open Scope Z_scope.
Local Open Scope py_scope.

Definition TTL_PRICE : Z := 30.
Definition TTL_TECHNICAL : Z := 60.
Definition TTL_HISTORICAL : Z := 3600.
Definition TTL_MARKET_STATS : Z := 300.
Definition TTL_AI_ANALYSIS : Z := 600.

(** [redis_client] is [Some url] once a client object exists. *)
Record t : Type := mk {
  redis_url : string;
  redis_client : option string;
  fallback_cache : gmap string (Json.PyValue * Z);
  use_redis : bool
}.

(** [CacheManager.__init__]. *)
Definition init (redis_url : string) : t := mk redis_url None ∅ true.

Definition with_client (c : option string) (cm : t) : t :=
  mk (redis_url cm) c (fallback_cache cm) (use_redis cm).

Definition with_use_redis (b : bool) (cm : t) : t :=
  mk (redis_url cm) (redis_client cm) (fallback_cache cm) b.

Definition with_fallback (f : gmap string (Json.PyValue * Z)) (cm : t) : t :=
  mk (redis_url cm) (redis_client cm) f (use_redis cm).

(** [self.use_redis and self.redis_client]. *)
Definition primary (cm : t) : bool :=
  use_redis cm && bool_decide (is_Some (redis_client cm)).

(** The range of [datetime]: years 1 to 9999, in microseconds since the
    epoch. *)
Definition datetime_min : Z := -62135596800000000.
Definition datetime_max : Z := 253402300799999999.

(** [datetime.utcnow() + timedelta(seconds=ttl)]. *)
Definition expiry_instant {T} (ttl : Z) : Py (Frame T) Z :=
  fun fr =>
    let at_ := utcnow (env fr) + microseconds ttl in
    if (datetime_min <=? at_) && (at_ <=? datetime_max)
    then (Returned at_, fr)
    else (Raised OverflowError, fr).

(** [CacheManager.connect]. *)
Definition connect : Py (Frame t) unit :=
  try_except
    (cm <- get_self ;;
     set_self (with_client (Some (redis_url cm)) cm) ;;;
     ping)
    (fun _ =>
       cm <- get_self ;;
       set_self (with_client None (with_use_redis false cm))).

(** [CacheManager.get]; a miss is [None].  The text read from the
    primary tier is a JSON text and so never the empty string, which
    makes [if value:] the test for a reply. *)
Definition get (key : string) : Py (Frame t) Json.PyValue :=
  try_except
    (cm <- get_self ;;
     if primary cm then
       value <- Redis.get key ;;
       match value with
       | Some text => ret (Json.loads text)
       | None => ret Json.PyNone
       end
     else
       match fallback_cache cm !! key with
       | Some (value, expires_at) =>
           fun fr =>
             if utcnow (env fr) <? expires_at then (Returned value, fr)
             else
               (Returned Json.PyNone,
                mkFrame (env fr)
                  (with_fallback (delete key (fallback_cache cm)) cm))
       | None => ret Json.PyNone
       end)
    (fun _ => ret Json.PyNone).

(** [CacheManager.set]. *)
Definition set (key : string) (value : Json.PyValue) (ttl : Z)
  : Py (Frame t) unit :=
  try_except
    (let serialized := Json.dumps value in
     cm <- get_self ;;
     if primary cm then Redis.setex key ttl serialized
     else
       expires_at <- expiry_instant ttl ;;
       set_self (with_fallback (<[key := (value, expires_at)]> (fallback_cache cm)) cm))
    (fun _ => ret tt).

(** [CacheManager.delete]. *)
Definition delete_ (key : string) : Py (Frame t) unit :=
  try_except
    (cm <- get_self ;;
     if primary cm then Redis.del key
     else set_self (with_fallback (delete key (fallback_cache cm)) cm))
    (fun _ => ret tt).

(** The four data classes and their key and freshness helpers. *)
Inductive DataClass : Type := Price | Technical | AiAnalysis | Signal.

Definition make_key (c : DataClass) (symbol : string) : string :=
  match c with
  | Price => "price:" +:+ symbol
  | Technical => "technical:" +:+ symbol
  | AiAnalysis => "ai_analysis:" +:+ symbol
  | Signal => "signal:" +:+ symbol
  end.

Definition ttl_of (c : DataClass) : Z :=
  match c with
  | Price => TTL_PRICE
  | Technical => TTL_TECHNICAL
  | AiAnalysis => TTL_AI_ANALYSIS
  | Signal => TTL_TECHNICAL
  end.

(** [get_price], [get_technical], [get_ai_analysis], [get_signal]. *)
Definition get_class (c : DataClass) (symbol : string)
  : Py (Frame t) Json.PyValue :=
  get (make_key c symbol).

(** [set_price], [set_technical], [set_ai_analysis], [set_signal]. *)
Definition set_class (c : DataClass) (symbol : string) (data : Json.PyValue)
  : Py (Frame t) unit :=
  set (make_key c symbol) data (ttl_of c).

(** What the process does to the cache, one call after another, with
    the instant of the call and whether the primary tier answers
    then. *)
Inductive call : Type :=
| Get (key : string)
| Set_ (key : string) (value : Json.PyValue) (ttl : Z)
| Delete (key : string).

Record event : Type := mkEvent { at_time : Z; server_up : bool; what : call }.

Definition arrive (ev : event) (fr : Frame t) : Frame t :=
  let e := env fr in
  mkFrame (mkEnv (at_time ev) (db e) (server_up ev) (commands e)) (self fr).

Definition perform (c : call) (fr : Frame t) : Frame t :=
  match c with
  | Get key => snd (get key fr)
  | Set_ key value ttl => snd (set key value ttl fr)
  | Delete key => snd (delete_ key fr)
  end.

Definition step (fr : Frame t) (ev : event) : Frame t :=
  perform (what ev) (arrive ev fr).

Definition run (fr : Frame t) (evs : list event) : Frame t :=
  fold_left step evs fr.

(** The same cache and primary tier with no entry under [key] in either:
    what a read of [key] is a miss against. *)
Definition forget (key : string) (fr : Frame t) : Frame t :=
  let e := env fr in
  mkFrame (mkEnv (utcnow e) (delete key (db e)) (up e) (commands e))
          (with_fallback (delete key (fallback_cache (self fr))) (self fr)).

End CacheManager.

(** ** Indicator engine: [indicators/technical.py] *)

Module TechCalc.
Import PyNum.
Local Open Scope Q_scope.

(** The interpretation of the momentum value in [analyze_candles]:
    the block that sets [rsi_signal]. *)
Definition rsi_signal (rsi : option Q) : string :=
  match rsi with
  | Some r =>
      if nonzero r then
        if Qlt_bool r 30 then "OVERSOLD"
        else if Qlt_bool 70 r then "OVERBOUGHT"
        else if Qlt_bool r 40 then "BEARISH"
        else if Qlt_bool 60 r then "BULLISH"
        else "NEUTRAL"
      else "NEUTRAL"
  | None => "NEUTRAL"
  end.

(** The [indicators] dictionary read by [calculate_technical_score].
    A field is [None] when its key is missing or holds [None]. *)
Record Indicators : Type := mkIndicators {
  rsi : option Q;
  macd_signal : option string;
  trend : option string;
  bb_signal : option string;
  volume_ratio : option Q
}.

(** [indicators.get(key, default)] for a label. *)
Definition label (x : option string) (default : string) : string :=
  match x with
  | Some s => s
  | None => default
  end.

Local Open Scope Z_scope.

(** RSI contribution. *)
Definition score_rsi (ind : Indicators) (score : Z) : Z :=
  match rsi ind with
  | Some r =>
      if nonzero r then
        if Qlt_bool r 30 then score + 20
        else if Qlt_bool r 40 then score + 10
        else if Qlt_bool 70 r then score - 20
        else if Qlt_bool 60 r then score - 10
        else score
      else score
  | None => score
  end.

(** MACD contribution. *)
Definition score_macd (ind : Indicators) (score : Z) : Z :=
  let macd_signal := label (macd_signal ind) "NEUTRAL" in
  if String.eqb macd_signal "BULLISH" then score + 20
  else if String.eqb macd_signal "BEARISH" then score - 20
  else score.

(** Trend contribution. *)
Definition score_trend (ind : Indicators) (score : Z) : Z :=
  let trend := label (trend ind) "UNKNOWN" in
  if String.eqb trend "STRONG_UPTREND" then score + 30
  else if String.eqb trend "UPTREND" then score + 15
  else if String.eqb trend "STRONG_DOWNTREND" then score - 30
  else if String.eqb trend "DOWNTREND" then score - 15
  else score.

(** Bollinger Bands contribution. *)
Definition score_bb (ind : Indicators) (score : Z) : Z :=
  let bb_signal := label (bb_signal ind) "NEUTRAL" in
  if String.eqb bb_signal "OVERSOLD" then score + 15
  else if String.eqb bb_signal "OVERBOUGHT" then score - 15
  else if String.eqb bb_signal "SQUEEZE" then score + 5
  else score.

(** Volume contribution. *)
Definition score_volume (ind : Indicators) (score : Z) : Z :=
  match volume_ratio ind with
  | Some v =>
      if nonzero v then
        if Qlt_bool 1.5 v then
          if 50 <? score then score + 15 else score - 15
        else if Qlt_bool v 0.5 then
          if 50 <? score then score - 5 else score + 5
        else score
      else score
  | None => score
  end.

(** [TechnicalIndicators.calculate_technical_score]. *)
Definition calculate_technical_score (ind : Indicators) : Z :=
  let score := 50 in
  let score := score_rsi ind score in
  let score := score_macd ind score in
  let score := score_trend ind score in
  let score := score_bb ind score in
  let score := score_volume ind score in
  clamp_0_100 score.

(** A dictionary in which nothing is available. *)
Definition unavailable : Indicators := mkIndicators None None None None None.

End TechCalc.

(** The scoring of [calculate_technical_score] written as one sum: the
    number each step adds, as a function of what it depends on. *)

Module TechScore.
Import PyNum TechCalc.
Local Open Scope Z_scope.

Definition is_label (x : option string) (lit : string) : bool :=
  match x with
  | Some s => String.eqb s lit
  | None => false
  end.

(** The momentum points, by the value alone. *)
Definition rsi_delta (rsi : option Q) : Z :=
  match rsi with
  | Some r =>
      if Qlt_bool r 30 then 20
      else if Qlt_bool r 40 then 10
      else if Qlt_bool 70 r then -20
      else if Qlt_bool 60 r then -10
      else 0
  | None => 0
  end.

Definition macd_delta (macd_signal : option string) : Z :=
  if is_label macd_signal "BULLISH" then 20
  else if is_label macd_signal "BEARISH" then -20
  else 0.

Definition trend_delta (trend : option string) : Z :=
  if is_label trend "STRONG_UPTREND" then 30
  else if is_label trend "UPTREND" then 15
  else if is_label trend "STRONG_DOWNTREND" then -30
  else if is_label trend "DOWNTREND" then -15
  else 0.

Definition bb_delta (bb_signal : option string) : Z :=
  if is_label bb_signal "OVERSOLD" then 15
  else if is_label bb_signal "OVERBOUGHT" then -15
  else if is_label bb_signal "SQUEEZE" then 5
  else 0.

(** The volume step adds a number that depends on the volume ratio and
    on whether the score so far is above neutral: a ratio above 1.5 adds
    15 when it is and takes 15 when it is not; a ratio below 0.5 takes 5
    when it is and adds 5 when it is not. *)
Definition volume_delta (volume_ratio : option Q) (above_neutral : bool) : Z :=
  match volume_ratio with
  | Some v =>
      if Qlt_bool 1.5 v then (if above_neutral then 15 else -15)
      else if Qlt_bool v 0.5 then (if above_neutral then -5 else 5)
      else 0
  | None => 0
  end.

(** A value that is present is not zero.  The truthiness tests
    [if indicators.get("rsi"):] and [if volume_ratio:] skip a zero as
    they skip a missing value. *)
Definition not_zero (x : option Q) : Prop :=
  match x with
  | Some v => ~ (v == 0)%Q
  | None => True
  end.

(** The score before the volume step. *)
Definition running_score (ind : Indicators) : Z :=
  50 + rsi_delta (rsi ind) + macd_delta (macd_signal ind)
  + trend_delta (trend ind) + bb_delta (bb_signal ind).

(** The reading under test: every contribution, the volume one
    included, is a number fixed by its own indicator alone, and the score
    is 50 plus their sum, clamped once. *)
Definition additive_in_each_indicator : Prop :=
  exists (d_rsi : option Q -> Z) (d_macd d_trend d_bb : option string -> Z)
         (d_volume : option Q -> Z),
    forall ind : Indicators,
      calculate_technical_score ind =
      clamp_0_100 (50 + d_rsi (rsi ind) + d_macd (macd_signal ind)
                   + d_trend (trend ind) + d_bb (bb_signal ind)
                   + d_volume (volume_ratio ind)).

(** The momentum classes as the specification words them: below 30,
    below 40, below 60, below 70, else overbought. *)
Definition rsi_signal_by_upper_bounds (r : Q) : string :=
  if Qlt_bool r 30 then "OVERSOLD"
  else if Qlt_bool r 40 then "BEARISH"
  else if Qlt_bool r 60 then "NEUTRAL"
  else if Qlt_bool r 70 then "BULLISH"
  else "OVERBOUGHT".

End TechScore.

(** ** Data model: [data/models.py] *)

Module Models.
Import PyEff.

Inductive SignalType : Type :=
| STRONG_BUY | BUY | WEAK_BUY | HOLD | WEAK_SELL | SELL | STRONG_SELL.

Inductive Timeframe : Type := SCALP | DAY | SWING | POSITION.

(** [Timeframe.value]. *)
Definition timeframe_value (tf : Timeframe) : string :=
  match tf with
  | SCALP => "SCALP"
  | DAY => "DAY"
  | SWING => "SWING"
  | POSITION => "POSITION"
  end.

Record TechnicalIndicators : Type := mkTechnicalIndicators {
  rsi : Q;
  macd : Q;
  macd_signal : Q;
  macd_histogram : Q;
  bb_upper : Q;
  bb_middle : Q;
  bb_lower : Q;
  ema_20 : option Q;
  ema_50 : option Q;
  ema_200 : option Q;
  volume_ratio : option Q
}.

(** The fields of [MacroContext] that carry numbers. *)
Record MacroContext : Type := mkMacroContext {
  dxy : option Q;
  vix : option Q;
  fed_funds_rate : option Q;
  fear_greed_index : option Z
}.

(** [CoinPrice], without its time stamp. *)
Record CoinPrice : Type := mkCoinPrice {
  symbol : string;
  price : Q;
  change_24h : Q;
  change_7d : option Q;
  volume_24h : Q;
  market_cap : option Q;
  high_24h : Q;
  low_24h : Q
}.

(** [AIAnalysis], without its texts and time stamp. *)
Record AIAnalysis : Type := mkAIAnalysis {
  ai_coin : string;
  rating : SignalType;
  ai_confidence : Z;
  ai_timeframe : Timeframe;
  entry_zone_low : option Q;
  entry_zone_high : option Q;
  target_conservative : option Q;
  target_aggressive : option Q;
  ai_stop_loss : option Q
}.

(** The three texts an entry zone can be, by the numbers they print:
    ["$low-$high"], ["Current price ($p)"] and
    ["Wait for better setup"]. *)
Inductive EntryZone : Type :=
| ZoneRange (low high : Q)
| ZoneCurrentPrice (p : Q)
| ZoneWait.

(** [MultiLayerSignal], without its time stamp. *)
Record MultiLayerSignal : Type := mkMultiLayerSignal {
  coin : string;
  signal : SignalType;
  overall_score : Z;
  confidence : Z;
  technical_score : Z;
  on_chain_score : option Z;
  macro_score : option Z;
  sentiment_score : option Z;
  action : string;
  entry_zone : option EntryZone;
  targets : list Q;
  stop_loss : option Q;
  position_size_pct : option float;
  timeframe : string
}.

(** [Field(..., ge=0, le=100)]. *)
Definition percent (x : Z) : bool := ((0 <=? x) && (x <=? 100))%Z.

Definition opt_percent (x : option Z) : bool :=
  match x with
  | Some v => percent v
  | None => true
  end.

(** Construction of a [MultiLayerSignal]: the field constraints are
    checked and a violation raises. *)
Definition MultiLayerSignal_new (s : MultiLayerSignal)
  : outcome MultiLayerSignal :=
  if percent (overall_score s) && percent (confidence s)
     && percent (technical_score s) && opt_percent (on_chain_score s)
     && opt_percent (macro_score s) && opt_percent (sentiment_score s)
  then Returned s
  else Raised ValidationError.

End Models.

(** ** Signal fusion engine: [ai_agent/signal_generator.py] *)

Module SignalGenerator.
Import PyEff PyNum Models.
Local Open Scope Q_scope.

(** [x or default] on an optional float. *)
Definition py_or (x : option Q) (default : Q) : Q :=
  match x with
  | Some v => if nonzero v then v else default
  | None => default
  end.

(** The value of an optional float once it is known to be truthy. *)
Definition value (x : option Q) : Q := py_or x 0.

(** [SignalGenerator._determine_trend]. *)
Definition _determine_trend (technical : TechnicalIndicators) : string :=
  if negb (truthy (ema_20 technical) && truthy (ema_50 technical)
           && truthy (ema_200 technical))
  then "UNKNOWN"
  else
    let e20 := value (ema_20 technical) in
    let e50 := value (ema_50 technical) in
    let e200 := value (ema_200 technical) in
    let current_price := py_or (Some (bb_middle technical)) 0 in
    if Qlt_bool e200 current_price then
      if Qlt_bool e50 e20 && Qlt_bool e200 e50 then "STRONG_UPTREND"
      else "UPTREND"
    else if Qlt_bool current_price e200 then
      if Qlt_bool e20 e50 && Qlt_bool e50 e200 then "STRONG_DOWNTREND"
      else "DOWNTREND"
    else "SIDEWAYS".

(** [SignalGenerator._determine_bb_signal]. *)
Definition _determine_bb_signal (technical : TechnicalIndicators) : string :=
  if negb (nonzero (bb_upper technical) && nonzero (bb_middle technical)
           && nonzero (bb_lower technical))
  then "NEUTRAL"
  else
    let current_price := bb_middle technical in
    if Qlt_bool current_price (bb_lower technical) then "OVERSOLD"
    else if Qlt_bool (bb_upper technical) current_price then "OVERBOUGHT"
    else "NEUTRAL".

(** [SignalGenerator._calculate_technical_score].  Nothing in its body
    can raise on a validated [TechnicalIndicators], so its handler,
    which returns 50, is never entered. *)
Definition _calculate_technical_score (technical : TechnicalIndicators) : Z :=
  let indicators :=
    TechCalc.mkIndicators
      (Some (rsi technical))
      (Some (if Qlt_bool 0 (macd_histogram technical)
             then "BULLISH" else "BEARISH")%string)
      (Some (_determine_trend technical))
      (Some (_determine_bb_signal technical))
      (volume_ratio technical) in
  TechCalc.calculate_technical_score indicators.

(** One band of [_calculate_macro_score]: below [lo2] adds [big],
    below [lo1] adds [small], above [hi2] takes [big], above [hi1]
    takes [small]. *)
Definition band (x lo2 lo1 hi2 hi1 : Q) (big small : Z) (score : Z) : Z :=
  if Qlt_bool x lo2 then (score + big)%Z
  else if Qlt_bool x lo1 then (score + small)%Z
  else if Qlt_bool hi2 x then (score - big)%Z
  else if Qlt_bool hi1 x then (score - small)%Z
  else score.

(** [SignalGenerator._calculate_macro_score]; as above, the handler is
    never entered. *)
Definition _calculate_macro_score (macro : MacroContext) (price_data : CoinPrice)
  : Z :=
  let score := 50%Z in
  let score :=
    if truthy (dxy macro)
    then band (value (dxy macro)) 95 100 110 105 20 10 score else score in
  let score :=
    if truthy (vix macro)
    then band (value (vix macro)) 15 20 30 25 15 5 score else score in
  let score :=
    match fear_greed_index macro with
    | Some fgi =>
        if (fgi =? 0)%Z then score
        else band (inject_Z fgi) 25 40 75 60 15 5 score
    | None => score
    end in
  clamp_0_100 score.

(** [signal_map] of [_map_ai_to_score]. *)
Definition signal_map (r : SignalType) : Z :=
  match r with
  | STRONG_BUY => 95
  | BUY => 75
  | WEAK_BUY => 60
  | HOLD => 50
  | WEAK_SELL => 40
  | SELL => 25
  | STRONG_SELL => 5
  end.

(** [SignalGenerator._map_ai_to_score], in binary64. *)
Definition _map_ai_to_score (ai_analysis : AIAnalysis) : outcome Z :=
  let base_score := signal_map (rating ai_analysis) in
  let confidence_factor :=
    (PyFloat.of_int (ai_confidence ai_analysis) / PyFloat.of_int 100)%float in
  let adjusted_score :=
    (PyFloat.of_int 50
     + PyFloat.of_int (base_score - 50)%Z * confidence_factor)%float in
  PyFloat.to_int adjusted_score.

(** [SignalGenerator._calculate_overall_score], in binary64.  With the
    technical score alone [score] is that integer and [int(score)] is
    itself. *)
Definition _calculate_overall_score
    (technical_score : Z) (macro_score sentiment_score : option Z)
  : outcome Z :=
  match macro_score, sentiment_score with
  | Some m, Some s =>
      PyFloat.to_int
        (PyFloat.of_int technical_score * 0.4 + PyFloat.of_int m * 0.3
         + PyFloat.of_int s * 0.3)%float
  | Some m, None =>
      PyFloat.to_int
        (PyFloat.of_int technical_score * 0.6 + PyFloat.of_int m * 0.4)%float
  | None, Some s =>
      PyFloat.to_int
        (PyFloat.of_int technical_score * 0.6 + PyFloat.of_int s * 0.4)%float
  | None, None => Returned technical_score
  end.

(** [SignalGenerator._score_to_signal_type]. *)
Definition _score_to_signal_type (score : Z) : SignalType :=
  if (80 <=? score)%Z then STRONG_BUY
  else if (65 <=? score)%Z then BUY
  else if (55 <=? score)%Z then WEAK_BUY
  else if (45 <=? score)%Z then HOLD
  else if (35 <=? score)%Z then WEAK_SELL
  else if (20 <=? score)%Z then SELL
  else STRONG_SELL.

(** The layer scores that are present, in order. *)
Definition present (technical_score : Z) (macro_score sentiment_score : option Z)
  : list Z :=
  technical_score :: (option_list macro_score ++ option_list sentiment_score).

Definition Qsum (l : list Q) : Q := fold_right Qplus 0 l.

(** [SignalGenerator._calculate_confidence]. *)
Definition _calculate_confidence
    (technical_score : Z) (macro_score sentiment_score : option Z)
    (ai_analysis : option AIAnalysis) : Z :=
  let confidence :=
    match ai_analysis with
    | Some ai => ai_confidence ai
    | None => 50%Z
    end in
  let scores := map inject_Z (present technical_score macro_score sentiment_score) in
  if (2 <=? length scores)%nat then
    let n := inject_Z (Z.of_nat (length scores)) in
    let avg_score := Qsum scores / n in
    let variance :=
      Qsum (map (fun s => (s - avg_score) * (s - avg_score)) scores) / n in
    if Qlt_bool variance 100 then Z.min 100 (confidence + 10)
    else if Qlt_bool 400 variance then Z.max 0 (confidence - 15)
    else confidence
  else confidence.

Definition action_map (s : SignalType) : string :=
  match s with
  | STRONG_BUY => "Enter Long Position (High Conviction)"
  | BUY => "Enter Long Position"
  | WEAK_BUY => "Scale In (Small Position)"
  | HOLD => "Wait / Hold Current Positions"
  | WEAK_SELL => "Consider Taking Profits"
  | SELL => "Exit Long Positions"
  | STRONG_SELL => "Exit All Positions (Urgent)"
  end.

(** Formatting a number with [:,.0f]; [None] has no such format. *)
Definition format_number (x : option Q) : outcome Q :=
  match x with
  | Some v => Returned v
  | None => Raised TypeError
  end.

(** [SignalGenerator._determine_trade_levels]: action, entry zone,
    targets and stop loss. *)
Definition _determine_trade_levels
    (signal_type : SignalType) (price_data : CoinPrice)
    (technical : TechnicalIndicators) (ai_analysis : option AIAnalysis)
  : outcome (string * option EntryZone * list Q * option Q) :=
  let current_price := price price_data in
  let action := action_map signal_type in
  let technical_levels :=
    match signal_type with
    | STRONG_BUY | BUY =>
        Returned
          (action,
           Some (ZoneRange (current_price * 0.98) (current_price * 1.02)),
           [current_price * 1.1; current_price * 1.2; current_price * 1.3],
           Some (py_or (Some (bb_lower technical)) (current_price * 0.92)))
    | WEAK_SELL | SELL | STRONG_SELL =>
        Returned (action, Some (ZoneCurrentPrice current_price), [], None)
    | HOLD | WEAK_BUY =>
        Returned (action, Some ZoneWait, [], None)
    end in
  match ai_analysis with
  | Some ai =>
      if truthy (entry_zone_low ai) then
        match format_number (entry_zone_low ai), format_number (entry_zone_high ai) with
        | Returned low, Returned high =>
            Returned
              (action,
               Some (ZoneRange low high),
               [py_or (target_conservative ai) (current_price * 1.1);
                py_or (target_aggressive ai) (current_price * 1.2)],
               Some (py_or (ai_stop_loss ai) (current_price * 0.9)))
        | Raised e, _ => Raised e
        | _, Raised e => Raised e
        end
      else technical_levels
  | None => technical_levels
  end.

Definition base_size_map (s : SignalType) : float :=
  match s with
  | STRONG_BUY => 10
  | BUY => 7
  | WEAK_BUY => 3
  | _ => 0
  end.

(** [SignalGenerator._recommend_position_size], in binary64. *)
Definition _recommend_position_size
    (signal_type : SignalType) (confidence : Z) (price_data : CoinPrice)
  : float :=
  let base_size := base_size_map signal_type in
  let confidence_factor :=
    (PyFloat.of_int confidence / PyFloat.of_int 100)%float in
  let adjusted_size := (base_size * confidence_factor)%float in
  let volatility := Qabs (change_24h price_data) in
  let adjusted_size :=
    if Qlt_bool 10 volatility then (adjusted_size * 0.7)%float
    else if Qlt_bool 5 volatility then (adjusted_size * 0.85)%float
    else adjusted_size in
  PyFloat.py_round1 adjusted_size.

(** The [try] block of [generate_signal]. *)
Definition fusion
    (coin : string) (price_data : CoinPrice) (technical : TechnicalIndicators)
    (ai_analysis : option AIAnalysis) (macro : option MacroContext)
  : outcome MultiLayerSignal :=
  let technical_score := _calculate_technical_score technical in
  let macro_score :=
    match macro with
    | Some m => Some (_calculate_macro_score m price_data)
    | None => None
    end in
  and_then
    match ai_analysis with
    | Some ai => and_then (_map_ai_to_score ai) (fun x => Returned (Some x))
    | None => Returned None
    end
    (fun sentiment_score =>
  and_then
    (_calculate_overall_score technical_score macro_score sentiment_score)
    (fun overall_score =>
  let signal_type := _score_to_signal_type overall_score in
  let confidence :=
    _calculate_confidence technical_score macro_score sentiment_score ai_analysis in
  and_then
    (_determine_trade_levels signal_type price_data technical ai_analysis)
    (fun levels =>
  let '(action, entry_zone, targets, stop_loss) := levels in
  let position_size :=
    _recommend_position_size signal_type confidence price_data in
  let timeframe :=
    match ai_analysis with
    | Some ai => timeframe_value (ai_timeframe ai)
    | None => "7-14 days"%string
    end in
  MultiLayerSignal_new
    (mkMultiLayerSignal coin signal_type overall_score confidence
       technical_score None macro_score sentiment_score action
       entry_zone targets stop_loss (Some position_size) timeframe)))).

(** The signal built by the [except] block. *)
Definition default_signal (coin : string) : MultiLayerSignal :=
  mkMultiLayerSignal coin HOLD 50 0 50 None None None
    "Wait for better setup" None [] None None "N/A".

(** [SignalGenerator.generate_signal]. *)
Definition generate_signal
    (coin : string) (price_data : CoinPrice) (technical : TechnicalIndicators)
    (ai_analysis : option AIAnalysis) (macro : option MacroContext)
  : outcome MultiLayerSignal :=
  match fusion coin price_data technical ai_analysis macro with
  | Returned s => Returned s
  | Raised _ => MultiLayerSignal_new (default_signal coin)
  end.

End SignalGenerator.

(** The weight tables of the fusion, and the weighted average they give
    of the layer scores that are present. *)

Module FusionWeights.
Local Open Scope Q_scope.

Record weights : Type := mkWeights { w_technical : Q; w_macro : Q; w_sentiment : Q }.

Definition weight_table (macro_present sentiment_present : bool) : weights :=
  match macro_present, sentiment_present with
  | true, true => mkWeights 0.4 0.3 0.3
  | true, false => mkWeights 0.6 0.4 0
  | false, true => mkWeights 0.6 0 0.4
  | false, false => mkWeights 1 0 0
  end.

Definition score_or_zero (x : option Z) : Q :=
  match x with
  | Some v => inject_Z v
  | None => 0
  end.

Definition weighted_average
    (technical_score : Z) (macro_score sentiment_score : option Z) : Q :=
  let w := weight_table (bool_decide (is_Some macro_score))
                        (bool_decide (is_Some sentiment_score)) in
  w_technical w * inject_Z technical_score
  + w_macro w * score_or_zero macro_score
  + w_sentiment w * score_or_zero sentiment_score.

(** A layer score, when present, lies in 0..100. *)
Definition percent_or_absent (x : option Z) : Prop :=
  match x with
  | Some v => (0 <= v <= 100)%Z
  | None => True
  end.

(** Ten times the weighted average, which is an integer. *)
Definition tenths (technical_score : Z) (macro_score sentiment_score : option Z) : Z :=
  match macro_score, sentiment_score with
  | Some m, Some s => 4 * technical_score + 3 * m + 3 * s
  | Some m, None => 6 * technical_score + 4 * m
  | None, Some s => 6 * technical_score + 4 * s
  | None, None => 10 * technical_score
  end.

(** An integer result that is not above the weighted average and at most
    one below it. *)
Definition just_below (overall : PyEff.outcome Z) (tenths : Z) : bool :=
  match overall with
  | PyEff.Returned o => ((10 * o <=? tenths) && (tenths <=? 10 * o + 10))%Z
  | PyEff.Raised _ => false
  end.

(** The scores 0, 1, ..., 100. *)
Definition scores : list Z := map Z.of_nat (seq 0 101).

(** [just_below] for every choice of the scores that are present. *)
Definition ok (t : Z) (m s : option Z) : bool :=
  just_below (SignalGenerator._calculate_overall_score t m s) (tenths t m s).

Definition ok_three (t m : Z) : bool :=
  forallb (fun s => ok t (Some m) (Some s)) scores.

Definition ok_two (t : Z) : bool :=
  forallb (fun m => ok t (Some m) None && ok t None (Some m) && ok_three t m)
          scores.

Definition ok_one (t : Z) : bool := ok t None None && ok_two t.

End FusionWeights.

(** ** The rest of the admission controller *)

Module Queue.
Import PyEff.

(** The order in which [get_next] looks at the deques. *)
Definition priorities : list string := ["critical"; "high"; "medium"; "low"]%string.

(** [self.queues[priority]]; [None] for a name that is no key. *)
Fixpoint deque (priority : string) (q : RateLimiter.PriorityQueue)
  : option (list string) :=
  match q with
  | [] => None
  | (k, d) :: rest => if String.eqb k priority then Some d else deque priority rest
  end.

(** The queue with the deque under [priority] replaced by [d]. *)
Fixpoint with_deque (priority : string) (d : list string)
    (q : RateLimiter.PriorityQueue) : RateLimiter.PriorityQueue :=
  match q with
  | [] => []
  | (k, d0) :: rest =>
      if String.eqb k priority then (k, d) :: rest
      else (k, d0) :: with_deque priority d rest
  end.

(** [PriorityQueue.add]; a request is named by a string. *)
Definition add (priority request : string) (q : RateLimiter.PriorityQueue)
  : outcome RateLimiter.PriorityQueue :=
  let priority :=
    match deque priority q with
    | Some _ => priority
    | None => "medium"%string
    end in
  match deque priority q with
  | Some d => Returned (with_deque priority (d ++ [request]) q)
  | None => Raised KeyError
  end.

(** The loop of [PriorityQueue.get_next]. *)
Fixpoint next_of (ps : list string) (q : RateLimiter.PriorityQueue)
  : outcome (option string * RateLimiter.PriorityQueue) :=
  match ps with
  | [] => Returned (None, q)
  | p :: ps' =>
      match deque p q with
      | None => Raised KeyError
      | Some [] => next_of ps' q
      | Some (request :: d) => Returned (Some request, with_deque p d q)
      end
  end.

(** [PriorityQueue.get_next]. *)
Definition get_next (q : RateLimiter.PriorityQueue)
  : outcome (option string * RateLimiter.PriorityQueue) :=
  next_of priorities q.

(** [PriorityQueue.size]. *)
Definition size (q : RateLimiter.PriorityQueue) : nat :=
  list_sum (map (fun kd => length (snd kd)) q).

(** A queue as [__init__] makes it and the methods keep it: the four
    deques, in this order. *)
Definition standard (q : RateLimiter.PriorityQueue) : Prop :=
  map fst q = priorities.

(** The waiting requests in the order [get_next] hands them out. *)
Definition service_order (q : RateLimiter.PriorityQueue) : list string :=
  concat (map (fun p => default [] (deque p q)) priorities).

(** The name [add] files a request under. *)
Definition filed_under (priority : string) : string :=
  if bool_decide (priority ∈ priorities) then priority else "medium"%string.

End Queue.

Module RateLimiterOps.
Import PyEff Clock.

(** What [reset_stats] ends with: the limiter, or the recursion limit
    when the empty string is a key of [stats] (the loop then calls
    [reset_stats("")], which loops again). *)
Inductive reset_outcome : Type :=
| Reset (rl : RateLimiter.t)
| RecursionError.

(** The branch [if source:] of [reset_stats]. *)
Definition reset_one (source : string) (rl : RateLimiter.t) : RateLimiter.t :=
  match RateLimiter.stats rl !! source with
  | Some _ =>
      RateLimiter.with_stats
        (<[source := RateLimiter.zero_stats]> (RateLimiter.stats rl)) rl
  | None => rl
  end.

(** [if source:] on an [Optional[str]]. *)
Definition named (source : option string) : option string :=
  match source with
  | Some ""%string => None
  | other => other
  end.

(** [RateLimiter.reset_stats]. *)
Definition reset_stats (source : option string) (rl : RateLimiter.t)
  : reset_outcome :=
  match named source with
  | Some s => Reset (reset_one s rl)
  | None =>
      match RateLimiter.stats rl !! ""%string with
      | Some _ => RecursionError
      | None =>
          Reset (RateLimiter.with_stats
                   ((fun _ => RateLimiter.zero_stats) <$> RateLimiter.stats rl) rl)
      end
  end.

(** A call of [RateLimiter.acquire] with its three arguments. *)
Record request : Type := mkRequest {
  source : string;
  priority : string;
  units : Z
}.

Definition call (r : request) : Task RateLimiter.t bool :=
  RateLimiter.acquire (source r) (priority r) (units r).

(** Calls made one after the other: the state they leave, and what each
    came to. *)
Definition run (fr : Frame RateLimiter.t) (rs : list request)
  : Frame RateLimiter.t :=
  fold_left (fun fr r => snd (call r fr)) rs fr.

Fixpoint results (fr : Frame RateLimiter.t) (rs : list request)
  : list (progress bool) :=
  match rs with
  | [] => []
  | r :: rest => fst (call r fr) :: results (snd (call r fr)) rest
  end.

Definition returned {A} (p : progress A) : bool :=
  match p with
  | Done (Returned _) => true
  | _ => false
  end.

(** How many of the calls that name [s] returned. *)
Fixpoint served (s : string) (fr : Frame RateLimiter.t) (rs : list request) : Z :=
  match rs with
  | [] => 0
  | r :: rest =>
      (if String.eqb (source r) s && returned (fst (call r fr)) then 1 else 0)
      + served s (snd (call r fr)) rest
  end.

(** What a call can come to: it returns [True], it raises
    [OverflowError], or it stays pending. *)
Definition granted_or_stuck (p : progress bool) : Prop :=
  p = Done (Returned true) \/ p = Done (Raised OverflowError) \/ p = Pending.

(** The same without the exception. *)
Definition granted_or_pending (p : progress bool) : Prop :=
  p = Done (Returned true) \/ p = Pending.

(** A unit count of at most 63 bits and a sign. *)
Definition word_sized (r : request) : Prop :=
  (- 2 ^ 63 <= units r < 2 ^ 63)%Z.

(** What holds of a limiter between calls of any size: no refill rate is
    zero, every limiter has its counters, and a wait time is the [int] 0
    or a [float]. *)
Definition sound (fr : Frame RateLimiter.t) : Prop :=
  map_Forall (fun _ b => (TokenBucket.refill_rate b =? 0)%float = false)
             (RateLimiter.limiters (self fr))
  /\ (forall s, is_Some (RateLimiter.limiters (self fr) !! s) ->
                is_Some (RateLimiter.stats (self fr) !! s))
  /\ map_Forall (fun _ st => Admission.convertible (RateLimiter.total_wait_time st))
                (RateLimiter.stats (self fr)).

(** And between calls of at most word size: the [int]s of every bucket
    are of moderate size. *)
Definition small (fr : Frame RateLimiter.t) : Prop :=
  map_Forall (fun _ b => Admission.modest b) (RateLimiter.limiters (self fr)).

End RateLimiterOps.

(** ** Readings of the fusion engine *)

Module FusionView.
Import PyEff PyNum Models.

(** The signal classes from weakest to strongest. *)
Definition strength (s : SignalType) : Z :=
  match s with
  | STRONG_SELL => 0
  | SELL => 1
  | WEAK_SELL => 2
  | HOLD => 3
  | WEAK_BUY => 4
  | BUY => 5
  | STRONG_BUY => 6
  end.

(** A sentiment result that gives a lower entry bound and no upper one:
    the only input the trade-level step cannot format. *)
Definition half_open (ai_analysis : option AIAnalysis) : bool :=
  match ai_analysis with
  | Some ai =>
      truthy (entry_zone_low ai)
      && negb (bool_decide (is_Some (entry_zone_high ai)))
  | None => false
  end.

(** A sentiment result, when present, states a confidence in 0..100, as
    [AIAnalysis] requires. *)
Definition valid_confidence (ai_analysis : option AIAnalysis) : Prop :=
  match ai_analysis with
  | Some ai => (0 <= ai_confidence ai <= 100)%Z
  | None => True
  end.

(** The points one macro index adds. *)
Definition band_delta (x lo2 lo1 hi2 hi1 : Q) (big small : Z) : Z :=
  if Qlt_bool x lo2 then big
  else if Qlt_bool x lo1 then small
  else if Qlt_bool hi2 x then (- big)%Z
  else if Qlt_bool hi1 x then (- small)%Z
  else 0%Z.

Definition dxy_delta (macro : MacroContext) : Z :=
  if truthy (dxy macro)
  then band_delta (SignalGenerator.value (dxy macro)) 95 100 110 105 20 10
  else 0%Z.

Definition vix_delta (macro : MacroContext) : Z :=
  if truthy (vix macro)
  then band_delta (SignalGenerator.value (vix macro)) 15 20 30 25 15 5
  else 0%Z.

Definition fear_greed_delta (macro : MacroContext) : Z :=
  match fear_greed_index macro with
  | Some fgi =>
      if (fgi =? 0)%Z then 0%Z
      else band_delta (inject_Z fgi) 25 40 75 60 15 5
  | None => 0%Z
  end.

(** The seven ratings and the confidences 0..100. *)
Definition ratings : list SignalType :=
  [STRONG_BUY; BUY; WEAK_BUY; HOLD; WEAK_SELL; SELL; STRONG_SELL].

(** For one rating and one confidence: the sentiment score is returned
    and lies between 50 and the anchor of the rating. *)
Definition between_neutral_and_anchor (r : SignalType) (c : Z) : bool :=
  match SignalGenerator._map_ai_to_score
          (mkAIAnalysis "" r c SWING None None None None None) with
  | Returned score =>
      let anchor := SignalGenerator.signal_map r in
      ((Z.min 50 anchor <=? score) && (score <=? Z.max 50 anchor))%Z
  | Raised _ => false
  end.

(** A price record for each way through the volatility test of the
    position size: a calm day, a move above 5 per cent and a move above
    10 per cent. *)
Definition day (change : Q) : CoinPrice :=
  mkCoinPrice "" 1 change None 0 None 1 1.

Definition days : list CoinPrice := [day 0; day 7; day 12].

(** The day that takes the same way as [price_data]. *)
Definition same_way (price_data : CoinPrice) : CoinPrice :=
  let volatility := Qabs (change_24h price_data) in
  if Qlt_bool 10 volatility then day 12
  else if Qlt_bool 5 volatility then day 7
  else day 0.

(** For one day, one signal class and one confidence: the position size
    lies between zero and the base size of the class, and a class with
    base size zero gets zero. *)
Definition size_within_base (d : CoinPrice) (s : SignalType) (c : Z) : bool :=
  let size := SignalGenerator._recommend_position_size s c d in
  let base := SignalGenerator.base_size_map s in
  (0 <=? size)%float && (size <=? base)%float
  && implb (base =? 0)%float (size =? 0)%float.

End FusionView.

(** ** Readings of the indicator engine *)

Module TechView.

(** The points the score gives a momentum class: an oversold market
    counts as bullish. *)
Definition class_points (rsi_signal : string) : Z :=
  if String.eqb rsi_signal "OVERSOLD" then 20
  else if String.eqb rsi_signal "BEARISH" then 10
  else if String.eqb rsi_signal "OVERBOUGHT" then -20
  else if String.eqb rsi_signal "BULLISH" then -10
  else 0.

End TechView.

(** ** Sample runs *)

Module Samples.
Import PyEff Clock Models.
Local Open Scope Q_scope.

(** A limiter started when the clock reads 1 700 000 000 seconds and
    called 46 times for CoinGecko with no time passing in between: the
    46th call has to wait. *)
Definition burst_world : World := mkWorld 1700000000%float [] [].

Definition burst_calls : list (string * string) :=
  repeat ("coingecko"%string, "high"%string) 46.

(** A CoinGecko bucket created when the clock reads 100 seconds. *)
Definition fresh_bucket : Frame TokenBucket.t :=
  mkFrame (mkWorld 100%float [] [])
    (TokenBucket.mk 45 0.75%float (PyFloat.Int 45) 100%float false).

(** An analysis request whose sentiment result carries a lower entry
    bound and no upper one. *)
Definition btc_price : CoinPrice :=
  mkCoinPrice "BTC" 100 2 None 1000000 None 105 95.

Definition btc_technical : TechnicalIndicators :=
  mkTechnicalIndicators 25 1 0.5 0.5 110 100 90 None None None None.

Definition half_open_entry : AIAnalysis :=
  mkAIAnalysis "BTC" BUY 80 SWING (Some 98) None None None None.

(** A cached signal document with a time stamp in it, as the analysis
    endpoint stores it. *)
Definition stamped_signal : Json.PyValue :=
  Json.PyDict
    [("coin"%string, Json.PyStr "BTC");
     ("timestamp"%string, Json.PyObject "2024-01-01 00:00:00")].

(** A cache manager created while the primary tier is down, and one
    created while it is up; each then connects. *)
Definition redis_url : string := "redis://localhost:6379/0".

Definition offline_cache : Redis.Frame CacheManager.t :=
  snd (CacheManager.connect
         (Redis.mkFrame (Redis.mkEnv 0 ∅ false 0) (CacheManager.init redis_url))).

Definition online_cache : Redis.Frame CacheManager.t :=
  snd (CacheManager.connect
         (Redis.mkFrame (Redis.mkEnv 0 ∅ true 0) (CacheManager.init redis_url))).

(** The primary tier is down for one read, then up again for a write and
    a read. *)
Definition outage : list CacheManager.event :=
  [CacheManager.mkEvent 1000000 false (CacheManager.Get "signal:BTC");
   CacheManager.mkEvent 2000000 true
     (CacheManager.Set_ "signal:BTC" (Json.PyStr "BUY") 60);
   CacheManager.mkEvent 3000000 true (CacheManager.Get "signal:BTC")].

End Samples.

(** * Properties *)

(** ** Facts about the number helpers *)

Section PyNumFacts.
Import PyNum.
Local Open Scope Q_scope.

Lemma Qlt_bool_iff (a b : Q) : Qlt_bool a b = true <-> a < b.
Proof.
  unfold Qlt_bool. rewrite negb_true_iff. split.
  - intros H. apply Qnot_le_lt. intros Hle.
    apply Qle_bool_iff in Hle. congruence.
  - intros H. destruct (Qle_bool b a) eqn:E; [| reflexivity].
    apply Qle_bool_iff in E. lra.
Qed.

Lemma Qlt_bool_false_iff (a b : Q) : Qlt_bool a b = false <-> b <= a.
Proof. unfold Qlt_bool. rewrite negb_false_iff. apply Qle_bool_iff. Qed.

Lemma Qle_bool_false_iff (a b : Q) : Qle_bool a b = false <-> b < a.
Proof.
  rewrite <- Qlt_bool_iff. unfold Qlt_bool.
  destruct (Qle_bool a b); simpl; intuition congruence.
Qed.

Lemma nonzero_true_iff (x : Q) : nonzero x = true <-> ~ x == 0.
Proof.
  unfold nonzero. rewrite negb_true_iff. split.
  - intros H E. apply Qeq_bool_iff in E. congruence.
  - intros H. destruct (Qeq_bool x 0) eqn:E; [| reflexivity].
    apply Qeq_bool_iff in E. contradiction.
Qed.

Lemma clamp_0_100_range (score : Z) : (0 <= clamp_0_100 score <= 100)%Z.
Proof. unfold clamp_0_100. lia. Qed.

Lemma clamp_0_100_id (score : Z) :
  (0 <= score <= 100)%Z -> clamp_0_100 score = score.
Proof. unfold clamp_0_100. lia. Qed.

End PyNumFacts.

Ltac qcases :=
  repeat match goal with
    | |- context [PyNum.Qlt_bool ?a ?b] =>
        let E := fresh "E" in
        destruct (PyNum.Qlt_bool a b) eqn:E;
        [apply Qlt_bool_iff in E | apply Qlt_bool_false_iff in E]
    end.

(** ** Indicator engine *)

Section TechnicalScore.
Import PyNum TechCalc TechScore.
Local Open Scope Z_scope.

Lemma score_rsi_delta (ind : Indicators) (score : Z) :
  not_zero (rsi ind) ->
  score_rsi ind score = score + rsi_delta (rsi ind).
Proof.
  unfold score_rsi, rsi_delta, not_zero.
  destruct (rsi ind) as [r |]; [| lia].
  intros Hr. apply nonzero_true_iff in Hr. rewrite Hr.
  repeat (match goal with |- context [if ?b then _ else _] => destruct b end);
    lia.
Qed.

Lemma score_macd_delta (ind : Indicators) (score : Z) :
  score_macd ind score = score + macd_delta (macd_signal ind).
Proof.
  unfold score_macd, macd_delta, is_label, label.
  destruct (macd_signal ind) as [x |]; simpl; [| lia].
  repeat (match goal with |- context [if ?b then _ else _] => destruct b end);
    lia.
Qed.

Lemma score_trend_delta (ind : Indicators) (score : Z) :
  score_trend ind score = score + trend_delta (trend ind).
Proof.
  unfold score_trend, trend_delta, is_label, label.
  destruct (trend ind) as [x |]; simpl; [| lia].
  repeat (match goal with |- context [if ?b then _ else _] => destruct b end);
    lia.
Qed.

Lemma score_bb_delta (ind : Indicators) (score : Z) :
  score_bb ind score = score + bb_delta (bb_signal ind).
Proof.
  unfold score_bb, bb_delta, is_label, label.
  destruct (bb_signal ind) as [x |]; simpl; [| lia].
  repeat (match goal with |- context [if ?b then _ else _] => destruct b end);
    lia.
Qed.

Lemma score_volume_delta (ind : Indicators) (score : Z) :
  not_zero (volume_ratio ind) ->
  score_volume ind score =
  score + volume_delta (volume_ratio ind) (50 <? score).
Proof.
  unfold score_volume, volume_delta, not_zero.
  destruct (volume_ratio ind) as [v |]; [| lia].
  intros Hv. apply nonzero_true_iff in Hv. rewrite Hv.
  repeat (match goal with |- context [if ?b then _ else _] => destruct b end);
    lia.
Qed.

Lemma before_volume (ind : Indicators) :
  not_zero (rsi ind) ->
  score_bb ind (score_trend ind (score_macd ind (score_rsi ind 50))) =
  running_score ind.
Proof.
  intros Hr.
  rewrite score_bb_delta, score_trend_delta, score_macd_delta,
    (score_rsi_delta ind 50 Hr).
  reflexivity.
Qed.

(** C6.  Whatever the indicators are, the technical score lies between 0
    and 100; and when every indicator is unavailable the function returns
    the neutral 50. *)
Theorem technical_score_range_and_baseline :
  (forall ind : Indicators, 0 <= calculate_technical_score ind <= 100)
  /\ calculate_technical_score unavailable = 50.
Proof.
  split.
  - intros ind. unfold calculate_technical_score. apply clamp_0_100_range.
  - reflexivity.
Qed.

(** C9, as the code has it.  For indicators whose momentum value and
    volume ratio are not zero, the score is 50 plus the four deltas of
    momentum, oscillator, trend and channel, each fixed by its own
    indicator alone, plus a volume delta fixed by the volume ratio and by
    whether the sum so far is above 50 (a ratio above 1.5 adds 15 when it
    is and takes 15 when it is not, a ratio below 0.5 takes 5 when it is
    and adds 5 when it is not), the whole clamped to 0..100 once at the
    end. *)
Theorem technical_score_sum_with_conditional_volume (ind : Indicators) :
  not_zero (rsi ind) ->
  not_zero (volume_ratio ind) ->
  calculate_technical_score ind =
  clamp_0_100
    (50 + rsi_delta (rsi ind) + macd_delta (macd_signal ind)
     + trend_delta (trend ind) + bb_delta (bb_signal ind)
     + volume_delta (volume_ratio ind) (50 <? running_score ind)).
Proof.
  intros Hrsi Hvolume.
  unfold calculate_technical_score.
  rewrite (score_volume_delta ind _ Hvolume), (before_volume ind Hrsi).
  reflexivity.
Qed.

Lemma technical_score_sum_with_conditional_volume_witness :
  let ind :=
    mkIndicators (Some 25%Q) (Some "BEARISH"%string) (Some "DOWNTREND"%string)
      None (Some 0.25%Q) in
  not_zero (rsi ind) /\ not_zero (volume_ratio ind)
  /\ calculate_technical_score ind = 40
  /\ calculate_technical_score ind =
     clamp_0_100 (50 + 20 + -20 + -15 + 0 + 5).
Proof.
  cbv zeta.
  assert (H1 : not_zero (Some 25%Q)) by (intros H; discriminate H).
  assert (H2 : not_zero (Some 0.25%Q)) by (intros H; discriminate H).
  split; [exact H1 |]. split; [exact H2 |].
  split; [reflexivity |].
  exact (technical_score_sum_with_conditional_volume
           (mkIndicators (Some 25%Q) (Some "BEARISH"%string)
              (Some "DOWNTREND"%string) None (Some 0.25%Q)) H1 H2).
Defined.

(** C9, as the specification words it, fails: no volume delta that is
    fixed by the volume ratio alone gives the scores the code returns.
    With a bullish oscillator and a volume ratio of 2 the code returns 85,
    with a bearish one 15; without volume they are 70 and 30. *)
Lemma volume_delta_depends_on_running_score : ~ additive_in_each_indicator.
Proof.
  intros (d_rsi & d_macd & d_trend & d_bb & d_volume & H).
  pose proof (H (mkIndicators None (Some "BULLISH"%string) None None (Some 2%Q))) as H1.
  pose proof (H (mkIndicators None (Some "BEARISH"%string) None None (Some 2%Q))) as H2.
  pose proof (H (mkIndicators None (Some "BULLISH"%string) None None None)) as H3.
  pose proof (H (mkIndicators None (Some "BEARISH"%string) None None None)) as H4.
  cbn [rsi macd_signal trend bb_signal volume_ratio] in H1, H2, H3, H4.
  change (calculate_technical_score _) with 85 in H1.
  change (calculate_technical_score _) with 15 in H2.
  change (calculate_technical_score _) with 70 in H3.
  change (calculate_technical_score _) with 30 in H4.
  unfold clamp_0_100 in H1, H2, H3, H4.
  lia.
Qed.

End TechnicalScore.

Section MomentumClasses.
Import PyNum TechCalc TechScore.
Local Open Scope Q_scope.

(** C8, as the code has it.  A momentum value other than zero is
    oversold below 30, bearish from 30 to below 40, neutral from 40 to 60
    inclusive, bullish above 60 up to 70 inclusive, and overbought above
    70. *)
Theorem rsi_signal_thresholds (r : Q) :
  ~ r == 0 ->
  (r < 30 -> rsi_signal (Some r) = "OVERSOLD"%string)
  /\ (30 <= r < 40 -> rsi_signal (Some r) = "BEARISH"%string)
  /\ (40 <= r <= 60 -> rsi_signal (Some r) = "NEUTRAL"%string)
  /\ (60 < r <= 70 -> rsi_signal (Some r) = "BULLISH"%string)
  /\ (70 < r -> rsi_signal (Some r) = "OVERBOUGHT"%string).
Proof.
  intros Hr. apply nonzero_true_iff in Hr.
  unfold rsi_signal. rewrite Hr.
  repeat split; intros H; qcases; try reflexivity; lra.
Qed.

Lemma rsi_signal_thresholds_witness :
  ~ 60 == 0 /\ rsi_signal (Some 60) = "NEUTRAL"%string
  /\ rsi_signal (Some 70) = "BULLISH"%string.
Proof.
  split; [intros H; discriminate H |].
  split.
  - apply (rsi_signal_thresholds 60); [intros H; discriminate H | lra].
  - apply (rsi_signal_thresholds 70); [intros H; discriminate H | lra].
Defined.

(** C8, as the specification words it, fails at the boundaries 60 and
    70: the code calls 60 neutral and 70 bullish, where "below 60 is
    neutral, below 70 is bullish, otherwise overbought" calls them bullish
    and overbought. *)
Lemma rsi_signal_boundaries_60_70 :
  rsi_signal (Some 60) <> rsi_signal_by_upper_bounds 60
  /\ rsi_signal (Some 70) <> rsi_signal_by_upper_bounds 70.
Proof. split; vm_compute; discriminate. Qed.

End MomentumClasses.

(** ** Signal fusion engine *)

Section Fusion.
Import PyEff PyNum Models SignalGenerator FusionWeights.
Local Open Scope Q_scope.

Lemma in_scores (z : Z) : (0 <= z <= 100)%Z -> In z scores.
Proof.
  intros H. unfold scores.
  rewrite <- (Z2Nat.id z) by lia.
  apply in_map. apply in_seq. lia.
Qed.

(** Checked by running the code on all 101 + 2 * 101^2 + 101^3 inputs. *)
Lemma just_below_checked : forallb ok_one scores = true.
Proof. vm_compute. reflexivity. Qed.

Lemma forallb_scores (f : Z -> bool) (z : Z) :
  forallb f scores = true -> (0 <= z <= 100)%Z -> f z = true.
Proof.
  intros H Hz. rewrite forallb_forall in H. apply H. apply in_scores. exact Hz.
Qed.

Lemma just_below_in_range
    (technical_score : Z) (macro_score sentiment_score : option Z) :
  (0 <= technical_score <= 100)%Z ->
  percent_or_absent macro_score ->
  percent_or_absent sentiment_score ->
  ok technical_score macro_score sentiment_score = true.
Proof.
  intros Ht Hm Hs.
  pose proof (forallb_scores ok_one technical_score just_below_checked Ht)
    as H.
  unfold ok_one in H. apply andb_prop in H. destruct H as [H1 H2].
  unfold ok_two in H2.
  destruct macro_score as [m |], sentiment_score as [s |].
  - pose proof (forallb_scores
                  (fun m => ok technical_score (Some m) None
                            && ok technical_score None (Some m)
                            && ok_three technical_score m)
                  m H2 Hm) as H.
    apply andb_prop in H. destruct H as [_ H3].
    unfold ok_three in H3.
    exact (forallb_scores (fun s => ok technical_score (Some m) (Some s))
             s H3 Hs).
  - pose proof (forallb_scores
                  (fun m => ok technical_score (Some m) None
                            && ok technical_score None (Some m)
                            && ok_three technical_score m)
                  m H2 Hm) as H.
    apply andb_prop in H. destruct H as [H _].
    apply andb_prop in H. destruct H as [H _]. exact H.
  - pose proof (forallb_scores
                  (fun m => ok technical_score (Some m) None
                            && ok technical_score None (Some m)
                            && ok_three technical_score m)
                  s H2 Hs) as H.
    apply andb_prop in H. destruct H as [H _].
    apply andb_prop in H. destruct H as [_ H]. exact H.
  - exact H1.
Qed.

Lemma weighted_average_tenths
    (technical_score : Z) (macro_score sentiment_score : option Z) :
  weighted_average technical_score macro_score sentiment_score * 10
  == inject_Z (tenths technical_score macro_score sentiment_score).
Proof.
  unfold weighted_average, tenths.
  destruct macro_score as [m |], sentiment_score as [s |]; cbn;
    rewrite ?inject_Z_plus, ?inject_Z_mult; ring.
Qed.

(** C5, as the code has it.  The overall score is the weighted average
    of the layer scores that are present (0.4/0.3/0.3 with all three,
    0.6/0.4 with two, the technical score itself when alone), computed in
    binary64 and cut to an integer by [int()]: for layer scores in 0..100
    it is an integer that is not above the exact weighted average and at
    most one below it.  Technical 80 with macro 60 gives 72, and the
    technical score alone is passed through, 80 giving 80. *)
Theorem overall_score_truncated_weighted_average
    (technical_score : Z) (macro_score sentiment_score : option Z) :
  (0 <= technical_score <= 100)%Z ->
  percent_or_absent macro_score ->
  percent_or_absent sentiment_score ->
  (exists overall : Z,
     _calculate_overall_score technical_score macro_score sentiment_score
     = Returned overall
     /\ inject_Z overall
        <= weighted_average technical_score macro_score sentiment_score
     /\ weighted_average technical_score macro_score sentiment_score
        <= inject_Z overall + 1)
  /\ _calculate_overall_score technical_score None None = Returned technical_score
  /\ _calculate_overall_score 80 (Some 60%Z) None = Returned 72%Z
  /\ _calculate_overall_score 80 None None = Returned 80%Z.
Proof.
  intros Ht Hm Hs.
  split; [| repeat split; vm_compute; reflexivity].
  pose proof (just_below_in_range technical_score macro_score sentiment_score
                Ht Hm Hs) as H.
  pose proof (weighted_average_tenths technical_score macro_score sentiment_score)
    as Hten.
  unfold ok in H.
  destruct (_calculate_overall_score technical_score macro_score sentiment_score)
    as [overall | e]; [| discriminate H].
  exists overall. split; [reflexivity |].
  unfold just_below in H. apply andb_prop in H. destruct H as [Hlo Hhi].
  apply Z.leb_le in Hlo. apply Z.leb_le in Hhi.
  rewrite Zle_Qle in Hlo, Hhi.
  rewrite inject_Z_plus in Hhi. rewrite inject_Z_mult in Hlo, Hhi.
  change (inject_Z 10) with 10 in Hlo, Hhi.
  split; lra.
Qed.

Lemma overall_score_truncated_weighted_average_witness :
  (exists overall : Z,
     _calculate_overall_score 81 (Some 60%Z) None = Returned overall
     /\ inject_Z overall <= weighted_average 81 (Some 60%Z) None
     /\ weighted_average 81 (Some 60%Z) None <= inject_Z overall + 1)
  /\ _calculate_overall_score 81 None None = Returned 81%Z
  /\ _calculate_overall_score 80 (Some 60%Z) None = Returned 72%Z
  /\ _calculate_overall_score 80 None None = Returned 80%Z.
Proof.
  apply (overall_score_truncated_weighted_average 81 (Some 60%Z) None);
    simpl; [lia | lia | exact I].
Defined.

(** C5, as the specification words it, fails: the score is not the
    weighted average whenever that is not a whole number, and not always
    when it is.  Technical 81 with macro 60 averages 72.6 and the code
    returns 72; technical 6 with macro 1 averages 4 exactly, the binary64
    sum falls just short of 4, and the code returns 3. *)
Lemma overall_score_is_not_the_average :
  _calculate_overall_score 81 (Some 60%Z) None = Returned 72%Z
  /\ weighted_average 81 (Some 60%Z) None == 72.6
  /\ _calculate_overall_score 6 (Some 1%Z) None = Returned 3%Z
  /\ weighted_average 6 (Some 1%Z) None == 4.
Proof. repeat split; vm_compute; reflexivity. Qed.

(** The [except] block builds a signal that passes validation, so
    [generate_signal] always returns. *)
Lemma generate_signal_returns
    (coin : string) (price_data : CoinPrice) (technical : TechnicalIndicators)
    (ai_analysis : option AIAnalysis) (macro : option MacroContext) :
  exists s, generate_signal coin price_data technical ai_analysis macro = Returned s.
Proof.
  unfold generate_signal.
  destruct (fusion coin price_data technical ai_analysis macro) as [s | e].
  - exists s. reflexivity.
  - exists (default_signal coin). reflexivity.
Qed.

(** C7, as the code has it.  When the fusion raises, [generate_signal]
    still returns: the signal is hold with confidence 0 and overall score
    50, its technical score is the neutral 50 whatever was computed, and
    it has no entry zone, no targets, no stop loss and no position
    size. *)
Theorem generate_signal_safe_default
    (coin : string) (price_data : CoinPrice) (technical : TechnicalIndicators)
    (ai_analysis : option AIAnalysis) (macro : option MacroContext) (e : exn) :
  fusion coin price_data technical ai_analysis macro = Raised e ->
  exists s,
    generate_signal coin price_data technical ai_analysis macro = Returned s
    /\ signal s = HOLD /\ confidence s = 0%Z /\ overall_score s = 50%Z
    /\ technical_score s = 50%Z
    /\ entry_zone s = None /\ targets s = [] /\ stop_loss s = None
    /\ position_size_pct s = None.
Proof.
  intros H. exists (default_signal coin).
  unfold generate_signal. rewrite H.
  repeat split; reflexivity.
Qed.

Lemma generate_signal_safe_default_witness :
  fusion "BTC" Samples.btc_price Samples.btc_technical
         (Some Samples.half_open_entry) None = Raised TypeError
  /\ exists s,
      generate_signal "BTC" Samples.btc_price Samples.btc_technical
                      (Some Samples.half_open_entry) None = Returned s
      /\ signal s = HOLD /\ confidence s = 0%Z /\ overall_score s = 50%Z
      /\ technical_score s = 50%Z
      /\ entry_zone s = None /\ targets s = [] /\ stop_loss s = None
      /\ position_size_pct s = None.
Proof.
  assert (H : fusion "BTC" Samples.btc_price Samples.btc_technical
                     (Some Samples.half_open_entry) None = Raised TypeError)
    by (vm_compute; reflexivity).
  split; [exact H |].
  exact (generate_signal_safe_default "BTC" Samples.btc_price
           Samples.btc_technical (Some Samples.half_open_entry) None TypeError H).
Defined.

(** C7, as the specification words it, fails in "carries the technical
    score through": for the sample request the technical score is
    computed as 90, formatting the missing upper entry bound then raises,
    and the signal returned has technical score 50. *)
Lemma safe_default_drops_technical_score :
  _calculate_technical_score Samples.btc_technical = 90%Z
  /\ fusion "BTC" Samples.btc_price Samples.btc_technical
            (Some Samples.half_open_entry) None = Raised TypeError
  /\ exists s,
      generate_signal "BTC" Samples.btc_price Samples.btc_technical
                      (Some Samples.half_open_entry) None = Returned s
      /\ technical_score s <> _calculate_technical_score Samples.btc_technical.
Proof.
  split; [vm_compute; reflexivity |].
  split; [vm_compute; reflexivity |].
  exists (default_signal "BTC").
  split; [vm_compute; reflexivity |].
  vm_compute. discriminate.
Qed.

End Fusion.

(** ** Admission controller *)

Section NumberFacts.
Import PyEff PyFloat.

Lemma of_long_cases (n : Z) :
  (exists x, of_long n = Returned x) \/ of_long n = Raised OverflowError.
Proof.
  unfold of_long. destruct (float_limit <=? Z.abs n)%Z; eauto.
Qed.

Lemma of_long_small (n : Z) :
  (Z.abs n < float_limit)%Z -> exists x, of_long n = Returned x.
Proof.
  intros H. unfold of_long.
  destruct (float_limit <=? Z.abs n)%Z eqn:E; [| eauto].
  apply Z.leb_le in E. lia.
Qed.

Lemma to_float_cases (a : number) :
  (exists x, to_float a = Returned x) \/ to_float a = Raised OverflowError.
Proof. destruct a; cbn; [apply of_long_cases | eauto]. Qed.

Lemma to_float_convertible (a : number) :
  Admission.convertible a -> exists x, to_float a = Returned x.
Proof. destruct a; cbn; [apply of_long_small | eauto]. Qed.

Lemma add_cases (a b : number) :
  (exists c, PyFloat.add a b = Returned c) \/ PyFloat.add a b = Raised OverflowError.
Proof.
  destruct a as [x | x], b as [y | y]; cbn; eauto.
  - destruct (of_long_cases x) as [[fx ->] | ->]; cbn; eauto.
  - destruct (of_long_cases y) as [[fy ->] | ->]; cbn; eauto.
Qed.

Lemma add_float_cases (a : number) (y : float) :
  (exists x, to_float a = Returned x /\ PyFloat.add a (Flt y) = Returned (Flt (x + y)%float))
  \/ (to_float a = Raised OverflowError /\ PyFloat.add a (Flt y) = Raised OverflowError).
Proof.
  destruct a as [x | x]; cbn.
  - destruct (of_long_cases x) as [[fx ->] | ->]; cbn; eauto.
  - eauto.
Qed.

Lemma sub_cases (a b : number) :
  (exists c, PyFloat.sub a b = Returned c) \/ PyFloat.sub a b = Raised OverflowError.
Proof.
  destruct a as [x | x], b as [y | y]; cbn; eauto.
  - destruct (of_long_cases x) as [[fx ->] | ->]; cbn; eauto.
  - destruct (of_long_cases y) as [[fy ->] | ->]; cbn; eauto.
Qed.

Lemma div_cases (a : number) (r : float) :
  (r =? 0)%float = false ->
  (exists c, PyFloat.div a r = Returned c) \/ PyFloat.div a r = Raised OverflowError.
Proof.
  intros Hr. unfold PyFloat.div.
  destruct (to_float_cases a) as [[x ->] | ->]; cbn; [rewrite Hr |]; eauto.
Qed.

Lemma py_min_le (capacity : Z) (total : number) :
  le_int (TokenBucket.py_min capacity total) capacity = true.
Proof.
  unfold TokenBucket.py_min. destruct total as [z | x].
  - destruct (z <? capacity)%Z eqn:E; cbn.
    + apply Z.ltb_lt in E. apply Z.leb_le. lia.
    + apply Z.leb_refl.
  - unfold lt_int. destruct (compare_int x capacity) as [[] |] eqn:E; cbn;
      rewrite ?E; try apply Z.leb_refl; reflexivity.
Qed.

Lemma le_then_not_ge (a : number) (capacity units : Z) :
  le_int a capacity = true -> (capacity < units)%Z -> ge_int a units = false.
Proof.
  intros Hle Hlt. destruct a as [z | x]; cbn in *.
  - apply Z.leb_le in Hle. apply Z.leb_gt. lia.
  - unfold compare_int in *.
    destruct (rational x) as [q |].
    + assert (Hq : (q <= inject_Z capacity)%Q).
      { destruct (q ?= inject_Z capacity)%Q eqn:E; try discriminate Hle.
        - apply Qeq_alt in E. rewrite E. apply Qle_refl.
        - apply Qlt_alt in E. apply Qlt_le_weak. exact E. }
      assert (Hu : (q < inject_Z units)%Q).
      { apply Qle_lt_trans with (inject_Z capacity); [exact Hq |].
        rewrite <- Zlt_Qlt. exact Hlt. }
      destruct (q ?= inject_Z units)%Q eqn:E; [| reflexivity |].
      * apply Qeq_alt in E. lra.
      * apply Qgt_alt in E. lra.
    + destruct (Prim2SF x) as [| [] | |]; try discriminate Hle; reflexivity.
Qed.

End NumberFacts.

Section TokenBucketFacts.
Import PyEff Clock PyFloat Admission RateLimiterOps.

Lemma refill_eq (w : World) (b : TokenBucket.t) :
  TokenBucket._refill (mkFrame w b)
  = match available_at b (clock (read w)) with
    | Returned r =>
        (Done (Returned tt), mkFrame (read w) (topped b r (clock (read w))))
    | Raised e => (Done (Raised e), mkFrame (read w) b)
    end.
Proof.
  unfold TokenBucket._refill, available_at, bind, lift, time_time, get_self, set_self.
  cbn [world self fst snd].
  destruct (PyFloat.add _ _) as [total | e]; reflexivity.
Qed.

Lemma acquire_locked (units : Z) (w : World) (b : TokenBucket.t) :
  TokenBucket.locked b = true ->
  TokenBucket.acquire units (mkFrame w b) = (Pending, mkFrame w b).
Proof.
  intros H. unfold TokenBucket.acquire, TokenBucket.with_lock, bind, get_self.
  cbn [self]. rewrite H. reflexivity.
Qed.

Lemma debit_eq (units : Z) (w : World) (b : TokenBucket.t) :
  (TokenBucket.debit units ;;; ret true)%aio (mkFrame w b) = debited units w b.
Proof.
  unfold TokenBucket.debit, debited, bind, lift, get_self, set_self, ret.
  cbn [world self].
  destruct (PyFloat.sub _ _) as [remaining | e]; reflexivity.
Qed.

Ltac unfold_bucket :=
  unfold TokenBucket.acquire, TokenBucket.with_lock, TokenBucket._refill,
    TokenBucket.debit, waited, debited, topped, available_at, deficit_time,
    bind, finally, lift, ret, get_self, set_self, time_time, asyncio_sleep.

Lemma acquire_unlocked (units : Z) (w : World) (b : TokenBucket.t) :
  TokenBucket.locked b = false ->
  TokenBucket.acquire units (mkFrame w b)
  = let w1 := read w in
    match available_at b (clock w1) with
    | Raised e => (Done (Raised e), mkFrame w1 b)
    | Returned r =>
        let b1 := topped b r (clock w1) in
        if ge_int r units then debited units w1 b1
        else
          match deficit_time b r units with
          | Raised e => (Done (Raised e), mkFrame w1 b1)
          | Returned wait_time => waited units wait_time w1 b1
          end
    end.
Proof.
  intros H. destruct b as [capacity rate tokens last locked]. cbn in H. subst locked.
  unfold_bucket.
  cbn -[PyFloat.add PyFloat.sub PyFloat.div ge_int TokenBucket.py_min read rest
        PrimFloat.leb PrimFloat.is_finite PrimFloat.sub PrimFloat.mul].
  destruct (PyFloat.add tokens _) as [total | e]; [| reflexivity].
  cbn -[PyFloat.add PyFloat.sub PyFloat.div ge_int TokenBucket.py_min read rest
        PrimFloat.leb PrimFloat.is_finite PrimFloat.sub PrimFloat.mul].
  destruct (ge_int _ units).
  - destruct (PyFloat.sub _ _) as [remaining | e]; reflexivity.
  - destruct (PyFloat.sub _ _) as [deficit | e]; [| reflexivity].
    cbn -[PyFloat.add PyFloat.sub PyFloat.div ge_int TokenBucket.py_min read rest
          PrimFloat.leb PrimFloat.is_finite PrimFloat.sub PrimFloat.mul].
    destruct (PyFloat.div deficit rate) as [wait_time | e]; [| reflexivity].
    destruct ((wait_time <=? 0)%float || is_finite wait_time); [| reflexivity].
    cbn -[PyFloat.add PyFloat.sub PyFloat.div ge_int TokenBucket.py_min read rest
          PrimFloat.leb PrimFloat.is_finite PrimFloat.sub PrimFloat.mul].
    destruct (PyFloat.add _ _) as [total2 | e]; [| reflexivity].
    cbn -[PyFloat.add PyFloat.sub PyFloat.div ge_int TokenBucket.py_min read rest
          PrimFloat.leb PrimFloat.is_finite PrimFloat.sub PrimFloat.mul].
    destruct (PyFloat.sub _ _) as [remaining | e]; reflexivity.
Qed.

(** A refill leaves the [int] capacity or a [float] below it, and fails
    only when the count held is an [int] too large for a [float]. *)
Lemma available_at_cases (b : TokenBucket.t) (now : float) :
  (exists r,
     available_at b now = Returned r
     /\ le_int r (TokenBucket.capacity b) = true
     /\ (r = Int (TokenBucket.capacity b) \/ exists x, r = Flt x))
  \/ available_at b now = Raised OverflowError.
Proof.
  unfold available_at.
  destruct (add_float_cases (TokenBucket.tokens b)
              ((now - TokenBucket.last_refill b) * TokenBucket.refill_rate b)%float)
    as [(x & _ & ->) | [_ ->]]; [left | right; reflexivity].
  cbn [and_then]. eexists. split; [reflexivity |].
  split; [apply py_min_le |].
  unfold TokenBucket.py_min. destruct (lt_int _ _); eauto.
Qed.

Lemma available_at_convertible (b : TokenBucket.t) (now : float) :
  convertible (TokenBucket.tokens b) ->
  exists r,
    available_at b now = Returned r
    /\ le_int r (TokenBucket.capacity b) = true
    /\ (r = Int (TokenBucket.capacity b) \/ exists x, r = Flt x).
Proof.
  intros H. destruct (available_at_cases b now) as [Hr | He]; [exact Hr |].
  exfalso. unfold available_at in He.
  destruct (to_float_convertible _ H) as [x Hx].
  destruct (add_float_cases (TokenBucket.tokens b)
              ((now - TokenBucket.last_refill b) * TokenBucket.refill_rate b)%float)
    as [(y & _ & Hadd) | [Hno _]].
  - rewrite Hadd in He. discriminate He.
  - rewrite Hx in Hno. discriminate Hno.
Qed.

Lemma available_at_topped (b : TokenBucket.t) (r : number) (t now : float) :
  available_at (topped b r t) now
  = available_at (TokenBucket.mk (TokenBucket.capacity b) (TokenBucket.refill_rate b)
                    r t (TokenBucket.locked b)) now.
Proof. reflexivity. Qed.

(** What a call leaves of the fields it does not write. *)
Lemma acquire_keeps (units : Z) (w : World) (b : TokenBucket.t) :
  let r := TokenBucket.acquire units (mkFrame w b) in
  TokenBucket.capacity (self (snd r)) = TokenBucket.capacity b
  /\ TokenBucket.refill_rate (self (snd r)) = TokenBucket.refill_rate b.
Proof.
  cbv zeta. destruct (TokenBucket.locked b) eqn:Hlock.
  - rewrite acquire_locked by assumption. split; reflexivity.
  - rewrite acquire_unlocked by assumption. cbv zeta.
    destruct (available_at b _) as [r | e]; [| split; reflexivity].
    destruct (ge_int r units).
    + unfold debited. destruct (PyFloat.sub _ _); split; reflexivity.
    + destruct (deficit_time b r units) as [wait_time | e]; [| split; reflexivity].
      unfold waited.
      destruct ((wait_time <=? 0)%float || is_finite wait_time);
        [| split; reflexivity].
      destruct (available_at _ _) as [r2 | e]; [| split; reflexivity].
      unfold debited. destruct (PyFloat.sub _ _); split; reflexivity.
Qed.


Lemma debited_granted (units : Z) (w : World) (b : TokenBucket.t) :
  fst (debited units w b) = Done (Returned true)
  \/ fst (debited units w b) = Done (Raised OverflowError).
Proof.
  unfold debited.
  destruct (sub_cases (TokenBucket.tokens b) (Int units)) as [[c ->] | ->];
    [left | right]; reflexivity.
Qed.

(** A call on a bucket that refills returns [True], raises
    [OverflowError] or stays pending; it never returns [False]. *)
Lemma bucket_granted_or_stuck (units : Z) (w : World) (b : TokenBucket.t) :
  (TokenBucket.refill_rate b =? 0)%float = false ->
  granted_or_stuck (fst (TokenBucket.acquire units (mkFrame w b))).
Proof.
  intros Hrate. unfold granted_or_stuck.
  destruct (TokenBucket.locked b) eqn:Hlock.
  { rewrite acquire_locked by assumption. right. right. reflexivity. }
  rewrite acquire_unlocked by assumption. cbv zeta.
  destruct (available_at_cases b (clock (read w))) as [(r & -> & _) | ->];
    [| right; left; reflexivity].
  destruct (ge_int r units).
  { destruct (debited_granted units (read w) (topped b r (clock (read w))))
      as [-> | ->]; auto. }
  unfold deficit_time.
  destruct (sub_cases (Int units) r) as [[deficit ->] | ->];
    [| right; left; reflexivity].
  cbn [and_then].
  destruct (div_cases deficit _ Hrate) as [[wait_time ->] | ->];
    [| right; left; reflexivity].
  unfold waited.
  destruct ((wait_time <=? 0)%float || is_finite wait_time);
    [| right; right; reflexivity].
  destruct (available_at_cases (topped b r (clock (read w)))
              (clock (read (rest wait_time (read w)))))
    as [(r2 & -> & _) | ->]; [| right; left; reflexivity].
  destruct (debited_granted units (read (rest wait_time (read w)))
              (topped (topped b r (clock (read w))) r2
                 (clock (read (rest wait_time (read w))))))
    as [-> | ->]; auto.
Qed.

Lemma debited_capped (w : World) (b : TokenBucket.t) :
  le_int (TokenBucket.tokens b) (TokenBucket.capacity b) = true ->
  capped (self (snd (debited 1 w b))).
Proof.
  intros Hle. unfold debited.
  destruct (PyFloat.sub (TokenBucket.tokens b) (Int 1)) as [remaining | e] eqn:E.
  - right. exists (TokenBucket.tokens b). split; [exact Hle | exact E].
  - left. exact Hle.
Qed.

(** A call for one token keeps the count capped. *)
Lemma bucket_capped (w : World) (b : TokenBucket.t) :
  capped b -> capped (self (snd (TokenBucket.acquire 1 (mkFrame w b)))).
Proof.
  intros Hb.
  destruct (TokenBucket.locked b) eqn:Hlock.
  { rewrite acquire_locked by assumption. exact Hb. }
  rewrite acquire_unlocked by assumption. cbv zeta.
  destruct (available_at_cases b (clock (read w))) as [(r & -> & Hr & _) | ->];
    [| exact Hb].
  destruct (ge_int r 1).
  { apply debited_capped. exact Hr. }
  destruct (deficit_time b r 1) as [wait_time | e]; [| left; exact Hr].
  unfold waited.
  destruct ((wait_time <=? 0)%float || is_finite wait_time); [| left; exact Hr].
  destruct (available_at_cases (topped b r (clock (read w)))
              (clock (read (rest wait_time (read w)))))
    as [(r2 & -> & Hr2 & _) | ->]; [| left; exact Hr].
  apply debited_capped. exact Hr2.
Qed.


Lemma of_long_word (units : Z) :
  (- 2 ^ 63 <= units < 2 ^ 63)%Z -> exists x, of_long units = Returned x.
Proof. intros H. apply of_long_small. unfold float_limit. lia. Qed.

Lemma debited_modest (units : Z) (w : World) (b : TokenBucket.t) :
  (- 2 ^ 63 <= units < 2 ^ 63)%Z ->
  (Z.abs (TokenBucket.capacity b) < 2 ^ 64)%Z ->
  (TokenBucket.tokens b = Int (TokenBucket.capacity b)
   \/ exists x, TokenBucket.tokens b = Flt x) ->
  fst (debited units w b) = Done (Returned true)
  /\ modest (self (snd (debited units w b))).
Proof.
  intros Hu Hc Hr. unfold debited, modest.
  destruct Hr as [-> | [x ->]]; cbn [PyFloat.sub].
  - cbn. split; [reflexivity |]. lia.
  - cbn [to_float and_then].
    destruct (of_long_word units Hu) as [y ->]. cbn.
    split; [reflexivity |]. split; [exact Hc | exact I].
Qed.

Lemma deficit_time_modest (units : Z) (b : TokenBucket.t) (r : number) :
  (- 2 ^ 63 <= units < 2 ^ 63)%Z ->
  (Z.abs (TokenBucket.capacity b) < 2 ^ 64)%Z ->
  (TokenBucket.refill_rate b =? 0)%float = false ->
  (r = Int (TokenBucket.capacity b) \/ exists x, r = Flt x) ->
  exists wait_time, deficit_time b r units = Returned wait_time.
Proof.
  intros Hu Hc Hrate Hr. unfold deficit_time, PyFloat.div.
  destruct Hr as [-> | [x ->]]; cbn [PyFloat.sub and_then to_float].
  - destruct (of_long_small (units - TokenBucket.capacity b)) as [y ->].
    { unfold float_limit. lia. }
    cbn [and_then]. rewrite Hrate. eauto.
  - destruct (of_long_word units Hu) as [y ->]. cbn [and_then to_float].
    rewrite Hrate. eauto.
Qed.

(** A call of at most word size on a bucket of moderate size that
    refills does not raise, and leaves the bucket of moderate size. *)
Lemma bucket_granted_or_pending (units : Z) (w : World) (b : TokenBucket.t) :
  (- 2 ^ 63 <= units < 2 ^ 63)%Z ->
  modest b ->
  (TokenBucket.refill_rate b =? 0)%float = false ->
  let r := TokenBucket.acquire units (mkFrame w b) in
  granted_or_pending (fst r) /\ modest (self (snd r)).
Proof.
  intros Hu Hb Hrate. cbv zeta. unfold granted_or_pending.
  destruct (TokenBucket.locked b) eqn:Hlock.
  { rewrite acquire_locked by assumption. split; [right; reflexivity | exact Hb]. }
  rewrite acquire_unlocked by assumption. cbv zeta.
  destruct Hb as [Hc Ht].
  assert (Hconv : convertible (TokenBucket.tokens b)).
  { unfold convertible. destruct (TokenBucket.tokens b); [| exact I].
    unfold float_limit. lia. }
  destruct (available_at_convertible b (clock (read w)) Hconv)
    as (r & -> & _ & Hr).
  set (b1 := topped b r (clock (read w))).
  assert (Hb1 : modest b1).
  { split; [exact Hc |]. cbn. destruct Hr as [-> | [x ->]]; [lia | exact I]. }
  destruct (ge_int r units).
  { destruct (debited_modest units (read w) b1 Hu Hc Hr) as [-> Hm].
    split; [left; reflexivity | exact Hm]. }
  destruct (deficit_time_modest units b r Hu Hc Hrate Hr) as [wait_time ->].
  unfold waited.
  destruct ((wait_time <=? 0)%float || is_finite wait_time);
    [| split; [right; reflexivity | exact Hb1]].
  assert (Hconv1 : convertible (TokenBucket.tokens b1)).
  { cbn. destruct Hr as [-> | [x ->]]; cbn; [unfold float_limit; lia | exact I]. }
  destruct (available_at_convertible b1
              (clock (read (rest wait_time (read w)))) Hconv1)
    as (r2 & -> & _ & Hr2).
  destruct (debited_modest units (read (rest wait_time (read w)))
              (topped b1 r2 (clock (read (rest wait_time (read w)))))
              Hu Hc Hr2) as [-> Hm].
  split; [left; reflexivity | exact Hm].
Qed.

End TokenBucketFacts.

Section RateLimiterFacts.
Import PyEff Clock PyFloat Admission.

(** A source without a limiter is let through untouched. *)
Lemma acquire_unconfigured
    (fr : Frame RateLimiter.t) (source priority : string) (units : Z) :
  RateLimiter.limiters (self fr) !! source = None ->
  RateLimiter.acquire source priority units fr = (Done (Returned true), fr).
Proof.
  intros H. unfold RateLimiter.acquire, bind, get_self. cbn.
  rewrite H. reflexivity.
Qed.

(** A call for a configured source, in terms of the call on its bucket. *)
Lemma acquire_configured
    (fr : Frame RateLimiter.t) (source priority : string) (units : Z)
    (b : TokenBucket.t) :
  RateLimiter.limiters (self fr) !! source = Some b ->
  let rl := self fr in
  let w1 := read (world fr) in
  let rb := TokenBucket.acquire units (mkFrame w1 b) in
  let rl1 :=
    RateLimiter.mk (<[source := self (snd rb)]> (RateLimiter.limiters rl))
      (RateLimiter.request_queues rl) (RateLimiter.stats rl) in
  RateLimiter.acquire source priority units fr =
  match fst rb with
  | Pending => (Pending, mkFrame (world (snd rb)) rl1)
  | Done (Raised e) => (Done (Raised e), mkFrame (world (snd rb)) rl1)
  | Done (Returned success) =>
      let w3 := read (world (snd rb)) in
      match RateLimiter.stats rl !! source with
      | None => (Done (Raised KeyError), mkFrame w3 rl1)
      | Some st =>
          let st2 := RateLimiter.counted success st in
          match PyFloat.add (RateLimiter.total_wait_time st2)
                  (Flt (clock w3 - clock w1)%float) with
          | Raised e =>
              (Done (Raised e),
               mkFrame w3
                 (RateLimiter.with_stats (<[source := st2]> (RateLimiter.stats rl)) rl1))
          | Returned total =>
              (Done (Returned success),
               mkFrame w3
                 (RateLimiter.with_stats
                    (<[source := RateLimiter.with_wait total st2]> (RateLimiter.stats rl))
                    rl1))
          end
      end
  end.
Proof.
  intros H. cbv zeta.
  unfold RateLimiter.acquire, RateLimiter.on_limiter, RateLimiter.update_stats.
  unfold bind, ret, raise, lift, get_self, set_self, time_time.
  cbn -[TokenBucket.acquire PyFloat.add read RateLimiter.counted].
  rewrite H. cbn -[TokenBucket.acquire PyFloat.add read RateLimiter.counted].
  rewrite H.
  destruct (TokenBucket.acquire units _) as [[[success | e] |] fr2];
    cbn -[PyFloat.add read RateLimiter.counted]; try reflexivity.
  destruct (RateLimiter.stats (self fr) !! source);
    cbn -[PyFloat.add read RateLimiter.counted]; [| reflexivity].
  destruct (PyFloat.add _ _); reflexivity.
Qed.


Lemma init_returns (w : World) : fst (RateLimiter.init w) = Done (Returned tt).
Proof. reflexivity. Qed.

Lemma init_unconfigured (w : World) (source : string) :
  source <> "coingecko"%string -> source <> "binance"%string ->
  source <> "glassnode"%string -> source <> "cryptoquant"%string ->
  RateLimiter.limiters (self (snd (RateLimiter.init w))) !! source = None.
Proof.
  intros H1 H2 H3 H4.
  unfold RateLimiter.init, RateLimiter._init_limiters, RateLimiter.new_limiter,
    TokenBucket.init.
  unfold bind, ret, time_time, get_self, set_self. cbn -[read].
  rewrite !lookup_insert_ne by congruence.
  apply lookup_empty.
Qed.

(** Every bucket starts full, unlocked, with its configured rate. *)
Lemma init_buckets (w : World) (P : TokenBucket.t -> Prop) :
  (forall capacity rate last,
      (rate =? 0)%float = false -> (0 < capacity < 2000)%Z ->
      P (TokenBucket.mk capacity rate (Int capacity) last false)) ->
  map_Forall (fun _ b => P b) (RateLimiter.limiters (self (snd (RateLimiter.init w)))).
Proof.
  intros HP.
  unfold RateLimiter.init, RateLimiter._init_limiters, RateLimiter.new_limiter,
    TokenBucket.init.
  unfold bind, ret, time_time, get_self, set_self. cbn -[read].
  repeat apply map_Forall_insert_2; [ .. | apply map_Forall_empty ];
    apply HP; first [reflexivity | lia].
Qed.

Lemma init_stats_zero (w : World) (s : string) :
  is_Some (RateLimiter.limiters (self (snd (RateLimiter.init w))) !! s) ->
  RateLimiter.stats (self (snd (RateLimiter.init w))) !! s
  = Some RateLimiter.zero_stats.
Proof.
  unfold RateLimiter.init, RateLimiter._init_limiters, RateLimiter.new_limiter,
    TokenBucket.init.
  unfold bind, ret, time_time, get_self, set_self. cbn -[read].
  rewrite lookup_fmap. intros [b ->]. reflexivity.
Qed.

Lemma init_capped (w : World) :
  map_Forall (fun _ b => capped b)
    (RateLimiter.limiters (self (snd (RateLimiter.init w)))).
Proof.
  apply init_buckets. intros capacity rate last _ _.
  left. cbn. apply Z.leb_refl.
Qed.

Lemma acquire_keeps_unconfigured
    (fr : Frame RateLimiter.t) (source priority : string) (units : Z)
    (other : string) :
  RateLimiter.limiters (self fr) !! other = None ->
  RateLimiter.limiters (self (snd (RateLimiter.acquire source priority units fr)))
    !! other = None.
Proof.
  intros Hother.
  destruct (RateLimiter.limiters (self fr) !! source) as [b |] eqn:Hb.
  2:{ rewrite acquire_unconfigured by assumption. assumption. }
  assert (Hne : source <> other) by congruence.
  rewrite (acquire_configured fr source priority units b Hb). cbv zeta.
  destruct (fst (TokenBucket.acquire units _)) as [[success | e] |];
    cbn -[PyFloat.add read];
    try (rewrite lookup_insert_ne by assumption; assumption).
  destruct (RateLimiter.stats (self fr) !! source);
    cbn -[PyFloat.add read];
    [destruct (PyFloat.add _ _) |]; cbn;
    rewrite lookup_insert_ne by assumption; assumption.
Qed.

Lemma run_keeps_unconfigured
    (calls : list (string * string)) (fr : Frame RateLimiter.t) (other : string) :
  RateLimiter.limiters (self fr) !! other = None ->
  RateLimiter.limiters (self (Admission.run fr calls)) !! other = None.
Proof.
  revert fr. induction calls as [| [source priority] calls IH]; intros fr H.
  - exact H.
  - unfold Admission.run in *. cbn [fold_left fst snd]. apply IH.
    apply (acquire_keeps_unconfigured fr source priority 1 other H).
Qed.

(** The buckets after a call: the one called is what the call on it
    left, the others are as they were. *)
Lemma acquire_limiters
    (fr : Frame RateLimiter.t) (source priority : string) (units : Z) :
  RateLimiter.limiters (self (snd (RateLimiter.acquire source priority units fr)))
  = match RateLimiter.limiters (self fr) !! source with
    | Some b =>
        <[source := self (snd (TokenBucket.acquire units
                                 (mkFrame (read (world fr)) b)))]>
          (RateLimiter.limiters (self fr))
    | None => RateLimiter.limiters (self fr)
    end.
Proof.
  destruct (RateLimiter.limiters (self fr) !! source) as [b |] eqn:Hb.
  2:{ rewrite acquire_unconfigured by assumption. reflexivity. }
  rewrite (acquire_configured fr source priority units b Hb). cbv zeta.
  destruct (fst (TokenBucket.acquire units _)) as [[success | e] |];
    cbn -[PyFloat.add read]; try reflexivity.
  destruct (RateLimiter.stats (self fr) !! source);
    cbn -[PyFloat.add read]; [destruct (PyFloat.add _ _) |]; reflexivity.
Qed.

Lemma acquire_one_capped
    (fr : Frame RateLimiter.t) (source priority : string) :
  map_Forall (fun _ b => capped b) (RateLimiter.limiters (self fr)) ->
  map_Forall (fun _ b => capped b)
    (RateLimiter.limiters (self (snd (RateLimiter.acquire source priority 1 fr)))).
Proof.
  intros Hall. rewrite acquire_limiters.
  destruct (RateLimiter.limiters (self fr) !! source) as [b |] eqn:Hb;
    [| exact Hall].
  apply map_Forall_insert_2; [| exact Hall].
  apply bucket_capped. exact (Hall source b Hb).
Qed.

Lemma run_capped (calls : list (string * string)) (fr : Frame RateLimiter.t) :
  map_Forall (fun _ b => capped b) (RateLimiter.limiters (self fr)) ->
  map_Forall (fun _ b => capped b)
    (RateLimiter.limiters (self (Admission.run fr calls))).
Proof.
  revert fr. induction calls as [| [source priority] calls IH]; intros fr H.
  - exact H.
  - unfold Admission.run in *. cbn [fold_left fst snd]. apply IH.
    apply acquire_one_capped. exact H.
Qed.


(** C1, as the code has it.  Whatever the clock reads, a refill that
    completes leaves a count that is at most the capacity.  And start the
    limiter at any instant and make any sequence of calls for one token
    each, one after the other: after the last call the count of every
    bucket is at most its capacity, or it is what the debit of one token
    leaves of a count that was.  Nothing bounds the count from below. *)
Theorem tokens_capped_before_debit (w : World) (calls : list (string * string)) :
  (forall (w' : World) (b : TokenBucket.t),
      let r := TokenBucket._refill (mkFrame w' b) in
      fst r = Done (Returned tt) ->
      le_int (TokenBucket.tokens (self (snd r))) (TokenBucket.capacity b) = true)
  /\ forall (source : string) (b : TokenBucket.t),
      RateLimiter.limiters (self (run (snd (RateLimiter.init w)) calls)) !! source
      = Some b ->
      capped b.
Proof.
  split.
  - intros w' b. cbv zeta. rewrite refill_eq.
    destruct (available_at_cases b (clock (read w'))) as [(r & -> & Hr & _) | ->].
    + intros _. exact Hr.
    + intros H. discriminate H.
  - intros source b Hb.
    exact (run_capped calls _ (init_capped w) source b Hb).
Qed.

Lemma tokens_capped_before_debit_witness :
  exists b,
    RateLimiter.limiters
      (self (run (snd (RateLimiter.init Samples.burst_world)) Samples.burst_calls))
      !! "coingecko"%string = Some b
    /\ capped b.
Proof.
  eexists. split; [vm_compute; reflexivity |].
  destruct (tokens_capped_before_debit Samples.burst_world Samples.burst_calls)
    as [_ H].
  apply (H "coingecko"%string). vm_compute. reflexivity.
Defined.

(** C1, as the specification words it, fails.  The sample limiter is
    started when the clock reads 1 700 000 000 and called 46 times for
    one CoinGecko token with no time passing between the calls.  The
    first 45 calls empty the bucket.  The 46th sleeps for 1/0.75 seconds;
    the clock then reads 1 700 000 001.3333333, the refill adds
    1.3333332538604736 * 0.75 tokens, which is short of 1, and the debit
    leaves a negative count.  Every call returned [True].  And a single
    call for 46 tokens on a full bucket of 45 returns [True] and leaves
    the count at -1. *)
Lemma one_token_calls_leave_a_negative_count :
  let fr45 :=
    run (snd (RateLimiter.init Samples.burst_world))
      (repeat ("coingecko"%string, "high"%string) 45) in
  let last := RateLimiter.acquire "coingecko" "high" 1 fr45 in
  snd last = run (snd (RateLimiter.init Samples.burst_world)) Samples.burst_calls
  /\ fst last = Done (Returned true)
  /\ slept (world (snd last)) = [1.3333333333333333%float]
  /\ clock (world (snd last)) = 1700000001.3333333%float
  /\ exists b,
      RateLimiter.limiters (self (snd last)) !! "coingecko"%string = Some b
      /\ TokenBucket.tokens b = Flt (-5.9604644775390625e-08)%float
      /\ ge_int (TokenBucket.tokens b) 0 = false
      /\ TokenBucket.acquire 46 Samples.fresh_bucket
         = (Done (Returned true),
            mkFrame (mkWorld 101.33333333333333%float []
                       [1.3333333333333333%float])
              (TokenBucket.mk 45 0.75%float (Int (-1))
                 101.33333333333333%float false)).
Proof.
  cbv zeta.
  split; [vm_compute; reflexivity |].
  split; [vm_compute; reflexivity |].
  split; [vm_compute; reflexivity |].
  split; [vm_compute; reflexivity |].
  eexists. split; [vm_compute; reflexivity |].
  split; [vm_compute; reflexivity |].
  split; vm_compute; reflexivity.
Qed.

(** C10.  For a source that is none of the four configured ones, in any
    state the limiter can be in, the call returns [True] and leaves the
    clock, every bucket and every counter as they were: no clock reading,
    no sleep, no debit. *)
Theorem unconfigured_source_is_not_limited
    (w : World) (calls : list (string * string))
    (source priority : string) (units : Z) :
  source <> "coingecko"%string -> source <> "binance"%string ->
  source <> "glassnode"%string -> source <> "cryptoquant"%string ->
  let fr := run (snd (RateLimiter.init w)) calls in
  RateLimiter.acquire source priority units fr = (Done (Returned true), fr).
Proof.
  intros H1 H2 H3 H4 fr.
  apply acquire_unconfigured. unfold fr.
  apply run_keeps_unconfigured. apply init_unconfigured; assumption.
Qed.

Lemma unconfigured_source_is_not_limited_witness :
  let fr := run (snd (RateLimiter.init Samples.burst_world)) Samples.burst_calls in
  RateLimiter.acquire "kraken" "high" 1 fr = (Done (Returned true), fr).
Proof.
  apply (unconfigured_source_is_not_limited
           Samples.burst_world Samples.burst_calls "kraken" "high" 1);
    discriminate.
Defined.

Lemma deficit_time_oversized (units : Z) (b : TokenBucket.t) (r : number) :
  (0 <= TokenBucket.capacity b < units)%Z -> (units < float_limit)%Z ->
  (TokenBucket.refill_rate b =? 0)%float = false ->
  (r = Int (TokenBucket.capacity b) \/ exists x, r = Flt x) ->
  exists wait_time, deficit_time b r units = Returned wait_time.
Proof.
  intros Hc Hu Hrate Hr. unfold deficit_time, PyFloat.div.
  destruct Hr as [-> | [x ->]]; cbn [PyFloat.sub and_then to_float].
  - destruct (of_long_small (units - TokenBucket.capacity b)) as [y ->]; [lia |].
    cbn [and_then]. rewrite Hrate. eauto.
  - destruct (of_long_small units) as [y ->]; [lia |]. cbn [and_then to_float].
    rewrite Hrate. eauto.
Qed.

Lemma debited_oversized (units : Z) (w : World) (b : TokenBucket.t) :
  (0 <= TokenBucket.capacity b < units)%Z -> (units < float_limit)%Z ->
  (TokenBucket.tokens b = Int (TokenBucket.capacity b)
   \/ exists x, TokenBucket.tokens b = Flt x) ->
  exists remaining,
    PyFloat.sub (TokenBucket.tokens b) (Int units) = Returned remaining
    /\ debited units w b
       = (Done (Returned true), mkFrame w (TokenBucket.with_tokens remaining b)).
Proof.
  intros Hc Hu Hr. unfold debited.
  destruct Hr as [-> | [x ->]]; cbn [PyFloat.sub and_then to_float].
  - eauto.
  - destruct (of_long_small units) as [y ->]; [lia |]. cbn [and_then]. eauto.
Qed.

(** C2, as the code has it.  A call for more tokens than the bucket can
    hold, on a bucket that refills, is not refused.  It finds the count
    the refill on entry leaves, which is at most the capacity; it sleeps
    once, for the deficit against that count over the refill rate, as
    double precision gives it; and when that time is not positive or is
    finite it refills again, debits the whole request and returns [True],
    having read the clock once more after the sleep.  It stays pending
    only when the time to sleep is not a finite number. *)
Theorem oversized_acquire_sleeps_for_deficit
    (w : World) (b : TokenBucket.t) (units : Z) :
  TokenBucket.locked b = false ->
  (0 <= TokenBucket.capacity b < units)%Z ->
  (units < float_limit)%Z ->
  convertible (TokenBucket.tokens b) ->
  (TokenBucket.refill_rate b =? 0)%float = false ->
  let r := TokenBucket.acquire units (mkFrame w b) in
  exists (available : number) (wait_time : float),
    available_at b (clock (read w)) = Returned available
    /\ le_int available (TokenBucket.capacity b) = true
    /\ deficit_time b available units = Returned wait_time
    /\ slept (world (snd r)) = wait_time :: slept w
    /\ if (wait_time <=? 0)%float || is_finite wait_time
       then
         fst r = Done (Returned true)
         /\ world (snd r) = read (rest wait_time (read w))
         /\ exists refilled : number,
             available_at (topped b available (clock (read w)))
               (clock (world (snd r))) = Returned refilled
             /\ PyFloat.sub refilled (Int units)
                = Returned (TokenBucket.tokens (self (snd r)))
       else fst r = Pending.
Proof.
  intros Hlock Hc Hu Hconv Hrate r.
  destruct (available_at_convertible b (clock (read w)) Hconv)
    as (available & Hav & Hle & Hshape).
  destruct (deficit_time_oversized units b available Hc Hu Hrate Hshape)
    as [wait_time Hwait].
  exists available, wait_time.
  split; [exact Hav |]. split; [exact Hle |]. split; [exact Hwait |].
  assert (Hr : r = waited units wait_time (read w)
                     (topped b available (clock (read w)))).
  { unfold r. rewrite acquire_unlocked by assumption. cbv zeta.
    rewrite Hav.
    rewrite (le_then_not_ge available (TokenBucket.capacity b) units Hle)
      by lia.
    rewrite Hwait. reflexivity. }
  rewrite Hr. unfold waited.
  destruct ((wait_time <=? 0)%float || is_finite wait_time);
    [| split; reflexivity].
  set (b1 := topped b available (clock (read w))).
  assert (Hconv1 : convertible (TokenBucket.tokens b1)).
  { cbn. destruct Hshape as [-> | [x ->]]; cbn; [lia | exact I]. }
  destruct (available_at_convertible b1
              (clock (read (rest wait_time (read w)))) Hconv1)
    as (refilled & Hav2 & _ & Hshape2).
  rewrite Hav2.
  destruct (debited_oversized units (read (rest wait_time (read w)))
              (topped b1 refilled (clock (read (rest wait_time (read w)))))
              Hc Hu Hshape2) as (remaining & Hsub & ->).
  cbn [fst snd world self].
  split; [reflexivity |].
  split; [reflexivity |]. split; [reflexivity |].
  exists refilled. split; [exact Hav2 |]. exact Hsub.
Qed.


Lemma oversized_acquire_sleeps_for_deficit_witness :
  let w := world Samples.fresh_bucket in
  let b := self Samples.fresh_bucket in
  let r := TokenBucket.acquire 46 (mkFrame w b) in
  exists (available : number) (wait_time : float),
    available_at b (clock (read w)) = Returned available
    /\ le_int available (TokenBucket.capacity b) = true
    /\ deficit_time b available 46 = Returned wait_time
    /\ slept (world (snd r)) = wait_time :: slept w
    /\ if (wait_time <=? 0)%float || is_finite wait_time
       then
         fst r = Done (Returned true)
         /\ world (snd r) = read (rest wait_time (read w))
         /\ exists refilled : number,
             available_at (topped b available (clock (read w)))
               (clock (world (snd r))) = Returned refilled
             /\ PyFloat.sub refilled (Int 46)
                = Returned (TokenBucket.tokens (self (snd r)))
       else fst r = Pending.
Proof.
  apply (oversized_acquire_sleeps_for_deficit
           (world Samples.fresh_bucket) (self Samples.fresh_bucket) 46).
  - reflexivity.
  - cbn. lia.
  - unfold float_limit. lia.
  - cbn. unfold float_limit. lia.
  - reflexivity.
Defined.

(** C2, as the specification words it, fails in two ways.  The sample
    bucket is full, with 45 tokens, when the clock reads 100 and is
    called for 46.  The call sleeps for 1/0.75 seconds as double
    precision has it, 1.3333333333333333; the clock then reads
    101.33333333333333, so by the clock the call took
    1.3333333333333286 seconds, less than the (46 - 45) / 0.75 seconds it
    is said to take at least.  And a call for 10^400 tokens does not
    return: the deficit has no [float] and the call raises. *)
Lemma measured_wait_is_short_and_huge_request_raises :
  let r := TokenBucket.acquire 46 Samples.fresh_bucket in
  let taken := (clock (world (snd r)) - clock (world Samples.fresh_bucket))%float in
  fst r = Done (Returned true)
  /\ TokenBucket.tokens (self Samples.fresh_bucket) = Int 45
  /\ slept (world (snd r)) = [1.3333333333333333%float]
  /\ taken = 1.3333333333333286%float
  /\ (exists q, rational taken = Some q /\ (q < (46 - 45) / 0.75)%Q)
  /\ fst (TokenBucket.acquire (10 ^ 400) Samples.fresh_bucket)
     = Done (Raised OverflowError).
Proof.
  cbv zeta.
  split; [vm_compute; reflexivity |].
  split; [reflexivity |].
  split; [vm_compute; reflexivity |].
  split; [vm_compute; reflexivity |].
  split; [eexists; split; [vm_compute; reflexivity | vm_compute; reflexivity] |].
  vm_compute. reflexivity.
Qed.

End RateLimiterFacts.

(** ** Tiered cache *)

Section JsonFacts.
Import Json.

(** Writing a value made of JSON's own types and reading it back gives
    the value. *)
Lemma loads_dumps_native : forall v : PyValue, native v = true -> loads (dumps v) = v.
Proof.
  fix IH 1. intros v. destruct v as [| b | z | q | s | items | entries | str];
    cbn; intros Hn; try reflexivity; try discriminate.
  - f_equal. induction items as [| x items IHitems]; [reflexivity |].
    cbn in Hn |- *. apply andb_true_iff in Hn as [Hx Hitems].
    rewrite (IH x Hx), (IHitems Hitems). reflexivity.
  - f_equal. induction entries as [| [k x] entries IHentries]; [reflexivity |].
    cbn in Hn |- *. apply andb_true_iff in Hn as [Hx Hentries].
    rewrite (IH x Hx), (IHentries Hentries). reflexivity.
Qed.

End JsonFacts.

Section CacheFacts.
Import PyEff Redis CacheManager.
Local Open Scope Z_scope.

Ltac run_cache :=
  unfold CacheManager.get, CacheManager.set, CacheManager.delete_,
    CacheManager.connect, expiry_instant, Redis.get, Redis.setex, Redis.del,
    Redis.ping, command, try_except, bind, ret, raise, get_self, set_self;
  cbn.

Ltac split_ifs :=
  repeat match goal with
    | |- context [match ?x with _ => _ end] =>
        lazymatch x with
        | context [match _ with _ => _ end] => fail
        | _ => destruct x eqn:?
        end
    end.

(** No call changes which tier the cache uses. *)
Lemma perform_keeps_mode (c : call) (fr : Frame CacheManager.t) :
  use_redis (self (perform c fr)) = use_redis (self fr)
  /\ redis_client (self (perform c fr)) = redis_client (self fr).
Proof.
  destruct c as [key | key value ttl | key]; unfold perform; run_cache;
    split_ifs; cbn; split; reflexivity.
Qed.

(** In fallback mode a call sends nothing to the primary tier. *)
Lemma perform_fallback_local (c : call) (fr : Frame CacheManager.t) :
  primary (self fr) = false ->
  env (perform c fr) = env fr.
Proof.
  intros H.
  destruct c as [key | key value ttl | key]; unfold perform; run_cache;
    rewrite H; split_ifs; reflexivity.
Qed.

Lemma primary_with_fallback (f : gmap string (Json.PyValue * Z)) (cm : CacheManager.t) :
  primary (with_fallback f cm) = primary cm.
Proof. reflexivity. Qed.

(** The paths through [get] and [set]. *)

Lemma get_fallback_fresh
    (fr : Frame CacheManager.t) (key : string) (v : Json.PyValue) (expires_at : Z) :
  primary (self fr) = false ->
  fallback_cache (self fr) !! key = Some (v, expires_at) ->
  utcnow (env fr) < expires_at ->
  CacheManager.get key fr = (Returned v, fr).
Proof.
  intros Hmode Hkey Ht. apply Z.ltb_lt in Ht.
  run_cache. rewrite Hmode, Hkey, Ht. reflexivity.
Qed.

Lemma get_fallback_expired
    (fr : Frame CacheManager.t) (key : string) (v : Json.PyValue) (expires_at : Z) :
  primary (self fr) = false ->
  fallback_cache (self fr) !! key = Some (v, expires_at) ->
  expires_at <= utcnow (env fr) ->
  CacheManager.get key fr
  = (Returned Json.PyNone,
     mkFrame (env fr)
       (with_fallback (delete key (fallback_cache (self fr))) (self fr))).
Proof.
  intros Hmode Hkey Ht. apply Z.ltb_ge in Ht.
  run_cache. rewrite Hmode, Hkey, Ht. reflexivity.
Qed.

Lemma get_fallback_absent (fr : Frame CacheManager.t) (key : string) :
  primary (self fr) = false ->
  fallback_cache (self fr) !! key = None ->
  CacheManager.get key fr = (Returned Json.PyNone, fr).
Proof.
  intros Hmode Hkey. run_cache. rewrite Hmode, Hkey. reflexivity.
Qed.

Lemma set_fallback
    (fr : Frame CacheManager.t) (key : string) (v : Json.PyValue) (ttl : Z) :
  primary (self fr) = false ->
  datetime_min <= utcnow (env fr) + microseconds ttl <= datetime_max ->
  CacheManager.set key v ttl fr
  = (Returned tt,
     mkFrame (env fr)
       (with_fallback
          (<[key := (v, utcnow (env fr) + microseconds ttl)]>
             (fallback_cache (self fr)))
          (self fr))).
Proof.
  intros Hmode [Hlo Hhi].
  apply Z.leb_le in Hlo. apply Z.leb_le in Hhi.
  run_cache. rewrite Hmode, Hlo, Hhi. reflexivity.
Qed.

Lemma set_primary
    (fr : Frame CacheManager.t) (key : string) (v : Json.PyValue) (ttl : Z) :
  primary (self fr) = true -> up (env fr) = true ->
  0 < ttl -> utcnow (env fr) / 1000 + ttl * 1000 <= 9223372036854775807 ->
  CacheManager.set key v ttl fr
  = (Returned tt,
     mkFrame
       (mkEnv (utcnow (env fr))
          (<[key := (Json.dumps v, utcnow (env fr) + microseconds ttl)]>
             (db (env fr)))
          true (S (commands (env fr))))
       (self fr)).
Proof.
  intros Hmode Hup Hpos Hfit.
  apply Z.ltb_lt in Hpos. apply Z.leb_le in Hfit.
  run_cache. rewrite Hmode, Hup, Hpos, Hfit. reflexivity.
Qed.

Lemma get_primary
    (fr : Frame CacheManager.t) (key : string) :
  primary (self fr) = true -> up (env fr) = true ->
  fst (CacheManager.get key fr)
  = Returned
      match db (env fr) !! key with
      | Some (text, expires_at) =>
          if utcnow (env fr) <? expires_at then Json.loads text else Json.PyNone
      | None => Json.PyNone
      end
  /\ self (snd (CacheManager.get key fr)) = self fr.
Proof.
  intros Hmode Hup. run_cache. rewrite Hmode, Hup.
  destruct (db (env fr) !! key) as [[text expires_at] |]; cbn;
    [destruct (utcnow (env fr) <? expires_at) |]; split; reflexivity.
Qed.

(** A call that finds the primary tier down is absorbed, and the cache
    goes on using the primary tier. *)
Lemma perform_primary_down (c : call) (fr : Frame CacheManager.t) :
  primary (self fr) = true -> up (env fr) = false ->
  self (perform c fr) = self fr
  /\ commands (env (perform c fr)) = S (commands (env fr))
  /\ db (env (perform c fr)) = db (env fr).
Proof.
  intros Hmode Hup.
  destruct c as [key | key value ttl | key]; unfold perform; run_cache;
    rewrite Hmode, Hup; repeat split; reflexivity.
Qed.

(** C3, as the code has it.  Store [v] under [key] with a positive time
    to live at instant [t0], then read [key] at instant [t].
    In fallback mode, when the expiry instant is a representable date:
    the entry stays in the store until it is read; a read before the
    expiry instant returns [v] and changes nothing; a read at or after it
    returns what a read of an absent key returns, [None], and leaves the
    cache as that read does, the entry removed by the read itself.
    In primary mode [get] makes no test of its own: it returns what the
    primary tier replies, read back from JSON.  When the primary tier
    answers both calls and accepts the time to live: a read before the
    expiry instant returns [v] as written to JSON and read back, which is
    [v] when [v] is made of JSON's own types; a read at or after it, when
    the tier no longer returns the entry, returns what a read of an
    absent key returns, [None], and leaves the cache object as it
    was. *)
Theorem get_after_set
    (fr : Frame CacheManager.t) (key : string) (v : Json.PyValue) (ttl : Z)
    (t0 t : Z) (up0 up1 : bool) :
  0 < ttl ->
  let expiry := t0 + microseconds ttl in
  let stored := step fr (mkEvent t0 up0 (Set_ key v ttl)) in
  let asked := arrive (mkEvent t up1 (Get key)) stored in
  let r := CacheManager.get key asked in
  let miss := CacheManager.get key (forget key asked) in
  (primary (self fr) = false ->
   datetime_min <= expiry <= datetime_max ->
   fallback_cache (self asked) !! key = Some (v, expiry)
   /\ (t < expiry -> r = (Returned v, asked))
   /\ (expiry <= t ->
       fst r = Returned Json.PyNone
       /\ fst r = fst miss /\ self (snd r) = self (snd miss)
       /\ fallback_cache (self (snd r)) !! key = None))
  /\ (primary (self fr) = true ->
      up0 = true -> up1 = true ->
      t0 / 1000 + ttl * 1000 <= 9223372036854775807 ->
      (t < expiry -> fst r = Returned (Json.loads (Json.dumps v)))
      /\ (t < expiry -> Json.native v = true -> fst r = Returned v)
      /\ (expiry <= t ->
          fst r = Returned Json.PyNone
          /\ fst r = fst miss /\ self (snd r) = self asked)).
Proof.
  intros Httl expiry stored asked r miss. split.
  - intros Hmode Hrep.
    assert (Hstored :
      stored
      = mkFrame (mkEnv t0 (db (env fr)) up0 (commands (env fr)))
          (with_fallback (<[key := (v, expiry)]> (fallback_cache (self fr)))
             (self fr))).
    { unfold stored, step, perform. cbn [what].
      rewrite set_fallback; [reflexivity | exact Hmode | exact Hrep]. }
    assert (Hkey : fallback_cache (self asked) !! key = Some (v, expiry)).
    { unfold asked. rewrite Hstored. cbn. apply lookup_insert_eq. }
    assert (Hfb : primary (self asked) = false).
    { unfold asked. rewrite Hstored. exact Hmode. }
    split; [exact Hkey |]. split.
    + intros Ht. apply (get_fallback_fresh asked key v expiry Hfb Hkey).
      unfold asked. exact Ht.
    + intros Ht.
      assert (Hr : r = (Returned Json.PyNone,
                        mkFrame (env asked)
                          (with_fallback (delete key (fallback_cache (self asked)))
                             (self asked)))).
      { apply (get_fallback_expired asked key v expiry Hfb Hkey).
        unfold asked. exact Ht. }
      assert (Hmiss : miss = (Returned Json.PyNone, forget key asked)).
      { apply get_fallback_absent; [exact Hfb |].
        cbn. apply lookup_delete_eq. }
      rewrite Hr, Hmiss. cbn.
      repeat split; try reflexivity. apply lookup_delete_eq.
  - intros Hmode -> -> Hfit.
    assert (Hstored :
      stored
      = mkFrame
          (mkEnv t0 (<[key := (Json.dumps v, expiry)]> (db (env fr))) true
             (S (commands (env fr))))
          (self fr)).
    { unfold stored, step, perform. cbn [what].
      rewrite set_primary; [reflexivity | exact Hmode | reflexivity
                           | exact Httl | exact Hfit]. }
    assert (Hpr : primary (self asked) = true).
    { unfold asked. rewrite Hstored. exact Hmode. }
    assert (Hup : up (env asked) = true) by reflexivity.
    destruct (get_primary asked key Hpr Hup) as [Hr Hself].
    fold r in Hr, Hself.
    assert (Hkey : db (env asked) !! key = Some (Json.dumps v, expiry)).
    { unfold asked. rewrite Hstored. cbn. apply lookup_insert_eq. }
    rewrite Hkey in Hr.
    assert (Hnow : utcnow (env asked) = t) by reflexivity.
    rewrite Hnow in Hr.
    assert (Hfresh : t < expiry -> fst r = Returned (Json.loads (Json.dumps v))).
    { intros Ht. apply Z.ltb_lt in Ht. rewrite Ht in Hr. exact Hr. }
    split; [exact Hfresh |]. split.
    + intros Ht Hnative. rewrite (Hfresh Ht).
      f_equal. apply loads_dumps_native. exact Hnative.
    + intros Ht. apply Z.ltb_ge in Ht. rewrite Ht in Hr.
      destruct (get_primary (forget key asked) key Hpr Hup) as [Hm Hmself].
      fold miss in Hm, Hmself.
      assert (Hgone : db (env (forget key asked)) !! key = None).
      { cbn. apply lookup_delete_eq. }
      rewrite Hgone in Hm.
      rewrite Hr, Hm, Hself.
      repeat split; reflexivity.
Qed.

Lemma get_after_set_witness :
  let key := "signal:BTC"%string in
  let v := Samples.stamped_signal in
  let plain := Json.PyStr "BUY" in
  let stored := step Samples.offline_cache (mkEvent 0 false (Set_ key v 60)) in
  let shared := step Samples.online_cache (mkEvent 0 true (Set_ key plain 60)) in
  (CacheManager.get key (arrive (mkEvent 59999999 false (Get key)) stored)
   = (Returned v, arrive (mkEvent 59999999 false (Get key)) stored)
   /\ fst (CacheManager.get key (arrive (mkEvent 60000000 false (Get key)) stored))
      = Returned Json.PyNone)
  /\ (fst (CacheManager.get key (arrive (mkEvent 59999999 true (Get key)) shared))
      = Returned plain
      /\ fst (CacheManager.get key (arrive (mkEvent 60000000 true (Get key)) shared))
         = Returned Json.PyNone).
Proof.
  cbv zeta. split; split.
  - destruct (get_after_set Samples.offline_cache "signal:BTC"
                Samples.stamped_signal 60 0 59999999 false false)
      as [Hfallback _]; [lia |].
    destruct Hfallback as (_ & Hfresh & _);
      [reflexivity | split; discriminate |].
    apply Hfresh. reflexivity.
  - destruct (get_after_set Samples.offline_cache "signal:BTC"
                Samples.stamped_signal 60 0 60000000 false false)
      as [Hfallback _]; [lia |].
    destruct Hfallback as (_ & _ & Hexpired);
      [reflexivity | split; discriminate |].
    destruct Hexpired as [Hnone _]; [discriminate |].
    exact Hnone.
  - destruct (get_after_set Samples.online_cache "signal:BTC"
                (Json.PyStr "BUY") 60 0 59999999 true true)
      as [_ Hprimary]; [lia |].
    destruct Hprimary as (_ & Hnative & _);
      [reflexivity | reflexivity | reflexivity | discriminate |].
    apply Hnative; reflexivity.
  - destruct (get_after_set Samples.online_cache "signal:BTC"
                (Json.PyStr "BUY") 60 0 60000000 true true)
      as [_ Hprimary]; [lia |].
    destruct Hprimary as (_ & _ & Hexpired);
      [reflexivity | reflexivity | reflexivity | discriminate |].
    destruct Hexpired as [Hnone _]; [discriminate |].
    exact Hnone.
Defined.

(** C3, as the specification words it, fails in primary mode for a value
    that is not made of JSON's own types: the sample signal carries a
    time stamp, and what is read back one second after it was stored
    carries the text of that time stamp instead. *)
Lemma primary_returns_json_copy :
  let key := "signal:BTC"%string in
  let v := Samples.stamped_signal in
  let stored := step Samples.online_cache (mkEvent 0 true (Set_ key v 60)) in
  let r := CacheManager.get key (arrive (mkEvent 1000000 true (Get key)) stored) in
  primary (self Samples.online_cache) = true
  /\ fst r
     = Returned
         (Json.PyDict
            [("coin"%string, Json.PyStr "BTC");
             ("timestamp"%string, Json.PyStr "2024-01-01 00:00:00")])
  /\ fst r <> Returned v.
Proof.
  cbv zeta. split; [reflexivity |].
  split; [vm_compute; reflexivity |].
  vm_compute. discriminate.
Qed.

Lemma arrive_keeps (ev : event) (fr : Frame CacheManager.t) :
  self (arrive ev fr) = self fr
  /\ commands (env (arrive ev fr)) = commands (env fr)
  /\ db (env (arrive ev fr)) = db (env fr).
Proof. repeat split; reflexivity. Qed.

Lemma primary_false_of_mode (cm : CacheManager.t) :
  use_redis cm = false -> primary cm = false.
Proof. intros H. unfold primary. rewrite H. reflexivity. Qed.

(** Once [use_redis] is off, no sequence of calls turns it on or reaches
    the primary tier. *)
Lemma run_stays_local (evs : list event) (fr : Frame CacheManager.t) :
  use_redis (self fr) = false ->
  use_redis (self (run fr evs)) = false
  /\ redis_client (self (run fr evs)) = redis_client (self fr)
  /\ commands (env (run fr evs)) = commands (env fr)
  /\ db (env (run fr evs)) = db (env fr).
Proof.
  revert fr. induction evs as [| ev evs IH]; intros fr Hoff.
  - repeat split; assumption.
  - unfold run in *. cbn [fold_left].
    destruct (perform_keeps_mode (what ev) (arrive ev fr)) as [Hmode Hclient].
    assert (Hlocal : env (step fr ev) = env (arrive ev fr)).
    { apply perform_fallback_local. apply primary_false_of_mode. exact Hoff. }
    assert (Hoff' : use_redis (self (step fr ev)) = false).
    { unfold step. rewrite Hmode. exact Hoff. }
    destruct (IH (step fr ev) Hoff') as (H1 & H2 & H3 & H4).
    rewrite H1, H2, H3, H4, Hlocal. unfold step. rewrite Hclient.
    repeat split; reflexivity.
Qed.

Lemma connect_down (fr : Frame CacheManager.t) :
  up (env fr) = false ->
  use_redis (self (snd (connect fr))) = false
  /\ redis_client (self (snd (connect fr))) = None.
Proof.
  intros Hup. run_cache. rewrite Hup. split; reflexivity.
Qed.

(** C4, as the code has it.  When the primary tier does not answer the
    connection test at startup, the cache turns to the fallback store:
    whatever calls follow, at whatever instants and whether or not the
    primary tier answers by then, it stays in fallback mode and sends the
    primary tier nothing.  When a call finds the primary tier down later,
    the failure is absorbed and nothing more: the cache object is left as
    it was, still in primary mode, and the call after it goes to the
    primary tier again. *)
Theorem fallback_on_failed_startup_only
    (fr : Frame CacheManager.t) (evs : list event) (c : call) :
  (up (env fr) = false ->
   let started := snd (connect fr) in
   let later := run started evs in
   primary (self later) = false
   /\ use_redis (self later) = false /\ redis_client (self later) = None
   /\ commands (env later) = commands (env started)
   /\ db (env later) = db (env started))
  /\ (primary (self fr) = true -> up (env fr) = false ->
      self (perform c fr) = self fr
      /\ primary (self (perform c fr)) = true
      /\ commands (env (perform c fr)) = S (commands (env fr))).
Proof.
  split.
  - intros Hup started later.
    destruct (connect_down fr Hup) as [Hoff Hclient].
    fold started in Hoff, Hclient.
    destruct (run_stays_local evs started Hoff) as (H1 & H2 & H3 & H4).
    fold later in H1, H2, H3, H4.
    split; [apply primary_false_of_mode; exact H1 |].
    split; [exact H1 |].
    split; [rewrite H2; exact Hclient |].
    split; assumption.
  - intros Hmode Hup.
    destruct (perform_primary_down c fr Hmode Hup) as (Hself & Hcmd & _).
    rewrite Hself. repeat split; assumption.
Qed.

Lemma fallback_on_failed_startup_only_witness :
  let fr := Redis.mkFrame (Redis.mkEnv 0 ∅ false 0)
              (CacheManager.init Samples.redis_url) in
  let started := snd (connect fr) in
  let later := run started Samples.outage in
  primary (self later) = false
  /\ use_redis (self later) = false /\ redis_client (self later) = None
  /\ commands (env later) = commands (env started)
  /\ db (env later) = db (env started).
Proof.
  cbv zeta.
  destruct (fallback_on_failed_startup_only
              (Redis.mkFrame (Redis.mkEnv 0 ∅ false 0)
                 (CacheManager.init Samples.redis_url))
              Samples.outage (Get "signal:BTC")) as [Hstartup _].
  apply Hstartup. reflexivity.
Defined.

(** C4, as the specification words it, fails for a failure at call time.
    The sample cache connected while the primary tier was up.  A read
    then finds it down and returns a miss; the cache does not switch: the
    write and the read that follow go to the primary tier, which has by
    then received four commands, and the fallback store stays empty. *)
Lemma no_switch_on_call_time_failure :
  let later := run Samples.online_cache Samples.outage in
  let first :=
    CacheManager.get "signal:BTC"
      (arrive (mkEvent 1000000 false (Get "signal:BTC")) Samples.online_cache) in
  fst first = Returned Json.PyNone
  /\ primary (self (snd first)) = true
  /\ primary (self later) = true
  /\ commands (env Samples.online_cache) = 1%nat
  /\ commands (env later) = 4%nat
  /\ fallback_cache (self later) = ∅
  /\ is_Some (db (env later) !! "signal:BTC"%string).
Proof.
  cbv zeta.
  split; [vm_compute; reflexivity |].
  split; [vm_compute; reflexivity |].
  split; [vm_compute; reflexivity |].
  split; [vm_compute; reflexivity |].
  split; [vm_compute; reflexivity |].
  split; [vm_compute; reflexivity |].
  vm_compute. eexists. reflexivity.
Qed.

End CacheFacts.

(** ** More of the admission controller *)

Section QueueFacts.
Import PyEff Queue.

Lemma standard_shape (q : RateLimiter.PriorityQueue) :
  standard q ->
  exists c h m l,
    q = [("critical"%string, c); ("high"%string, h);
         ("medium"%string, m); ("low"%string, l)].
Proof.
  unfold standard, priorities. intros H.
  destruct q as [| [k1 c] [| [k2 h] [| [k3 m] [| [k4 l] [| x q]]]]];
    try discriminate H.
  cbn in H. injection H as -> -> -> ->.
  exists c, h, m, l. reflexivity.
Qed.

(** A queue made by [__init__] is standard and empty. *)
Lemma new_queue_standard :
  standard RateLimiter.new_queue /\ size RateLimiter.new_queue = 0%nat.
Proof. split; reflexivity. Qed.

Lemma filed_under_cases (priority : string) :
  (priority = "critical" \/ priority = "high"
   \/ priority = "medium" \/ priority = "low")%string
  /\ filed_under priority = priority
  \/ (priority <> "critical" /\ priority <> "high"
      /\ priority <> "medium" /\ priority <> "low")%string
     /\ filed_under priority = "medium"%string.
Proof.
  unfold filed_under, priorities.
  destruct (bool_decide_reflect
              (priority ∈ ["critical"; "high"; "medium"; "low"]%string))
    as [Hin | Hout].
  - left. split; [| reflexivity].
    repeat (apply elem_of_cons in Hin as [-> | Hin]; [tauto |]).
    apply elem_of_nil in Hin. contradiction.
  - right. split; [| reflexivity].
    repeat split; intros ->; apply Hout; repeat constructor.
Qed.

(** X1.  [add] on a standard queue never raises: the request goes to the end
    of the deque of its priority, or of "medium" when the priority is
    none of the four names; the other deques are untouched and the size
    grows by one. *)
Theorem queue_add (priority request : string) (q : RateLimiter.PriorityQueue) :
  standard q ->
  exists q' waiting,
    add priority request q = Returned q'
    /\ standard q'
    /\ deque (filed_under priority) q = Some waiting
    /\ deque (filed_under priority) q' = Some (waiting ++ [request])
    /\ (forall other, other <> filed_under priority ->
                      deque other q' = deque other q)
    /\ size q' = S (size q).
Proof.
  intros Hq. destruct (standard_shape q Hq) as (c & h & m & l & ->).
  assert (Hlen : forall (a : list string) x, length (a ++ [x]) = S (length a)).
  { intros a x. rewrite length_app. cbn. lia. }
  destruct (filed_under_cases priority)
    as [[[-> | [-> | [-> | ->]]] ->] | [(H1 & H2 & H3 & H4) ->]].
  - exists [("critical"%string, c ++ [request]); ("high"%string, h);
            ("medium"%string, m); ("low"%string, l)], c.
    repeat split; try reflexivity.
    + intros other Hne. cbn -[String.eqb].
      destruct (String.eqb_spec "critical" other); [congruence | reflexivity].
    + unfold size. cbn. rewrite Hlen. lia.
  - exists [("critical"%string, c); ("high"%string, h ++ [request]);
            ("medium"%string, m); ("low"%string, l)], h.
    repeat split; try reflexivity.
    + intros other Hne. cbn -[String.eqb].
      destruct (String.eqb_spec "critical" other); [reflexivity |].
      destruct (String.eqb_spec "high" other); [congruence | reflexivity].
    + unfold size. cbn. rewrite Hlen. lia.
  - exists [("critical"%string, c); ("high"%string, h);
            ("medium"%string, m ++ [request]); ("low"%string, l)], m.
    repeat split; try reflexivity.
    + intros other Hne. cbn -[String.eqb].
      destruct (String.eqb_spec "critical" other); [reflexivity |].
      destruct (String.eqb_spec "high" other); [reflexivity |].
      destruct (String.eqb_spec "medium" other); [congruence | reflexivity].
    + unfold size. cbn. rewrite Hlen. lia.
  - exists [("critical"%string, c); ("high"%string, h);
            ("medium"%string, m); ("low"%string, l ++ [request])], l.
    repeat split; try reflexivity.
    + intros other Hne. cbn -[String.eqb].
      destruct (String.eqb_spec "critical" other); [reflexivity |].
      destruct (String.eqb_spec "high" other); [reflexivity |].
      destruct (String.eqb_spec "medium" other); [reflexivity |].
      destruct (String.eqb_spec "low" other); [congruence | reflexivity].
    + unfold size. cbn. rewrite Hlen. lia.
  - exists [("critical"%string, c); ("high"%string, h);
            ("medium"%string, m ++ [request]); ("low"%string, l)], m.
    assert (E1 : String.eqb "critical" priority = false)
      by (apply String.eqb_neq; congruence).
    assert (E2 : String.eqb "high" priority = false)
      by (apply String.eqb_neq; congruence).
    assert (E3 : String.eqb "medium" priority = false)
      by (apply String.eqb_neq; congruence).
    assert (E4 : String.eqb "low" priority = false)
      by (apply String.eqb_neq; congruence).
    repeat split; try reflexivity.
    + unfold add. cbn -[String.eqb]. rewrite E1, E2, E3, E4. reflexivity.
    + intros other Hne. cbn -[String.eqb].
      destruct (String.eqb_spec "critical" other); [reflexivity |].
      destruct (String.eqb_spec "high" other); [reflexivity |].
      destruct (String.eqb_spec "medium" other); [congruence | reflexivity].
    + unfold size. cbn. rewrite Hlen. lia.
Qed.

Lemma queue_add_witness :
  exists q' waiting,
    add "urgent" "r1" RateLimiter.new_queue = Returned q'
    /\ standard q'
    /\ deque (filed_under "urgent") RateLimiter.new_queue = Some waiting
    /\ deque (filed_under "urgent") q' = Some (waiting ++ ["r1"%string])
    /\ (forall other, other <> filed_under "urgent" ->
                      deque other q' = deque other RateLimiter.new_queue)
    /\ size q' = S (size RateLimiter.new_queue).
Proof.
  apply (queue_add "urgent" "r1" RateLimiter.new_queue). reflexivity.
Defined.

(** X2.  [get_next] on a standard queue never raises: it hands out the first
    request of the first deque that is not empty, in the order critical,
    high, medium, low, and removes it; on an empty queue it returns
    [None] and changes nothing. *)
Theorem queue_get_next (q : RateLimiter.PriorityQueue) :
  standard q ->
  exists q',
    get_next q = Returned (hd_error (service_order q), q')
    /\ standard q'
    /\ service_order q' = tl (service_order q)
    /\ size q' = Nat.pred (size q)
    /\ (service_order q = [] -> q' = q).
Proof.
  intros Hq. destruct (standard_shape q Hq) as (c & h & m & l & ->).
  unfold get_next, service_order, size. cbn.
  destruct c as [| r c]; cbn.
  2:{ eexists. repeat split; try reflexivity. discriminate. }
  destruct h as [| r h]; cbn.
  2:{ eexists. repeat split; try reflexivity. discriminate. }
  destruct m as [| r m]; cbn.
  2:{ eexists. repeat split; try reflexivity. discriminate. }
  destruct l as [| r l]; cbn.
  2:{ eexists. repeat split; try reflexivity. discriminate. }
  eexists. repeat split; reflexivity.
Qed.

Lemma queue_get_next_witness :
  exists q',
    get_next RateLimiter.new_queue
    = Returned (hd_error (service_order RateLimiter.new_queue), q')
    /\ standard q'
    /\ service_order q' = tl (service_order RateLimiter.new_queue)
    /\ size q' = Nat.pred (size RateLimiter.new_queue)
    /\ (service_order RateLimiter.new_queue = [] -> q' = RateLimiter.new_queue).
Proof.
  apply (queue_get_next RateLimiter.new_queue). reflexivity.
Defined.

(** [size] counts the waiting requests. *)
Lemma queue_size_service_order (q : RateLimiter.PriorityQueue) :
  standard q -> size q = length (service_order q).
Proof.
  intros Hq. destruct (standard_shape q Hq) as (c & h & m & l & ->).
  unfold size, service_order. cbn.
  rewrite !length_app. cbn. lia.
Qed.

End QueueFacts.

Section LimiterAccounting.
Import PyEff Clock PyFloat Admission RateLimiterOps.

Lemma add_wait (total : number) (wait_time : float) :
  convertible total ->
  exists x, PyFloat.add total (Flt wait_time) = Returned (Flt x).
Proof.
  intros H.
  destruct (add_float_cases total wait_time) as [(x & _ & ->) | [Hno _]]; [eauto |].
  destruct (to_float_convertible total H) as [y Hy]. congruence.
Qed.

(** What one call does to the limiter: it keeps it sound, it returns
    [True], raises [OverflowError] or stays pending, and it steps the two
    counters of its source exactly when it returns. *)
Lemma call_step (fr : Frame RateLimiter.t) (r : request) :
  sound fr ->
  sound (snd (call r fr))
  /\ granted_or_stuck (fst (call r fr))
  /\ (forall s st,
        is_Some (RateLimiter.limiters (self fr) !! s) ->
        RateLimiter.stats (self fr) !! s = Some st ->
        is_Some (RateLimiter.limiters (self (snd (call r fr))) !! s)
        /\ exists st',
            RateLimiter.stats (self (snd (call r fr))) !! s = Some st'
            /\ RateLimiter.total_requests st'
               = (RateLimiter.total_requests st
                  + if String.eqb (source r) s && returned (fst (call r fr))
                    then 1 else 0)%Z
            /\ RateLimiter.successful_requests st'
               = (RateLimiter.successful_requests st
                  + if String.eqb (source r) s && returned (fst (call r fr))
                    then 1 else 0)%Z
            /\ RateLimiter.failed_requests st' = RateLimiter.failed_requests st).
Proof.
  intros (Hrates & Hstats & Hwaits). unfold call.
  destruct (RateLimiter.limiters (self fr) !! source r) as [b |] eqn:Hb.
  2:{ rewrite acquire_unconfigured by assumption. cbn.
      split; [repeat split; assumption |].
      split; [left; reflexivity |].
      intros s st Hs Hst. split; [exact Hs |].
      exists st. destruct (String.eqb_spec (source r) s) as [E | E].
      - subst s. rewrite Hb in Hs. destruct Hs as [? Hs]. discriminate Hs.
      - cbn. repeat split; try assumption; lia. }
  rewrite (acquire_configured fr (source r) (priority r) (units r) b Hb).
  cbv zeta.
  pose proof (Hrates _ _ Hb) as Hrate. cbn beta in Hrate.
  pose proof (bucket_granted_or_stuck (units r) (read (world fr)) b Hrate)
    as Hgranted.
  destruct (acquire_keeps (units r) (read (world fr)) b) as [_ Hrate'].
  set (rb := TokenBucket.acquire (units r) (mkFrame (read (world fr)) b)) in *.
  assert (Hrates' :
    map_Forall (fun _ b0 => (TokenBucket.refill_rate b0 =? 0)%float = false)
      (<[source r := self (snd rb)]> (RateLimiter.limiters (self fr)))).
  { apply map_Forall_insert_2; [| exact Hrates]. rewrite Hrate'. exact Hrate. }
  assert (Hkeys' :
    forall s,
      is_Some (<[source r := self (snd rb)]> (RateLimiter.limiters (self fr)) !! s) ->
      is_Some (RateLimiter.limiters (self fr) !! s)).
  { intros s Hs. destruct (decide (source r = s)) as [<- | Hne].
    - rewrite Hb. eauto.
    - rewrite lookup_insert_ne in Hs by assumption. exact Hs. }
  assert (Hsame :
    forall s st,
      is_Some (RateLimiter.limiters (self fr) !! s) ->
      RateLimiter.stats (self fr) !! s = Some st ->
      is_Some (<[source r := self (snd rb)]> (RateLimiter.limiters (self fr)) !! s)
      /\ exists st',
          RateLimiter.stats (self fr) !! s = Some st'
          /\ RateLimiter.total_requests st'
             = (RateLimiter.total_requests st + 0)%Z
          /\ RateLimiter.successful_requests st'
             = (RateLimiter.successful_requests st + 0)%Z
          /\ RateLimiter.failed_requests st' = RateLimiter.failed_requests st).
  { intros s st Hs Hst. split.
    - destruct (decide (source r = s)) as [<- | Hne].
      + rewrite lookup_insert_eq. eauto.
      + rewrite lookup_insert_ne by assumption. exact Hs.
    - exists st. repeat split; try assumption; lia. }
  destruct Hgranted as [Hg | [Hg | Hg]]; rewrite Hg.
  - destruct (Hstats (source r)) as [st0 Hst0]; [rewrite Hb; eauto |].
    rewrite Hst0.
    destruct (add_wait (RateLimiter.total_wait_time (RateLimiter.counted true st0))
                (clock (read (world (snd rb))) - clock (read (world fr)))%float)
      as [total ->].
    { cbn. exact (Hwaits _ _ Hst0). }
    unfold sound.
    cbn [fst snd self world RateLimiter.with_stats RateLimiter.limiters
         RateLimiter.stats RateLimiter.request_queues].
    split; [| split; [left; reflexivity |]].
    + split; [exact Hrates' |]. split.
      * intros s Hs. apply Hkeys' in Hs. apply Hstats in Hs.
        destruct (decide (source r = s)) as [<- | Hne].
        -- rewrite lookup_insert_eq. eauto.
        -- rewrite lookup_insert_ne by assumption. exact Hs.
      * apply map_Forall_insert_2; [exact I | exact Hwaits].
    + intros s st Hs Hst.
      destruct (String.eqb_spec (source r) s) as [E | E].
      * subst s. rewrite !lookup_insert_eq. split; [eauto |].
        rewrite Hst0 in Hst. injection Hst as <-.
        eexists. split; [reflexivity |]. cbn. repeat split; lia.
      * rewrite !lookup_insert_ne by assumption. split; [exact Hs |].
        exists st. cbn. repeat split; try assumption; lia.
  - unfold sound.
    cbn [fst snd self world RateLimiter.limiters RateLimiter.stats].
    split; [split; [exact Hrates' | split; [| exact Hwaits]] |].
    { intros s Hs. apply Hstats. apply Hkeys'. exact Hs. }
    split; [right; left; reflexivity |].
    intros s st Hs Hst. cbn [returned]. rewrite andb_false_r.
    apply Hsame; assumption.
  - unfold sound.
    cbn [fst snd self world RateLimiter.limiters RateLimiter.stats].
    split; [split; [exact Hrates' | split; [| exact Hwaits]] |].
    { intros s Hs. apply Hstats. apply Hkeys'. exact Hs. }
    split; [right; right; reflexivity |].
    intros s st Hs Hst. cbn [returned]. rewrite andb_false_r.
    apply Hsame; assumption.
Qed.


(** The same for a call of at most word size on a limiter whose buckets
    are of moderate size: it does not raise. *)
Lemma call_step_small (fr : Frame RateLimiter.t) (r : request) :
  sound fr -> small fr -> word_sized r ->
  small (snd (call r fr)) /\ granted_or_pending (fst (call r fr)).
Proof.
  intros (Hrates & Hstats & Hwaits) Hsmall Hword. unfold call.
  destruct (RateLimiter.limiters (self fr) !! source r) as [b |] eqn:Hb.
  2:{ rewrite acquire_unconfigured by assumption. cbn.
      split; [exact Hsmall | left; reflexivity]. }
  pose proof (Hrates _ _ Hb) as Hrate. cbn beta in Hrate.
  destruct (bucket_granted_or_pending (units r) (read (world fr)) b Hword
              (Hsmall _ _ Hb) Hrate) as [Hgranted Hmodest].
  split.
  - unfold small. rewrite acquire_limiters, Hb.
    apply map_Forall_insert_2; [exact Hmodest | exact Hsmall].
  - rewrite (acquire_configured fr (source r) (priority r) (units r) b Hb).
    cbv zeta.
    destruct Hgranted as [Hg | Hg]; rewrite Hg; [| right; reflexivity].
    destruct (Hstats (source r)) as [st0 Hst0]; [rewrite Hb; eauto |].
    rewrite Hst0.
    destruct (add_wait (RateLimiter.total_wait_time (RateLimiter.counted true st0))
                (clock (read (world (snd (TokenBucket.acquire (units r)
                                           (mkFrame (read (world fr)) b)))))
                 - clock (read (world fr)))%float)
      as [total ->].
    { cbn. exact (Hwaits _ _ Hst0). }
    left. reflexivity.
Qed.

Lemma run_sound (rs : list request) (fr : Frame RateLimiter.t) :
  sound fr -> sound (run fr rs).
Proof.
  revert fr. induction rs as [| r rs IH]; intros fr H; [exact H |].
  unfold run in *. cbn [fold_left]. apply IH. apply call_step. exact H.
Qed.

Lemma init_sound (w : World) : sound (snd (RateLimiter.init w)).
Proof.
  split; [| split].
  - apply (init_buckets w
             (fun b => (TokenBucket.refill_rate b =? 0)%float = false)).
    intros capacity rate last Hrate _. exact Hrate.
  - intros s Hs. rewrite (init_stats_zero w s Hs). eauto.
  - intros s st.
    unfold RateLimiter.init, RateLimiter._init_limiters, RateLimiter.new_limiter,
      TokenBucket.init.
    unfold bind, ret, time_time, get_self, set_self. cbn -[read].
    rewrite lookup_fmap. intros Hst.
    destruct (_ !! s); [| discriminate Hst].
    cbn in Hst. injection Hst as <-. cbn. unfold float_limit. lia.
Qed.

Lemma init_small (w : World) : small (snd (RateLimiter.init w)).
Proof.
  apply (init_buckets w modest).
  intros capacity rate last _ Hc. split; cbn; lia.
Qed.

Lemma results_granted_or_stuck (rs : list request) (fr : Frame RateLimiter.t) :
  sound fr -> Forall granted_or_stuck (results fr rs).
Proof.
  revert fr. induction rs as [| r rs IH]; intros fr H; cbn; constructor.
  - apply call_step. exact H.
  - apply IH. apply call_step. exact H.
Qed.

Lemma results_granted_or_pending (rs : list request) (fr : Frame RateLimiter.t) :
  sound fr -> small fr -> Forall word_sized rs ->
  Forall granted_or_pending (results fr rs).
Proof.
  revert fr. induction rs as [| r rs IH]; intros fr Hsound Hsmall Hword;
    cbn; constructor.
  - apply call_step_small; [assumption | assumption |].
    exact (Forall_inv Hword).
  - apply IH.
    + apply call_step. exact Hsound.
    + apply call_step_small; [assumption | assumption |].
      exact (Forall_inv Hword).
    + exact (Forall_inv_tail Hword).
Qed.

Lemma run_counts (rs : list request) (fr : Frame RateLimiter.t)
    (s : string) (st : RateLimiter.Stats) :
  sound fr ->
  is_Some (RateLimiter.limiters (self fr) !! s) ->
  RateLimiter.stats (self fr) !! s = Some st ->
  exists st',
    RateLimiter.stats (self (run fr rs)) !! s = Some st'
    /\ RateLimiter.total_requests st'
       = (RateLimiter.total_requests st + served s fr rs)%Z
    /\ RateLimiter.successful_requests st'
       = (RateLimiter.successful_requests st + served s fr rs)%Z
    /\ RateLimiter.failed_requests st' = RateLimiter.failed_requests st.
Proof.
  revert fr st. induction rs as [| r rs IH]; intros fr st Hsound Hs Hst.
  - exists st. cbn. repeat split; try assumption; lia.
  - destruct (call_step fr r Hsound) as (Hsound' & _ & Hstep).
    destruct (Hstep s st Hs Hst) as (Hs' & st1 & Hst1 & Ht & Hsu & Hf).
    destruct (IH (snd (call r fr)) st1 Hsound' Hs' Hst1)
      as (st2 & Hst2 & Ht2 & Hsu2 & Hf2).
    exists st2. unfold run in *. cbn [fold_left served].
    split; [exact Hst2 |].
    repeat split; lia.
Qed.

(** X3.  From initialisation, whatever calls are made (any sources,
    priorities and unit counts) and whatever the clock reads, no call
    returns [False] and no call raises anything but [OverflowError]: it
    returns [True], raises [OverflowError] or stays pending.  When every
    unit count is of at most word size, no call raises. *)
Theorem acquire_never_refuses (w : World) (rs : list request) :
  Forall granted_or_stuck (results (snd (RateLimiter.init w)) rs)
  /\ (Forall word_sized rs ->
      Forall granted_or_pending (results (snd (RateLimiter.init w)) rs)).
Proof.
  split.
  - apply results_granted_or_stuck. apply init_sound.
  - intros Hword. apply results_granted_or_pending;
      [apply init_sound | apply init_small | exact Hword].
Qed.

Lemma acquire_never_refuses_witness :
  let rs :=
    [mkRequest "coingecko" "high" 46; mkRequest "kraken" "low" 1;
     mkRequest "glassnode" "medium" 500] in
  Forall word_sized rs
  /\ results (snd (RateLimiter.init Samples.burst_world)) rs
     = [Done (Returned true); Done (Returned true); Done (Returned true)]
  /\ Forall granted_or_pending
       (results (snd (RateLimiter.init Samples.burst_world)) rs).
Proof.
  cbv zeta.
  assert (Hword : Forall word_sized
                    [mkRequest "coingecko" "high" 46; mkRequest "kraken" "low" 1;
                     mkRequest "glassnode" "medium" 500]).
  { repeat constructor; unfold word_sized; cbn; lia. }
  split; [exact Hword |].
  split; [vm_compute; reflexivity |].
  destruct (acquire_never_refuses Samples.burst_world
              [mkRequest "coingecko" "high" 46; mkRequest "kraken" "low" 1;
               mkRequest "glassnode" "medium" 500]) as [_ H].
  exact (H Hword).
Defined.

(** X4.  From initialisation, after any calls and whatever the clock
    read, the counters of a configured source count the calls that named
    it and returned: [total_requests] and [successful_requests] are their
    number, and [failed_requests] is 0.  A call that raised or is pending
    is not counted. *)
Theorem stats_count_the_calls (w : World) (rs : list request) (s : string) :
  is_Some (RateLimiter.limiters (self (snd (RateLimiter.init w))) !! s) ->
  exists st,
    RateLimiter.stats (self (run (snd (RateLimiter.init w)) rs)) !! s = Some st
    /\ RateLimiter.total_requests st = served s (snd (RateLimiter.init w)) rs
    /\ RateLimiter.successful_requests st = served s (snd (RateLimiter.init w)) rs
    /\ RateLimiter.failed_requests st = 0%Z.
Proof.
  intros Hs.
  destruct (run_counts rs (snd (RateLimiter.init w)) s RateLimiter.zero_stats
              (init_sound w) Hs (init_stats_zero w s Hs))
    as (st & Hst & Ht & Hsu & Hf).
  exists st. cbn in Ht, Hsu, Hf.
  repeat split; assumption.
Qed.

Lemma stats_count_the_calls_witness :
  let rs :=
    [mkRequest "coingecko" "high" 46; mkRequest "kraken" "low" 1;
     mkRequest "coingecko" "medium" (10 ^ 400);
     mkRequest "coingecko" "medium" 1] in
  served "coingecko" (snd (RateLimiter.init Samples.burst_world)) rs = 2%Z
  /\ exists st,
      RateLimiter.stats
        (self (run (snd (RateLimiter.init Samples.burst_world)) rs))
        !! "coingecko"%string = Some st
      /\ RateLimiter.total_requests st
         = served "coingecko" (snd (RateLimiter.init Samples.burst_world)) rs
      /\ RateLimiter.successful_requests st
         = served "coingecko" (snd (RateLimiter.init Samples.burst_world)) rs
      /\ RateLimiter.failed_requests st = 0%Z.
Proof.
  cbv zeta. split; [vm_compute; reflexivity |].
  apply (stats_count_the_calls Samples.burst_world).
  vm_compute. eexists. reflexivity.
Defined.

(** X5.  A call for one source leaves the bucket and the counters of every
    other source exactly as they were. *)
Theorem sources_do_not_contend
    (fr : Frame RateLimiter.t) (source priority : string) (n : Z)
    (other : string) :
  source <> other ->
  let fr' := snd (RateLimiter.acquire source priority n fr) in
  RateLimiter.limiters (self fr') !! other
  = RateLimiter.limiters (self fr) !! other
  /\ RateLimiter.stats (self fr') !! other
     = RateLimiter.stats (self fr) !! other.
Proof.
  intros Hne fr'. subst fr'.
  destruct (RateLimiter.limiters (self fr) !! source) as [b |] eqn:Hb.
  2:{ rewrite acquire_unconfigured by assumption. split; reflexivity. }
  rewrite (acquire_configured fr source priority n b Hb). cbv zeta.
  destruct (fst (TokenBucket.acquire n _)) as [[success | e] |];
    cbn -[PyFloat.add read];
    try (rewrite lookup_insert_ne by assumption; split; reflexivity).
  destruct (RateLimiter.stats (self fr) !! source);
    cbn -[PyFloat.add read];
    [destruct (PyFloat.add _ _) |]; cbn;
    rewrite ?lookup_insert_ne by assumption; split; reflexivity.
Qed.

Lemma sources_do_not_contend_witness :
  let fr := snd (RateLimiter.init Samples.burst_world) in
  let fr' := snd (RateLimiter.acquire "coingecko" "high" 45 fr) in
  RateLimiter.limiters (self fr') !! "binance"%string
  = RateLimiter.limiters (self fr) !! "binance"%string
  /\ RateLimiter.stats (self fr') !! "binance"%string
     = RateLimiter.stats (self fr) !! "binance"%string.
Proof.
  apply (sources_do_not_contend (snd (RateLimiter.init Samples.burst_world))
           "coingecko" "high" 45 "binance").
  discriminate.
Defined.

End LimiterAccounting.

Section ResetStats.
Import RateLimiterOps.

(** X6.  [reset_stats], when the empty string is no key of [stats]: the
    counters of the named source, or of every source when none is named
    ([None] or the empty string), are set to zero; the other counters,
    the set of keys, the limiters and the queues stay as they were.  A
    name that is no key changes nothing. *)
Theorem reset_stats_scope (rl : RateLimiter.t) (source : option string) :
  RateLimiter.stats rl !! ""%string = None ->
  exists rl',
    reset_stats source rl = Reset rl'
    /\ RateLimiter.limiters rl' = RateLimiter.limiters rl
    /\ RateLimiter.request_queues rl' = RateLimiter.request_queues rl
    /\ forall k,
        RateLimiter.stats rl' !! k
        = match RateLimiter.stats rl !! k with
          | Some st =>
              Some (match named source with
                    | Some s => if decide (s = k) then RateLimiter.zero_stats else st
                    | None => RateLimiter.zero_stats
                    end)
          | None => None
          end.
Proof.
  intros Hempty. unfold reset_stats.
  destruct (named source) as [s |] eqn:Hnamed.
  - unfold reset_one.
    destruct (RateLimiter.stats rl !! s) as [st0 |] eqn:Hs.
    + eexists. repeat split. intros k. cbn.
      destruct (decide (s = k)) as [<- | Hne].
      * rewrite lookup_insert_eq, Hs. reflexivity.
      * rewrite lookup_insert_ne by assumption.
        destruct (RateLimiter.stats rl !! k); reflexivity.
    + exists rl. repeat split. intros k.
      destruct (decide (s = k)) as [<- | Hne].
      * rewrite Hs. reflexivity.
      * destruct (RateLimiter.stats rl !! k); reflexivity.
  - rewrite Hempty. eexists. repeat split. intros k. cbn.
    rewrite lookup_fmap.
    destruct (RateLimiter.stats rl !! k); reflexivity.
Qed.

Lemma reset_stats_scope_witness :
  let rl := Clock.self (snd (RateLimiter.init Samples.burst_world)) in
  exists rl',
    reset_stats (Some "binance"%string) rl = Reset rl'
    /\ RateLimiter.limiters rl' = RateLimiter.limiters rl
    /\ RateLimiter.request_queues rl' = RateLimiter.request_queues rl
    /\ forall k,
        RateLimiter.stats rl' !! k
        = match RateLimiter.stats rl !! k with
          | Some st =>
              Some (match named (Some "binance"%string) with
                    | Some s => if decide (s = k) then RateLimiter.zero_stats else st
                    | None => RateLimiter.zero_stats
                    end)
          | None => None
          end.
Proof.
  apply (reset_stats_scope
           (Clock.self (snd (RateLimiter.init Samples.burst_world)))
           (Some "binance"%string)).
  vm_compute. reflexivity.
Defined.

End ResetStats.

(** ** More of the tiered cache *)

Section CacheMore.
Import PyEff Redis CacheManager.
Local Open Scope Z_scope.

Ltac run_cache :=
  unfold CacheManager.get, CacheManager.set, CacheManager.delete_,
    CacheManager.connect, expiry_instant, Redis.get, Redis.setex, Redis.del,
    Redis.ping, command, try_except, bind, ret, raise, get_self, set_self;
  cbn.

Ltac split_ifs :=
  repeat match goal with
    | |- context [match ?x with _ => _ end] =>
        lazymatch x with
        | context [match _ with _ => _ end] => fail
        | _ => destruct x eqn:?
        end
    end.

(** X8.  No method of the cache lets an exception out: whatever the state of
    the cache and of the primary tier, [connect], [get], [set] and
    [delete] return. *)
Theorem cache_never_raises
    (fr : Frame CacheManager.t) (key : string) (v : Json.PyValue) (ttl : Z) :
  fst (connect fr) = Returned tt
  /\ (exists found, fst (CacheManager.get key fr) = Returned found)
  /\ fst (CacheManager.set key v ttl fr) = Returned tt
  /\ fst (delete_ key fr) = Returned tt.
Proof.
  repeat split.
  - run_cache. split_ifs; reflexivity.
  - run_cache. split_ifs; cbn; eauto.
  - run_cache. split_ifs; reflexivity.
  - run_cache. split_ifs; reflexivity.
Qed.

(** What a read returns is fixed by the mode, the instant, whether the
    primary tier answers, and the entries under the key in the two
    tiers. *)
Lemma get_depends_on (fr fr' : Frame CacheManager.t) (key : string) :
  primary (self fr') = primary (self fr) ->
  up (env fr') = up (env fr) ->
  utcnow (env fr') = utcnow (env fr) ->
  db (env fr') !! key = db (env fr) !! key ->
  fallback_cache (self fr') !! key = fallback_cache (self fr) !! key ->
  fst (CacheManager.get key fr') = fst (CacheManager.get key fr).
Proof.
  intros Hmode Hup Hnow Hdb Hfb. run_cache.
  rewrite Hmode. destruct (primary (self fr)).
  - rewrite Hup. destruct (up (env fr)); [| reflexivity].
    rewrite Hdb, Hnow.
    destruct (db (env fr) !! key) as [[text expires_at] |]; [| reflexivity].
    destruct (utcnow (env fr) <? expires_at); reflexivity.
  - rewrite Hfb.
    destruct (fallback_cache (self fr) !! key) as [[value expires_at] |];
      [| reflexivity].
    rewrite Hnow. destruct (utcnow (env fr) <? expires_at); reflexivity.
Qed.

(** X9.  Writing or deleting one key does not change what a read of another
    key returns. *)
Theorem other_keys_untouched
    (fr : Frame CacheManager.t) (key other : string) (v : Json.PyValue) (ttl : Z) :
  key <> other ->
  fst (CacheManager.get other (snd (CacheManager.set key v ttl fr)))
  = fst (CacheManager.get other fr)
  /\ fst (CacheManager.get other (snd (delete_ key fr)))
     = fst (CacheManager.get other fr).
Proof.
  intros Hne. split; apply get_depends_on; run_cache; split_ifs; cbn;
    rewrite ?lookup_insert_ne, ?lookup_delete_ne by assumption;
    rewrite ?primary_with_fallback;
    first [reflexivity | congruence].
Qed.

Lemma other_keys_untouched_witness :
  fst (CacheManager.get "price:ETH"
         (snd (CacheManager.set "price:BTC" (Json.PyInt 1) 30 Samples.online_cache)))
  = fst (CacheManager.get "price:ETH" Samples.online_cache)
  /\ fst (CacheManager.get "price:ETH"
            (snd (delete_ "price:BTC" Samples.online_cache)))
     = fst (CacheManager.get "price:ETH" Samples.online_cache).
Proof.
  apply (other_keys_untouched Samples.online_cache "price:BTC" "price:ETH").
  discriminate.
Defined.

Lemma step_keeps_primary (fr : Frame CacheManager.t) (ev : event) :
  primary (self (step fr ev)) = primary (self fr).
Proof.
  unfold step. destruct (perform_keeps_mode (what ev) (arrive ev fr)) as [H1 H2].
  unfold primary. rewrite H1, H2. reflexivity.
Qed.

(** X10.  Of two writes to a key the later one is what a read finds: in
    fallback mode [v2] itself, in primary mode [v2] as written to JSON
    and read back, up to the expiry instant of the later write.  The
    earlier write, its value and its time to live play no part. *)
Theorem last_write_wins
    (fr : Frame CacheManager.t) (key : string) (v1 v2 : Json.PyValue)
    (ttl1 ttl2 t1 t2 t : Z) (up1 up2 up3 : bool) :
  t < t2 + microseconds ttl2 ->
  let first := step fr (mkEvent t1 up1 (Set_ key v1 ttl1)) in
  let second := step first (mkEvent t2 up2 (Set_ key v2 ttl2)) in
  let r := CacheManager.get key (arrive (mkEvent t up3 (Get key)) second) in
  (primary (self fr) = false ->
   datetime_min <= t2 + microseconds ttl2 <= datetime_max ->
   fst r = Returned v2)
  /\ (primary (self fr) = true -> up2 = true -> up3 = true ->
      0 < ttl2 -> t2 / 1000 + ttl2 * 1000 <= 9223372036854775807 ->
      fst r = Returned (Json.loads (Json.dumps v2))).
Proof.
  intros Ht first second r.
  pose proof (step_keeps_primary fr (mkEvent t1 up1 (Set_ key v1 ttl1))) as Hfirst.
  fold first in Hfirst. split.
  - intros Hmode Hrep. rewrite <- Hfirst in Hmode.
    assert (Hsecond :
      second
      = mkFrame (mkEnv t2 (db (env first)) up2 (commands (env first)))
          (with_fallback
             (<[key := (v2, t2 + microseconds ttl2)]> (fallback_cache (self first)))
             (self first))).
    { unfold second, step, perform. cbn [what].
      rewrite set_fallback; [reflexivity | exact Hmode | exact Hrep]. }
    unfold r. rewrite Hsecond.
    rewrite (get_fallback_fresh _ key v2 (t2 + microseconds ttl2));
      [reflexivity | exact Hmode | cbn; apply lookup_insert_eq | exact Ht].
  - intros Hmode -> -> Hpos Hfit. rewrite <- Hfirst in Hmode.
    assert (Hsecond :
      second
      = mkFrame
          (mkEnv t2
             (<[key := (Json.dumps v2, t2 + microseconds ttl2)]> (db (env first)))
             true (S (commands (env first))))
          (self first)).
    { unfold second, step, perform. cbn [what].
      rewrite set_primary; [reflexivity | exact Hmode | reflexivity
                           | exact Hpos | exact Hfit]. }
    unfold r. rewrite Hsecond.
    destruct (get_primary
                (arrive (mkEvent t true (Get key))
                   (mkFrame
                      (mkEnv t2
                         (<[key := (Json.dumps v2, t2 + microseconds ttl2)]>
                            (db (env first)))
                         true (S (commands (env first))))
                      (self first)))
                key Hmode eq_refl) as [Hr _].
    rewrite Hr. cbn. rewrite lookup_insert_eq.
    apply Z.ltb_lt in Ht. rewrite Ht. reflexivity.
Qed.

Lemma last_write_wins_witness :
  let first :=
    step Samples.offline_cache
      (mkEvent 0 false (Set_ "price:BTC" (Json.PyInt 1) 30)) in
  let second :=
    step first (mkEvent 5000000 false (Set_ "price:BTC" (Json.PyInt 2) 30)) in
  fst (CacheManager.get "price:BTC"
         (arrive (mkEvent 6000000 false (Get "price:BTC")) second))
  = Returned (Json.PyInt 2).
Proof.
  cbv zeta.
  destruct (last_write_wins Samples.offline_cache "price:BTC"
              (Json.PyInt 1) (Json.PyInt 2) 30 30 0 5000000 6000000
              false false false) as [Hfallback _]; [reflexivity |].
  apply Hfallback; [reflexivity | split; discriminate].
Defined.

Lemma delete_fallback (fr : Frame CacheManager.t) (key : string) :
  primary (self fr) = false ->
  delete_ key fr
  = (Returned tt,
     mkFrame (env fr)
       (with_fallback (delete key (fallback_cache (self fr))) (self fr))).
Proof. intros Hmode. run_cache. rewrite Hmode. reflexivity. Qed.

Lemma delete_primary (fr : Frame CacheManager.t) (key : string) :
  primary (self fr) = true -> up (env fr) = true ->
  delete_ key fr
  = (Returned tt,
     mkFrame
       (mkEnv (utcnow (env fr)) (delete key (db (env fr))) true
          (S (commands (env fr))))
       (self fr)).
Proof. intros Hmode Hup. run_cache. rewrite Hmode, Hup. reflexivity. Qed.

Lemma get_primary_down (fr : Frame CacheManager.t) (key : string) :
  primary (self fr) = true -> up (env fr) = false ->
  fst (CacheManager.get key fr) = Returned Json.PyNone.
Proof. intros Hmode Hup. run_cache. rewrite Hmode, Hup. reflexivity. Qed.

(** X11.  After a delete, a read of the key is a miss: in fallback mode
    always, in primary mode when the primary tier answered the delete. *)
Theorem delete_then_miss
    (fr : Frame CacheManager.t) (key : string) (t0 t : Z) (up0 up1 : bool) :
  primary (self fr) = false \/ up0 = true ->
  let deleted := step fr (mkEvent t0 up0 (Delete key)) in
  fst (CacheManager.get key (arrive (mkEvent t up1 (Get key)) deleted))
  = Returned Json.PyNone.
Proof.
  intros H deleted. unfold deleted, step, perform. cbn [what].
  destruct (primary (self fr)) eqn:Hmode.
  - destruct H as [H | ->]; [discriminate H |].
    rewrite delete_primary; [| exact Hmode | reflexivity].
    destruct up1.
    + match goal with
      | |- fst (CacheManager.get key ?f) = _ =>
          destruct (get_primary f key Hmode eq_refl) as [Hr _]
      end.
      rewrite Hr. cbn. rewrite lookup_delete_eq. reflexivity.
    + apply get_primary_down; [exact Hmode | reflexivity].
  - rewrite delete_fallback by exact Hmode.
    rewrite get_fallback_absent; [reflexivity | exact Hmode |].
    cbn. apply lookup_delete_eq.
Qed.

Lemma delete_then_miss_witness :
  let stored :=
    step Samples.online_cache
      (mkEvent 0 true (Set_ "price:BTC" (Json.PyInt 1) 30)) in
  let deleted := step stored (mkEvent 1000000 true (Delete "price:BTC")) in
  fst (CacheManager.get "price:BTC"
         (arrive (mkEvent 2000000 true (Get "price:BTC")) deleted))
  = Returned Json.PyNone.
Proof.
  cbv zeta.
  apply (delete_then_miss
           (step Samples.online_cache
              (mkEvent 0 true (Set_ "price:BTC" (Json.PyInt 1) 30)))
           "price:BTC" 1000000 2000000 true true).
  right. reflexivity.
Defined.

(** X12.  A write with a time to live that is not positive.  In fallback mode
    it stores an entry that has already expired, so a later read of the
    key is a miss, whatever was stored before.  In primary mode the
    primary tier refuses it and keeps what it held, so a read returns
    what it returned before the write. *)
Theorem nonpositive_ttl
    (fr : Frame CacheManager.t) (key : string) (v : Json.PyValue)
    (ttl t0 t : Z) (up0 up1 : bool) :
  ttl <= 0 -> t0 <= t ->
  let stored := step fr (mkEvent t0 up0 (Set_ key v ttl)) in
  let r := CacheManager.get key (arrive (mkEvent t up1 (Get key)) stored) in
  (primary (self fr) = false ->
   datetime_min <= t0 + microseconds ttl <= datetime_max ->
   fst r = Returned Json.PyNone)
  /\ (primary (self fr) = true ->
      fst r = fst (CacheManager.get key (arrive (mkEvent t up1 (Get key)) fr))).
Proof.
  intros Httl Ht stored r. split.
  - intros Hmode Hrep.
    assert (Hstored :
      stored
      = mkFrame (mkEnv t0 (db (env fr)) up0 (commands (env fr)))
          (with_fallback
             (<[key := (v, t0 + microseconds ttl)]> (fallback_cache (self fr)))
             (self fr))).
    { unfold stored, step, perform. cbn [what].
      rewrite set_fallback; [reflexivity | exact Hmode | exact Hrep]. }
    unfold r. rewrite Hstored.
    rewrite (get_fallback_expired _ key v (t0 + microseconds ttl));
      [reflexivity | exact Hmode | cbn; apply lookup_insert_eq |].
    cbn. unfold microseconds. lia.
  - intros Hmode. unfold r.
    assert (Hneg : (0 <? ttl) = false) by (apply Z.ltb_ge; exact Httl).
    assert (Hstored :
      db (env stored) = db (env fr)
      /\ fallback_cache (self stored) = fallback_cache (self fr)).
    { unfold stored, step, perform. cbn [what]. run_cache. rewrite Hmode.
      destruct up0; cbn; rewrite ?Hneg; cbn; split; reflexivity. }
    destruct Hstored as [Hdb Hfb].
    apply get_depends_on.
    + exact (step_keeps_primary fr (mkEvent t0 up0 (Set_ key v ttl))).
    + reflexivity.
    + reflexivity.
    + change (db (env stored) !! key = db (env fr) !! key).
      rewrite Hdb. reflexivity.
    + change (fallback_cache (self stored) !! key
              = fallback_cache (self fr) !! key).
      rewrite Hfb. reflexivity.
Qed.

Lemma nonpositive_ttl_witness :
  let fresh :=
    step Samples.offline_cache
      (mkEvent 0 false (Set_ "price:BTC" (Json.PyInt 1) 30)) in
  let stored := step fresh (mkEvent 1000000 false (Set_ "price:BTC" (Json.PyInt 2) 0)) in
  fst (CacheManager.get "price:BTC"
         (arrive (mkEvent 1000000 false (Get "price:BTC")) stored))
  = Returned Json.PyNone.
Proof.
  cbv zeta.
  destruct (nonpositive_ttl
              (step Samples.offline_cache
                 (mkEvent 0 false (Set_ "price:BTC" (Json.PyInt 1) 30)))
              "price:BTC" (Json.PyInt 2) 0 1000000 1000000 false false)
    as [Hfallback _]; [lia | lia |].
  apply Hfallback; [reflexivity | split; discriminate].
Defined.

(** X13.  A failed connection test is final: whatever the primary tier does
    later, connecting again does not bring the cache back to primary
    mode. *)
Theorem failed_connect_is_final (fr : Frame CacheManager.t) (later : Env) :
  up (env fr) = false ->
  let started := snd (connect fr) in
  let again := snd (connect (mkFrame later (self started))) in
  primary (self started) = false
  /\ primary (self again) = false
  /\ use_redis (self again) = false.
Proof.
  intros Hup started again.
  assert (Hoff : use_redis (self started) = false).
  { unfold started. run_cache. rewrite Hup. reflexivity. }
  assert (Hoff2 : use_redis (self again) = false).
  { unfold again. run_cache. destruct (up later); cbn; [exact Hoff | reflexivity]. }
  split; [apply primary_false_of_mode; exact Hoff |].
  split; [apply primary_false_of_mode; exact Hoff2 | exact Hoff2].
Qed.

Lemma failed_connect_is_final_witness :
  let fr := Redis.mkFrame (Redis.mkEnv 0 ∅ false 0)
              (CacheManager.init Samples.redis_url) in
  let started := snd (connect fr) in
  let again := snd (connect (mkFrame (Redis.mkEnv 9000000 ∅ true 1) (self started))) in
  primary (self started) = false
  /\ primary (self again) = false
  /\ use_redis (self again) = false.
Proof.
  apply (failed_connect_is_final
           (Redis.mkFrame (Redis.mkEnv 0 ∅ false 0)
              (CacheManager.init Samples.redis_url))
           (Redis.mkEnv 9000000 ∅ true 1)).
  reflexivity.
Defined.

(** X14.  Two cache keys are equal only for the same data class and the same
    symbol: entries of different classes or symbols never share a key. *)
Theorem make_key_injective (c1 c2 : DataClass) (s1 s2 : string) :
  make_key c1 s1 = make_key c2 s2 -> c1 = c2 /\ s1 = s2.
Proof.
  destruct c1, c2; unfold make_key; cbn; intros H;
    try discriminate H; (split; [reflexivity |]);
    repeat (injection H as H); exact H.
Qed.

Lemma make_key_injective_witness :
  Price = Price /\ "BTC"%string = "BTC"%string.
Proof.
  apply (make_key_injective Price Price "BTC" "BTC"). reflexivity.
Defined.

End CacheMore.

(** ** More of the signal fusion engine *)

Section FusionMore.
Import PyEff PyNum Models SignalGenerator FusionWeights FusionView.
Local Open Scope Z_scope.

(** X16.  A higher overall score never gives a weaker signal class. *)
Theorem score_to_signal_type_monotone (a b : Z) :
  a <= b ->
  strength (_score_to_signal_type a) <= strength (_score_to_signal_type b).
Proof.
  intros H. unfold _score_to_signal_type.
  repeat match goal with
    | |- context [(?x <=? ?y)] =>
        let E := fresh "E" in
        destruct (Z.leb_spec x y) as [E | E]
    end; cbn; lia.
Qed.

Lemma score_to_signal_type_monotone_witness :
  strength (_score_to_signal_type 44) <= strength (_score_to_signal_type 45).
Proof. apply (score_to_signal_type_monotone 44 45). lia. Defined.

Lemma band_delta_spec (x lo2 lo1 hi2 hi1 : Q) (big small score : Z) :
  band x lo2 lo1 hi2 hi1 big small score
  = score + band_delta x lo2 lo1 hi2 hi1 big small.
Proof.
  unfold band, band_delta.
  repeat match goal with |- context [if ?c then _ else _] => destruct c end;
    lia.
Qed.

Lemma band_delta_bound (x lo2 lo1 hi2 hi1 : Q) (big small : Z) :
  0 <= small <= big ->
  - big <= band_delta x lo2 lo1 hi2 hi1 big small <= big.
Proof.
  intros H. unfold band_delta.
  repeat match goal with |- context [if ?c then _ else _] => destruct c end;
    lia.
Qed.

(** X17.  The macro score is 50 plus the points of the dollar index (at most
    20 either way), of the volatility index and of the fear and greed
    index (at most 15 either way each).  The sum never leaves 0..100, so
    the final clamp never changes it; the price data plays no part. *)
Theorem macro_score_is_unclamped_sum (macro : MacroContext) (price_data : CoinPrice) :
  _calculate_macro_score macro price_data
  = 50 + dxy_delta macro + vix_delta macro + fear_greed_delta macro
  /\ 0 <= _calculate_macro_score macro price_data <= 100
  /\ - 20 <= dxy_delta macro <= 20
  /\ - 15 <= vix_delta macro <= 15
  /\ - 15 <= fear_greed_delta macro <= 15.
Proof.
  assert (Hd : - 20 <= dxy_delta macro <= 20).
  { unfold dxy_delta. destruct (truthy (dxy macro)); [| lia].
    pose proof (band_delta_bound (value (dxy macro)) 95 100 110 105 20 10).
    lia. }
  assert (Hv : - 15 <= vix_delta macro <= 15).
  { unfold vix_delta. destruct (truthy (vix macro)); [| lia].
    pose proof (band_delta_bound (value (vix macro)) 15 20 30 25 15 5).
    lia. }
  assert (Hf : - 15 <= fear_greed_delta macro <= 15).
  { unfold fear_greed_delta. destruct (fear_greed_index macro) as [fgi |]; [| lia].
    destruct (fgi =? 0); [lia |].
    pose proof (band_delta_bound (inject_Z fgi) 25 40 75 60 15 5).
    lia. }
  assert (Hsum :
    _calculate_macro_score macro price_data
    = clamp_0_100 (50 + dxy_delta macro + vix_delta macro + fear_greed_delta macro)).
  { unfold _calculate_macro_score, dxy_delta, vix_delta, fear_greed_delta.
    f_equal.
    destruct (truthy (dxy macro)), (truthy (vix macro)),
      (fear_greed_index macro) as [fgi |];
      try destruct (fgi =? 0); rewrite ?band_delta_spec; lia. }
  rewrite Hsum. rewrite clamp_0_100_id by lia.
  repeat split; lia.
Qed.

(** [_map_ai_to_score] reads the rating and the confidence only. *)
Lemma map_ai_reads (ai : AIAnalysis) :
  _map_ai_to_score ai
  = _map_ai_to_score
      (mkAIAnalysis "" (rating ai) (ai_confidence ai) SWING None None None None None).
Proof. reflexivity. Qed.

(** Checked by running the code on the 7 ratings and 101 confidences. *)
Lemma sentiment_checked :
  forallb (fun r => forallb (between_neutral_and_anchor r) scores) ratings = true.
Proof. vm_compute. reflexivity. Qed.

Lemma in_ratings (r : SignalType) : In r ratings.
Proof. destruct r; cbn; tauto. Qed.

(** X18.  For a confidence in 0..100 the sentiment score is returned and lies
    between the neutral 50 and the anchor of the rating (95, 75, 60, 50,
    40, 25, 5 from strong buy to strong sell): it is 50 at confidence 0
    and the anchor at confidence 100. *)
Theorem sentiment_score_between_neutral_and_anchor (ai : AIAnalysis) :
  0 <= ai_confidence ai <= 100 ->
  exists score,
    _map_ai_to_score ai = Returned score
    /\ Z.min 50 (signal_map (rating ai)) <= score <= Z.max 50 (signal_map (rating ai))
    /\ (ai_confidence ai = 0 -> score = 50)
    /\ (ai_confidence ai = 100 -> score = signal_map (rating ai)).
Proof.
  intros Hc.
  pose proof sentiment_checked as H. rewrite forallb_forall in H.
  specialize (H (rating ai) (in_ratings _)).
  pose proof (forallb_scores _ (ai_confidence ai) H Hc) as Hok.
  unfold between_neutral_and_anchor in Hok.
  rewrite <- map_ai_reads in Hok.
  destruct (_map_ai_to_score ai) as [score | e] eqn:Hscore; [| discriminate Hok].
  exists score. split; [reflexivity |].
  apply andb_prop in Hok. destruct Hok as [Hlo Hhi].
  apply Z.leb_le in Hlo. apply Z.leb_le in Hhi.
  split; [lia |]. split.
  - intros H0. rewrite map_ai_reads, H0 in Hscore.
    destruct (rating ai); vm_compute in Hscore; injection Hscore as <-;
      reflexivity.
  - intros H100. rewrite map_ai_reads, H100 in Hscore.
    destruct (rating ai); vm_compute in Hscore; injection Hscore as <-;
      reflexivity.
Qed.

Lemma sentiment_score_between_neutral_and_anchor_witness :
  exists score,
    _map_ai_to_score Samples.half_open_entry = Returned score
    /\ Z.min 50 (signal_map (rating Samples.half_open_entry)) <= score
       <= Z.max 50 (signal_map (rating Samples.half_open_entry))
    /\ (ai_confidence Samples.half_open_entry = 0 -> score = 50)
    /\ (ai_confidence Samples.half_open_entry = 100 ->
        score = signal_map (rating Samples.half_open_entry)).
Proof.
  apply (sentiment_score_between_neutral_and_anchor Samples.half_open_entry).
  cbn. lia.
Defined.

(** X19.  The confidence starts from the confidence of the sentiment result,
    or 50 without one, and ends as that, that plus 10 capped at 100, or
    that minus 15 floored at 0; with the technical score as the only
    layer it is left as it started.  From a start in 0..100 it stays in
    0..100. *)
Theorem confidence_adjustment
    (technical_score : Z) (macro_score sentiment_score : option Z)
    (ai_analysis : option AIAnalysis) :
  valid_confidence ai_analysis ->
  let base :=
    match ai_analysis with
    | Some ai => ai_confidence ai
    | None => 50
    end in
  let c := _calculate_confidence technical_score macro_score sentiment_score
             ai_analysis in
  (c = base \/ c = Z.min 100 (base + 10) \/ c = Z.max 0 (base - 15))
  /\ 0 <= c <= 100
  /\ (macro_score = None -> sentiment_score = None -> c = base).
Proof.
  intros Hvalid base c.
  assert (Hbase : 0 <= base <= 100).
  { unfold base. destruct ai_analysis as [ai |]; cbn in Hvalid; lia. }
  assert (Hcases : c = base \/ c = Z.min 100 (base + 10) \/ c = Z.max 0 (base - 15)).
  { unfold c, _calculate_confidence. fold base.
    repeat match goal with |- context [if ?x then _ else _] => destruct x end;
      tauto. }
  split; [exact Hcases |]. split; [lia |].
  intros -> ->. reflexivity.
Qed.

Lemma confidence_adjustment_witness :
  let c := _calculate_confidence 70 (Some 75) (Some 72)
             (Some (mkAIAnalysis "BTC" BUY 60 SWING None None None None None)) in
  (c = 60 \/ c = Z.min 100 (60 + 10) \/ c = Z.max 0 (60 - 15))
  /\ 0 <= c <= 100
  /\ (Some 75 = None -> Some 72 = None -> c = 60).
Proof.
  apply (confidence_adjustment 70 (Some 75) (Some 72)
           (Some (mkAIAnalysis "BTC" BUY 60 SWING None None None None None))).
  cbn. lia.
Defined.

Lemma trade_levels_cases
    (signal_type : SignalType) (price_data : CoinPrice)
    (technical : TechnicalIndicators) (ai_analysis : option AIAnalysis) :
  (half_open ai_analysis = true ->
   _determine_trade_levels signal_type price_data technical ai_analysis
   = Raised TypeError)
  /\ (half_open ai_analysis = false ->
      exists zone targets stop,
        _determine_trade_levels signal_type price_data technical ai_analysis
        = Returned (action_map signal_type, zone, targets, stop)
        /\ (match ai_analysis with
            | Some ai => truthy (entry_zone_low ai) = false
            | None => True
            end ->
            match signal_type with
            | STRONG_BUY | BUY => length targets = 3%nat /\ is_Some stop
            | _ => targets = [] /\ stop = None
            end)).
Proof.
  unfold half_open, _determine_trade_levels. split.
  - destruct ai_analysis as [ai |]; [| discriminate].
    intros H. apply andb_prop in H. destruct H as [Hlow Hhigh].
    rewrite Hlow.
    destruct (entry_zone_high ai) as [high |]; [discriminate Hhigh |].
    destruct (entry_zone_low ai); reflexivity.
  - intros H. destruct ai_analysis as [ai |].
    + destruct (truthy (entry_zone_low ai)) eqn:Hlow.
      * destruct (entry_zone_high ai) as [high |]; [| discriminate H].
        destruct (entry_zone_low ai) as [low |]; [| discriminate Hlow].
        cbn. do 3 eexists. split; [reflexivity |]. discriminate.
      * destruct signal_type; cbn; do 3 eexists;
          (split; [reflexivity |]); intros _; split; eauto.
    + destruct signal_type; cbn; do 3 eexists;
        (split; [reflexivity |]); intros _; split; eauto.
Qed.

(** X20.  The trade-level step raises exactly for a sentiment result with a
    lower entry bound and no upper one.  Otherwise it returns the action
    text of the signal class; and when the levels are not taken from the
    sentiment result, a hold, weak-buy or sell class carries no target and
    no stop, and a buy class carries three targets. *)
Theorem trade_levels_raise_iff
    (signal_type : SignalType) (price_data : CoinPrice)
    (technical : TechnicalIndicators) (ai_analysis : option AIAnalysis) :
  (half_open ai_analysis = true ->
   _determine_trade_levels signal_type price_data technical ai_analysis
   = Raised TypeError)
  /\ (half_open ai_analysis = false ->
      exists zone targets stop,
        _determine_trade_levels signal_type price_data technical ai_analysis
        = Returned (action_map signal_type, zone, targets, stop)
        /\ (match ai_analysis with
            | Some ai => truthy (entry_zone_low ai) = false
            | None => True
            end ->
            match signal_type with
            | STRONG_BUY | BUY => length targets = 3%nat /\ is_Some stop
            | _ => targets = [] /\ stop = None
            end)).
Proof.
  exact (trade_levels_cases signal_type price_data technical ai_analysis).
Qed.

Lemma technical_score_percent (technical : TechnicalIndicators) :
  percent (_calculate_technical_score technical) = true.
Proof.
  unfold _calculate_technical_score, TechCalc.calculate_technical_score, percent.
  match goal with
  | |- context [clamp_0_100 ?x] => pose proof (clamp_0_100_range x) as H
  end.
  apply andb_true_intro. split; apply Z.leb_le; apply H.
Qed.

Lemma macro_score_percent (macro : MacroContext) (price_data : CoinPrice) :
  percent (_calculate_macro_score macro price_data) = true.
Proof.
  unfold _calculate_macro_score, percent.
  match goal with
  | |- context [clamp_0_100 ?x] => pose proof (clamp_0_100_range x) as H
  end.
  apply andb_true_intro. split; apply Z.leb_le; apply H.
Qed.

Lemma sentiment_score_percent (ai : AIAnalysis) :
  0 <= ai_confidence ai <= 100 ->
  exists score, _map_ai_to_score ai = Returned score /\ percent score = true.
Proof.
  intros Hc.
  pose proof sentiment_checked as H. rewrite forallb_forall in H.
  specialize (H (rating ai) (in_ratings _)).
  pose proof (forallb_scores _ (ai_confidence ai) H Hc) as Hok.
  unfold between_neutral_and_anchor in Hok.
  rewrite <- map_ai_reads in Hok.
  destruct (_map_ai_to_score ai) as [score | e]; [| discriminate Hok].
  exists score. split; [reflexivity |].
  apply andb_prop in Hok. destruct Hok as [Hlo Hhi].
  apply Z.leb_le in Hlo. apply Z.leb_le in Hhi.
  unfold percent. apply andb_true_intro.
  split; apply Z.leb_le; destruct (rating ai); cbn in Hlo, Hhi; lia.
Qed.

Lemma overall_score_percent
    (technical_score : Z) (macro_score sentiment_score : option Z) :
  percent technical_score = true ->
  opt_percent macro_score = true ->
  opt_percent sentiment_score = true ->
  exists overall,
    _calculate_overall_score technical_score macro_score sentiment_score
    = Returned overall
    /\ percent overall = true.
Proof.
  unfold percent, opt_percent. intros Ht Hm Hs.
  apply andb_prop in Ht. destruct Ht as [Ht1 Ht2].
  apply Z.leb_le in Ht1. apply Z.leb_le in Ht2.
  assert (Hm' : percent_or_absent macro_score).
  { destruct macro_score as [m |]; [| exact I]. cbn.
    apply andb_prop in Hm. destruct Hm as [H1 H2].
    apply Z.leb_le in H1. apply Z.leb_le in H2. lia. }
  assert (Hs' : percent_or_absent sentiment_score).
  { destruct sentiment_score as [x |]; [| exact I]. cbn.
    apply andb_prop in Hs. destruct Hs as [H1 H2].
    apply Z.leb_le in H1. apply Z.leb_le in H2. lia. }
  pose proof (just_below_in_range technical_score macro_score sentiment_score
                (conj Ht1 Ht2) Hm' Hs') as H.
  unfold ok in H.
  destruct (_calculate_overall_score technical_score macro_score sentiment_score)
    as [overall | e] eqn:Hov; [| discriminate H].
  exists overall. split; [reflexivity |].
  unfold just_below in H. apply andb_prop in H. destruct H as [Hlo Hhi].
  apply Z.leb_le in Hlo. apply Z.leb_le in Hhi.
  assert (Hten : 0 <= tenths technical_score macro_score sentiment_score <= 1000).
  { unfold tenths. destruct macro_score, sentiment_score; cbn in Hm', Hs'; lia. }
  apply andb_true_intro. split; apply Z.leb_le; [| lia].
  destruct (Z.eq_dec (tenths technical_score macro_score sentiment_score) 0)
    as [Hzero | Hpos]; [| lia].
  assert (technical_score = 0).
  { unfold tenths in Hzero.
    destruct macro_score, sentiment_score; cbn in Hm', Hs'; lia. }
  subst technical_score.
  destruct macro_score as [m |], sentiment_score as [x |];
    cbn in Hm', Hs'; unfold tenths in Hzero.
  - assert (m = 0) by lia. assert (x = 0) by lia. subst m x.
    vm_compute in Hov. injection Hov as <-. lia.
  - assert (m = 0) by lia. subst m.
    vm_compute in Hov. injection Hov as <-. lia.
  - assert (x = 0) by lia. subst x.
    vm_compute in Hov. injection Hov as <-. lia.
  - vm_compute in Hov. injection Hov as <-. lia.
Qed.

Lemma confidence_percent
    (technical_score : Z) (macro_score sentiment_score : option Z)
    (ai_analysis : option AIAnalysis) :
  valid_confidence ai_analysis ->
  percent (_calculate_confidence technical_score macro_score sentiment_score
             ai_analysis) = true.
Proof.
  intros Hvalid.
  assert (Hbase : 0 <= match ai_analysis with
                       | Some ai => ai_confidence ai
                       | None => 50
                       end <= 100).
  { destruct ai_analysis as [ai |]; cbn in Hvalid; lia. }
  unfold _calculate_confidence, percent.
  apply andb_true_intro.
  repeat match goal with |- context [if ?x then _ else _] => destruct x end;
    split; apply Z.leb_le; lia.
Qed.

(** X21.  For a sentiment result whose confidence is in 0..100, or none:
    [generate_signal] falls back to the safe default exactly when the
    sentiment result has a lower entry bound and no upper one.  In every
    other case it returns what the fusion computed: the class is the one
    the overall score maps to, the action is the text of that class, the
    technical score is the computed one, and overall score and
    confidence lie in 0..100. *)
Theorem safe_default_exactly_for_half_open_entry
    (coin : string) (price_data : CoinPrice) (technical : TechnicalIndicators)
    (ai_analysis : option AIAnalysis) (macro : option MacroContext) :
  valid_confidence ai_analysis ->
  (half_open ai_analysis = true ->
   generate_signal coin price_data technical ai_analysis macro
   = Returned (default_signal coin))
  /\ (half_open ai_analysis = false ->
      exists s,
        generate_signal coin price_data technical ai_analysis macro = Returned s
        /\ fusion coin price_data technical ai_analysis macro = Returned s
        /\ Models.coin s = coin
        /\ signal s = _score_to_signal_type (overall_score s)
        /\ action s = action_map (signal s)
        /\ technical_score s = _calculate_technical_score technical
        /\ 0 <= overall_score s <= 100
        /\ 0 <= confidence s <= 100).
Proof.
  intros Hvalid.
  pose proof (technical_score_percent technical) as Htech.
  set (t := _calculate_technical_score technical) in *.
  set (m := match macro with
            | Some mc => Some (_calculate_macro_score mc price_data)
            | None => None
            end).
  assert (Hm : opt_percent m = true).
  { unfold m. destruct macro; [apply macro_score_percent | reflexivity]. }
  assert (Hsent :
    exists sent,
      match ai_analysis with
      | Some ai => and_then (_map_ai_to_score ai) (fun x => Returned (Some x))
      | None => Returned None
      end = Returned sent
      /\ opt_percent sent = true).
  { destruct ai_analysis as [ai |]; [| exists None; split; reflexivity].
    destruct (sentiment_score_percent ai Hvalid) as (score & Hscore & Hp).
    exists (Some score). rewrite Hscore. split; [reflexivity | exact Hp]. }
  destruct Hsent as (sent & Hsent & Hsp).
  destruct (overall_score_percent t m sent Htech Hm Hsp) as (o & Ho & Hop).
  pose proof (confidence_percent t m sent ai_analysis Hvalid) as Hcp.
  destruct (trade_levels_cases (_score_to_signal_type o) price_data
              technical ai_analysis) as [Hraise Hlevels].
  assert (Hfusion :
    fusion coin price_data technical ai_analysis macro
    = and_then
        (_determine_trade_levels (_score_to_signal_type o) price_data technical
           ai_analysis)
        (fun levels =>
           let '(action, entry_zone, targets, stop_loss) := levels in
           MultiLayerSignal_new
             (mkMultiLayerSignal coin (_score_to_signal_type o) o
                (_calculate_confidence t m sent ai_analysis) t None m sent
                action entry_zone targets stop_loss
                (Some (_recommend_position_size (_score_to_signal_type o)
                         (_calculate_confidence t m sent ai_analysis) price_data))
                match ai_analysis with
                | Some ai => timeframe_value (ai_timeframe ai)
                | None => "7-14 days"%string
                end))).
  { unfold fusion. fold t. fold m. rewrite Hsent. cbn [and_then].
    rewrite Ho. reflexivity. }
  split.
  - intros Hopen. unfold generate_signal.
    rewrite Hfusion, (Hraise Hopen). reflexivity.
  - intros Hclosed.
    destruct (Hlevels Hclosed) as (zone & targets & stop & Hlev & _).
    rewrite Hlev in Hfusion. cbn [and_then] in Hfusion.
    unfold MultiLayerSignal_new in Hfusion. cbn in Hfusion.
    rewrite Hop, Hcp, Htech, Hm, Hsp in Hfusion. cbn in Hfusion.
    eexists. unfold generate_signal. rewrite Hfusion.
    split; [reflexivity |]. split; [reflexivity |]. cbn.
    unfold percent in Hop, Hcp.
    apply andb_prop in Hop. destruct Hop as [Ho1 Ho2].
    apply andb_prop in Hcp. destruct Hcp as [Hc1 Hc2].
    apply Z.leb_le in Ho1. apply Z.leb_le in Ho2.
    apply Z.leb_le in Hc1. apply Z.leb_le in Hc2.
    repeat split; try reflexivity; assumption.
Qed.

Lemma safe_default_exactly_for_half_open_entry_witness :
  generate_signal "BTC" Samples.btc_price Samples.btc_technical
                  (Some Samples.half_open_entry) None
  = Returned (default_signal "BTC").
Proof.
  destruct (safe_default_exactly_for_half_open_entry "BTC" Samples.btc_price
              Samples.btc_technical (Some Samples.half_open_entry) None)
    as [Hdefault _]; [cbn; lia |].
  apply Hdefault. reflexivity.
Defined.

Lemma trade_levels_raise_iff_witness :
  _determine_trade_levels BUY Samples.btc_price Samples.btc_technical
    (Some Samples.half_open_entry)
  = Raised TypeError.
Proof.
  destruct (trade_levels_raise_iff BUY Samples.btc_price Samples.btc_technical
              (Some Samples.half_open_entry)) as [Hraise _].
  apply Hraise. reflexivity.
Defined.

(** X22.  In the fusion the price is stood in for by the middle band, so with
    bands in their order (lower, middle, upper) the channel is always
    read as neutral and adds nothing to the technical score. *)
Theorem bb_signal_neutral_for_ordered_bands (technical : TechnicalIndicators) :
  (bb_lower technical <= bb_middle technical)%Q ->
  (bb_middle technical <= bb_upper technical)%Q ->
  _determine_bb_signal technical = "NEUTRAL"%string.
Proof.
  intros Hlo Hhi. unfold _determine_bb_signal.
  destruct (negb _); [reflexivity |].
  apply Qlt_bool_false_iff in Hlo. apply Qlt_bool_false_iff in Hhi.
  rewrite Hlo, Hhi. reflexivity.
Qed.

Lemma bb_signal_neutral_for_ordered_bands_witness :
  _determine_bb_signal Samples.btc_technical = "NEUTRAL"%string.
Proof.
  apply (bb_signal_neutral_for_ordered_bands Samples.btc_technical);
    discriminate.
Defined.

End FusionMore.

Section PositionSize.
Import PyNum Models SignalGenerator FusionWeights FusionView.

(** The volatility test has three ways through, and the size depends on
    the price record only through the way taken. *)
Lemma position_size_by_way
    (signal_type : SignalType) (confidence : Z) (price_data : CoinPrice) :
  _recommend_position_size signal_type confidence price_data
  = _recommend_position_size signal_type confidence (same_way price_data)
  /\ In (same_way price_data) days.
Proof.
  unfold _recommend_position_size, same_way, days.
  destruct (Qlt_bool 10 (Qabs (change_24h price_data)));
    [split; [reflexivity | cbn; tauto] |].
  destruct (Qlt_bool 5 (Qabs (change_24h price_data)));
    split; try reflexivity; cbn; tauto.
Qed.

(** Checked by running the code on the three ways, the seven classes and
    the 101 confidences. *)
Lemma position_size_checked :
  forallb
    (fun d => forallb (fun s => forallb (size_within_base d s) scores) ratings)
    days
  = true.
Proof. vm_compute. reflexivity. Qed.

(** X23.  For a confidence in 0..100 the recommended position size, as
    computed in double precision and rounded to one decimal, lies between
    0 and the base size of the signal class (10, 7 and 3 per cent for the
    three buy classes), and it is 0 for every other class, whatever the
    price move. *)
Theorem position_size_bounds
    (signal_type : SignalType) (confidence : Z) (price_data : CoinPrice) :
  (0 <= confidence <= 100)%Z ->
  let size := _recommend_position_size signal_type confidence price_data in
  let base := base_size_map signal_type in
  (0 <=? size)%float = true
  /\ (size <=? base)%float = true
  /\ ((base =? 0)%float = true -> (size =? 0)%float = true).
Proof.
  intros Hc size base.
  destruct (position_size_by_way signal_type confidence price_data)
    as [Hway Hday].
  pose proof position_size_checked as H.
  rewrite forallb_forall in H. specialize (H _ Hday).
  rewrite forallb_forall in H. specialize (H _ (in_ratings signal_type)).
  pose proof (forallb_scores _ confidence H Hc) as Hok.
  unfold size_within_base in Hok. rewrite <- Hway in Hok.
  fold size in Hok. fold base in Hok.
  apply andb_prop in Hok. destruct Hok as [Hok Hzero].
  apply andb_prop in Hok. destruct Hok as [Hlo Hhi].
  split; [exact Hlo |]. split; [exact Hhi |].
  intros Hbase. rewrite Hbase in Hzero. exact Hzero.
Qed.

Lemma position_size_bounds_witness :
  let size := _recommend_position_size BUY 65 Samples.btc_price in
  size = 4.5%float
  /\ (0 <=? size)%float = true
  /\ (size <=? base_size_map BUY)%float = true
  /\ ((base_size_map BUY =? 0)%float = true -> (size =? 0)%float = true).
Proof.
  split; [vm_compute; reflexivity |].
  apply (position_size_bounds BUY 65 Samples.btc_price). lia.
Defined.

End PositionSize.

(** ** More of the indicator engine *)

Section TechnicalMore.
Import PyNum TechCalc TechView.
Local Open Scope Z_scope.

(** X15.  The score and the label of the momentum value agree: the score adds
    20 for what [analyze_candles] labels oversold, 10 for bearish, takes
    20 for overbought and 10 for bullish, and adds nothing for neutral,
    although the two test the thresholds in different orders. *)
Theorem momentum_points_follow_label (ind : Indicators) (score : Z) :
  score_rsi ind score = score + class_points (rsi_signal (rsi ind)).
Proof.
  unfold score_rsi, rsi_signal, class_points.
  destruct (rsi ind) as [r |]; [| cbn; lia].
  destruct (nonzero r); [| cbn; lia].
  destruct (Qlt_bool r 30) eqn:E30; [cbn; lia |].
  destruct (Qlt_bool r 40) eqn:E40.
  - destruct (Qlt_bool 70 r) eqn:E70; [| cbn; lia].
    apply Qlt_bool_iff in E40. apply Qlt_bool_iff in E70. lra.
  - destruct (Qlt_bool 70 r) eqn:E70; [cbn; lia |].
    destruct (Qlt_bool 60 r); cbn; lia.
Qed.

End TechnicalMore.

